(** * License analytics engine

    A shallow embedding of [app/services/ai_agent.py] (the utilization
    analyzer, the forecasting agent and the recommendation engine) together
    with the records of [app/models/license_models.py].

    Conventions of the embedding.
    - A Python/NumPy float is a real number ([R]); a result that the source
      computes as NaN (the sample deviation of one value, a negative base
      raised to a fractional power) is [None] in an [option R].
    - A [date] is its proleptic Gregorian ordinal (Python's
      [date.toordinal()]), so [d + timedelta(days=k)] is [d + k].
    - [datetime.now()] reads a clock that is part of the state; the fitted
      scaler and isolation forest of the analyzer object are part of the
      state as well.  Exceptions are the [Raise] results of a small
      state-and-error monad.
    - scikit-learn is outside the repository: its scaler and isolation
      forest are the operations of the class [Sklearn]. *)

From Stdlib Require Import String Ascii DecimalString.
From Stdlib Require Import Reals Lra Lia ZArith Bool List Permutation Sorted.
Import ListNotations.

Open Scope R_scope.

(** ** Comparisons on floats, as booleans *)

Definition Rltb (x y : R) : bool := if Rlt_dec x y then true else false.
Definition Rleb (x y : R) : bool := if Rle_dec x y then true else false.
Definition Rgtb (x y : R) : bool := Rltb y x.
Definition Reqb (x y : R) : bool := if Req_dec_T x y then true else false.

(** ** Python runtime: integer and float formatting *)

Module PyFormat.

(** [str(n)] for an integer. *)
Definition str_int (n : Z) : string := NilZero.string_of_int (Z.to_int n).

(** An integer left-padded with zeros to [width] digits ([%02d], [%04d]). *)
Fixpoint zeros (k : nat) : string :=
  match k with
  | O => EmptyString
  | S k' => String "0" (zeros k')
  end.

Definition pad_int (width : nat) (n : Z) : string :=
  let s := str_int n in
  append (zeros (width - String.length s)) s.

(** Nearest integer, ties to the even neighbour. *)
Definition round_half_even (x : R) : Z :=
  let f := Zfloor x in
  let r := x - IZR f in
  if Rltb r (1/2) then f
  else if Rltb (1/2) r then (f + 1)%Z
  else if Z.even f then f else (f + 1)%Z.

(** The format specification [:.1f]: sign of the argument, then the
    magnitude rounded to one decimal. *)
Definition format_1f (x : R) : string :=
  let t := round_half_even (10 * Rabs x) in
  append (if Rltb x 0 then "-" else "")
    (append (str_int (t / 10)) (append "." (str_int (t mod 10)))).

End PyFormat.

(** ** Calendar dates *)

Definition date := Z.

Module Calendar.

Definition days_before_month (m : Z) : Z :=
  nth (Z.to_nat m) [0; 0; 31; 59; 90; 120; 151; 181; 212; 243; 273; 304; 334]%Z 0%Z.

Definition days_in_month (m : Z) : Z :=
  nth (Z.to_nat m) [0; 31; 28; 31; 30; 31; 30; 31; 31; 30; 31; 30; 31]%Z 0%Z.

(** Year, month and day of an ordinal (day 1 is 0001-01-01), following
    [datetime._ord2ymd]. *)
Definition ord2ymd (ordinal : Z) : Z * Z * Z :=
  let n := (ordinal - 1)%Z in
  let n400 := (n / 146097)%Z in
  let n := (n mod 146097)%Z in
  let n100 := (n / 36524)%Z in
  let n := (n mod 36524)%Z in
  let n4 := (n / 1461)%Z in
  let n := (n mod 1461)%Z in
  let n1 := (n / 365)%Z in
  let n := (n mod 365)%Z in
  let year := (n400 * 400 + 1 + n100 * 100 + n4 * 4 + n1)%Z in
  if ((n1 =? 4) || (n100 =? 4))%Z then (year - 1, 12, 31)%Z
  else
    let leapyear := ((n1 =? 3) && (negb (n4 =? 24) || (n100 =? 3)))%Z in
    let month := Z.shiftr (n + 50) 5 in
    let preceding :=
      (days_before_month month + (if (2 <? month)%Z && leapyear then 1 else 0))%Z in
    if (n <? preceding)%Z then
      let month' := (month - 1)%Z in
      let preceding' :=
        (preceding - (days_in_month month'
                      + (if (month' =? 2)%Z && leapyear then 1 else 0)))%Z in
      (year, month', n - preceding' + 1)%Z
    else (year, month, n - preceding + 1)%Z.

Definition year (d : date) : Z := fst (fst (ord2ymd d)).
Definition month (d : date) : Z := snd (fst (ord2ymd d)).
Definition day (d : date) : Z := snd (ord2ymd d).

(** [date.weekday()]: Monday is 0. *)
Definition weekday (d : date) : Z := ((d + 6) mod 7)%Z.

(** [Series.dt.quarter]. *)
Definition quarter (d : date) : Z := ((month d - 1) / 3 + 1)%Z.

(** [strftime('%Y-%m-%d')]. *)
Definition strftime_ymd (d : date) : string :=
  append (PyFormat.pad_int 4 (year d))
    (append "-" (append (PyFormat.pad_int 2 (month d))
       (append "-" (PyFormat.pad_int 2 (day d))))).

End Calendar.

(** ** NumPy and pandas reductions, over the reals *)

Module Np.

Definition sum (l : list R) : R := fold_right Rplus 0 l.

(** [np.mean], [Series.mean]: every call of the engine is on a non-empty
    sequence. *)
Definition mean (l : list R) : R := sum l / INR (length l).

(** Sum of the squared deviations from the mean. *)
Definition sq_dev (l : list R) : R :=
  sum (map (fun x => (x - mean l) * (x - mean l)) l).

(** [Series.var()]: pandas divides by [n - 1] (ddof=1) and yields NaN for
    fewer than two values. *)
Definition var (l : list R) : option R :=
  if (length l <? 2)%nat then None
  else Some (sq_dev l / (INR (length l) - 1)).

(** [Series.std()], with the same default ddof=1. *)
Definition std (l : list R) : option R :=
  if (length l <? 2)%nat then None
  else Some (sqrt (sq_dev l / (INR (length l) - 1))).

Definition min (l : list R) : R :=
  match l with
  | [] => 0
  | x :: t => fold_left Rmin t x
  end.

Definition max (l : list R) : R :=
  match l with
  | [] => 0
  | x :: t => fold_left Rmax t x
  end.

Fixpoint insert_sorted (x : R) (l : list R) : list R :=
  match l with
  | [] => [x]
  | y :: t => if Rleb x y then x :: l else y :: insert_sorted x t
  end.

Definition sort (l : list R) : list R := fold_right insert_sorted [] l.

(** [Series.median()]: the middle value, or the mean of the two middle
    values. *)
Definition median (l : list R) : R :=
  let s := sort l in
  let n := length s in
  if Nat.even n
  then (nth (n / 2 - 1) s 0 + nth (n / 2) s 0) / 2
  else nth (n / 2) s 0.

(** [np.arange(n)] as floats. *)
Definition arange (n : nat) : list R := map INR (seq 0 n).

(** [np.polyfit(x, y, 1)[0]]: slope of the least-squares line. *)
Definition polyfit_slope (x y : list R) : R :=
  let mx := mean x in
  let my := mean y in
  sum (map (fun p => (fst p - mx) * (snd p - my)) (combine x y))
  / sum (map (fun a => (a - mx) * (a - mx)) x).

(** [base ** (1 / periods)] on a NumPy float, [periods >= 1]: a negative
    base with a fractional exponent is NaN. *)
Definition root (base : R) (periods : nat) : option R :=
  if (periods =? 1)%nat then Some base
  else if Rltb 0 base then Some (Rpower base (1 / INR periods))
  else if Reqb base 0 then Some 0
  else None.

(** [Series.head(k)] and [Series.tail(k)]. *)
Definition head {A} (k : nat) (l : list A) : list A := firstn k l.
Definition tail {A} (k : nat) (l : list A) : list A := skipn (length l - k) l.

End Np.

(** ** Data model ([license_models.py]) *)

Inductive BillingType :=
| PER_USER | PER_TASK | PER_STORAGE | PER_API_CALL | FLAT_RATE | TIERED.

(** The string value of the enumeration, which the engine compares with. *)
Definition billing_value (b : BillingType) : string :=
  match b with
  | PER_USER => "per_user"
  | PER_TASK => "per_task"
  | PER_STORAGE => "per_storage"
  | PER_API_CALL => "per_api_call"
  | FLAT_RATE => "flat_rate"
  | TIERED => "tiered"
  end.

Inductive LicenseStatus := ACTIVE | EXPIRED | PENDING_RENEWAL | CANCELLED.

Record SoftwareLicense := {
  lic_id : string;
  lic_name : string;
  vendor : string;
  billing_type : BillingType;
  cost_per_unit : R;
  total_license_cost : R;
  license_period_months : Z;
  start_date : date;
  end_date : date;
  status : LicenseStatus;
  max_units : option Z;
  current_units : option Z;
  auto_renewal : bool
}.

Record UsageMetric := {
  um_id : string;
  um_license_id : string;
  um_date : date;
  units_used : R;
  cost_incurred : R;
  utilization_percentage : R;
  peak_usage : option R;
  average_usage : option R
}.

Record ForecastData := {
  fd_license_id : string;
  forecast_date : date;
  predicted_usage : R;
  predicted_cost : R;
  confidence_score : R;
  trend : string;
  seasonal_factors : list (string * R)
}.

Record Alternative := {
  alt_option : string;
  alt_description : string;
  alt_estimated_savings : R
}.

Record Recommendation := {
  rec_license_id : string;
  recommendation : string;
  confidence : R;
  reasoning : list string;
  estimated_savings : option R;
  risk_factors : list string;
  alternative_options : list Alternative;
  priority : string
}.

(** The dictionary returned by the analyzer. *)

Record UtilizationStats := {
  us_mean : R;
  us_median : R;
  us_std : option R;
  us_min : R;
  us_max : R
}.

Record CostAnalysis := {
  ca_total_cost : R;
  ca_average_daily_cost : R;
  ca_cost_trend : string
}.

Record UsageTrends := {
  monthly_pattern : list (Z * R);
  weekly_pattern : list (Z * R);
  quarterly_pattern : list (Z * R);
  growth_rate : option R
}.

Record Anomaly := {
  an_date : string;
  an_utilization : R;
  an_cost : R;
  anomaly_score : R
}.

Inductive Seasonality :=
| SeasonInsufficient
| Seasonal (strength : option R) (pattern : list (Z * R)) (peak_month low_month : Z).

Record UtilizationProfile := {
  total_records : nat;
  date_range : string * string;
  utilization_stats : UtilizationStats;
  cost_analysis : CostAnalysis;
  usage_trends : UsageTrends;
  anomalies : list Anomaly;
  seasonality : Seasonality
}.

(** [analyze_utilization_patterns] returns either the dictionary with the
    single key ["error"] or the full profile. *)
Inductive AnalysisResult :=
| AnalysisError (msg : string)
| Analysis (profile : UtilizationProfile).

(** ** The data frame: rows sorted by date *)

Definition DataFrame := list UsageMetric.

Fixpoint insert_by_date (r : UsageMetric) (df : DataFrame) : DataFrame :=
  match df with
  | [] => [r]
  | r' :: t =>
      if (um_date r <? um_date r')%Z then r :: df
      else r' :: insert_by_date r t
  end.

(** [df.sort_values('date')]: rows of equal date keep their input order
    (the data model has one row per date). *)
Definition sort_values_date (rows : list UsageMetric) : DataFrame :=
  fold_left (fun acc r => insert_by_date r acc) rows [].

(** Distinct keys in ascending order, as [groupby] lists its groups. *)
Fixpoint insert_key (k : Z) (ks : list Z) : list Z :=
  match ks with
  | [] => [k]
  | k' :: t =>
      if (k <? k')%Z then k :: ks
      else if (k =? k')%Z then ks
      else k' :: insert_key k t
  end.

Definition group_keys (ks : list Z) : list Z := fold_right insert_key [] ks.

(** [df.groupby(key)[col].mean().to_dict()]. *)
Definition groupby_mean (key : UsageMetric -> Z) (col : UsageMetric -> R)
    (df : DataFrame) : list (Z * R) :=
  map (fun k => (k, Np.mean (map col (filter (fun r => (key r =? k)%Z) df))))
      (group_keys (map key df)).

(** [Series.idxmax()] and [Series.idxmin()]: the first key holding the
    extreme value. *)
Fixpoint idxmax (s : list (Z * R)) : Z :=
  match s with
  | [] => 0%Z
  | [(k, _)] => k
  | (k, v) :: t => if Rleb (Np.max (map snd t)) v then k else idxmax t
  end.

Fixpoint idxmin (s : list (Z * R)) : Z :=
  match s with
  | [] => 0%Z
  | [(k, _)] => k
  | (k, v) :: t => if Rleb v (Np.min (map snd t)) then k else idxmin t
  end.

(** ** Exceptions and the state-and-error monad *)

Inductive PyError :=
| ZeroDivisionError
| ValueError
| ValidationError
| NotFittedError.

Inductive Result (A : Type) :=
| Ok (a : A)
| Raise (e : PyError).

Arguments Ok {A} a.
Arguments Raise {A} e.

Definition rbind {A B} (r : Result A) (f : A -> Result B) : Result B :=
  match r with
  | Ok a => f a
  | Raise e => Raise e
  end.

Definition M (S A : Type) := S -> Result (A * S).

Definition ret {S A} (a : A) : M S A := fun s => Ok (a, s).

Definition bind {S A B} (m : M S A) (f : A -> M S B) : M S B :=
  fun s =>
    match m s with
    | Ok (a, s') => f a s'
    | Raise e => Raise e
    end.

Definition lift {S A} (r : Result A) : M S A :=
  fun s =>
    match r with
    | Ok a => Ok (a, s)
    | Raise e => Raise e
    end.

Declare Scope py_scope.
Delimit Scope py_scope with py.
Notation "x <- m ;; k" := (bind m (fun x => k))
  (at level 61, m at next level, right associativity) : py_scope.
Notation "x <-- r ;; k" := (rbind r (fun x => k))
  (at level 61, r at next level, right associativity) : py_scope.
Open Scope py_scope.

(** A [for] loop that appends one element per iteration. *)
Fixpoint for_each {S A B} (l : list A) (body : A -> M S B) : M S (list B) :=
  match l with
  | [] => ret []
  | a :: t => b <- body a ;; bs <- for_each t body ;; ret (b :: bs)
  end.

(** [range(n)]: empty when [n <= 0]. *)
Definition range (n : Z) : list Z := map Z.of_nat (seq 0 (Z.to_nat n)).

(** [np.full(days, v)]: a negative length is a [ValueError]. *)
Definition np_full (days : Z) (v : R) : Result (list R) :=
  if (days <? 0)%Z then Raise ValueError
  else Ok (repeat v (Z.to_nat days)).

(** The pydantic constraint [Field(ge=0, le=1)]. *)
Definition validate_ge0_le1 (x : R) : Result R :=
  if Rleb 0 x && Rleb x 1 then Ok x else Raise ValidationError.

(** ** scikit-learn *)

Definition Sample := (R * R * R)%type.

(** [StandardScaler] and [IsolationForest].  A fit is a function of the
    hyper-parameters (contamination, integer [random_state]) and of the
    training matrix; transform, predict and score work row by row. *)
Class Sklearn := {
  ScalerModel : Type;
  Forest : Type;
  scaler_fit : list Sample -> ScalerModel;
  scaler_transform : ScalerModel -> Sample -> Sample;
  iforest_fit : R -> Z -> list Sample -> Forest;
  iforest_predict : Forest -> Sample -> Z;
  iforest_score_samples : Forest -> Sample -> R
}.

Section Engine.

Context {sk : Sklearn}.

(** The state the engine runs in: the clock read by [datetime.now()] (its
    successive readings and how many were taken), and the fitted scaler and
    detector held by the analyzer object ([None] before the first fit). *)
Record World := {
  clock : nat -> date;
  ticks : nat;
  scaler : option ScalerModel;
  anomaly_detector : option Forest
}.

(** [datetime.now().date()]. *)
Definition now_date : M World date :=
  fun w =>
    Ok (clock w (ticks w),
        {| clock := clock w; ticks := S (ticks w);
           scaler := scaler w; anomaly_detector := anomaly_detector w |}).

(** *** LicenseUtilizationAnalyzer *)

(** [__init__]: an unfitted scaler, and a detector with these
    hyper-parameters. *)
Definition contamination : R := 0.1.
Definition random_state : Z := 42.

Definition analyzer_init (clk : nat -> date) : World :=
  {| clock := clk; ticks := 0; scaler := None; anomaly_detector := None |}.

(** [self.scaler.fit_transform(X)]. *)
Definition fit_transform (X : list Sample) : M World (list Sample) :=
  fun w =>
    let sc := scaler_fit X in
    Ok (map (scaler_transform sc) X,
        {| clock := clock w; ticks := ticks w;
           scaler := Some sc; anomaly_detector := anomaly_detector w |}).

(** [self.anomaly_detector.fit_predict(X)]. *)
Definition fit_predict (X : list Sample) : M World (list Z) :=
  fun w =>
    let forest := iforest_fit contamination random_state X in
    Ok (map (iforest_predict forest) X,
        {| clock := clock w; ticks := ticks w;
           scaler := scaler w; anomaly_detector := Some forest |}).

(** [self.anomaly_detector.score_samples([x])[0]]. *)
Definition score_samples (x : Sample) : M World R :=
  fun w =>
    match anomaly_detector w with
    | Some forest => Ok (iforest_score_samples forest x, w)
    | None => Raise NotFittedError
    end.

Definition _calculate_trend (values : list R) : string :=
  if (length values <? 2)%nat then "insufficient_data"
  else
    let x := Np.arange (length values) in
    let slope := Np.polyfit_slope x values in
    if Rgtb slope 0.1 then "increasing"
    else if Rltb slope (-0.1) then "decreasing"
    else "stable".

Definition _calculate_growth_rate (values : list R) : option R :=
  if (length values <? 2)%nat then Some 0
  else
    let first_value := nth 0 values 0 in
    let last_value := last values 0 in
    let periods := (length values - 1)%nat in
    if Reqb first_value 0 then Some 0
    else option_map (fun p => p - 1) (Np.root (last_value / first_value) periods).

Definition _analyze_usage_trends (df : DataFrame) : UsageTrends :=
  {| monthly_pattern :=
       groupby_mean (fun r => Calendar.month (um_date r)) utilization_percentage df;
     weekly_pattern :=
       groupby_mean (fun r => Calendar.weekday (um_date r)) utilization_percentage df;
     quarterly_pattern :=
       groupby_mean (fun r => Calendar.quarter (um_date r)) utilization_percentage df;
     growth_rate := _calculate_growth_rate (map utilization_percentage df) |}.

Definition _detect_anomalies (df : DataFrame) : M World (list Anomaly) :=
  if (length df <? 10)%nat then ret []
  else
    let features :=
      map (fun r => (utilization_percentage r, cost_incurred r, units_used r)) df in
    features_scaled <- fit_transform features ;;
    anomaly_scores <- fit_predict features_scaled ;;
    found <- for_each (combine df (combine features_scaled anomaly_scores))
      (fun row =>
         let '(r, (x, score)) := row in
         if (score =? -1)%Z then
           s <- score_samples x ;;
           ret [ {| an_date := Calendar.strftime_ymd (um_date r);
                    an_utilization := utilization_percentage r;
                    an_cost := cost_incurred r;
                    anomaly_score := s |} ]
         else ret []) ;;
    ret (concat found).

Definition _detect_seasonality (df : DataFrame) : Seasonality :=
  if (length df <? 30)%nat then SeasonInsufficient
  else
    let monthly_avg :=
      groupby_mean (fun r => Calendar.month (um_date r)) utilization_percentage df in
    let seasonal_variance := Np.var (map snd monthly_avg) in
    let overall_variance := Np.var (map utilization_percentage df) in
    let seasonality_strength :=
      match overall_variance with
      | Some ov =>
          if Rgtb ov 0 then option_map (fun sv => sv / ov) seasonal_variance
          else Some 0
      | None => Some 0
      end in
    Seasonal seasonality_strength monthly_avg (idxmax monthly_avg) (idxmin monthly_avg).

Definition date_min (df : DataFrame) : date :=
  match map um_date df with
  | [] => 0%Z
  | d :: t => fold_left Z.min t d
  end.

Definition date_max (df : DataFrame) : date :=
  match map um_date df with
  | [] => 0%Z
  | d :: t => fold_left Z.max t d
  end.

Definition analyze_utilization_patterns (usage_data : list UsageMetric)
  : M World AnalysisResult :=
  match usage_data with
  | [] => ret (AnalysisError "No usage data provided")
  | _ :: _ =>
      let df := sort_values_date usage_data in
      let utilization := map utilization_percentage df in
      let cost := map cost_incurred df in
      detected <- _detect_anomalies df ;;
      ret (Analysis
        {| total_records := length df;
           date_range := (Calendar.strftime_ymd (date_min df),
                          Calendar.strftime_ymd (date_max df));
           utilization_stats :=
             {| us_mean := Np.mean utilization;
                us_median := Np.median utilization;
                us_std := Np.std utilization;
                us_min := Np.min utilization;
                us_max := Np.max utilization |};
           cost_analysis :=
             {| ca_total_cost := Np.sum cost;
                ca_average_daily_cost := Np.mean cost;
                ca_cost_trend := _calculate_trend cost |};
           usage_trends := _analyze_usage_trends df;
           anomalies := detected;
           seasonality := _detect_seasonality df |})
  end.

(** *** LicenseForecastingAgent *)

Definition _forecast_usage (df : DataFrame) (days : Z) : Result (list R) :=
  let units := map units_used df in
  if (length df <? 7)%nat then
    let avg_usage := Np.mean units in
    np_full days avg_usage
  else
    let window := Nat.min 7 (length df / 2) in
    let recent_avg := Np.mean (Np.tail window units) in
    let trend :=
      if (14 <=? length df)%nat then
        let old_avg := Np.mean (Np.head window units) in
        (recent_avg - old_avg) / INR (length df)
      else 0 in
    Ok (map (fun i =>
               let predicted_value := recent_avg + trend * (IZR i + 1) in
               let seasonal_factor := 1 + 0.1 * sin (2 * PI * IZR i / 30) in
               predicted_value * seasonal_factor)
            (range days)).

Definition _forecast_costs (df : DataFrame) (license_info : SoftwareLicense)
    (days : Z) : Result (list R) :=
  usage_forecast <-- _forecast_usage df days ;;
  if (billing_value (billing_type license_info) =? "per_task")%string then
    Ok (map (fun u => u * cost_per_unit license_info) usage_forecast)
  else if (billing_value (billing_type license_info) =? "flat_rate")%string then
    if (license_period_months license_info * 30 =? 0)%Z then Raise ZeroDivisionError
    else
      let daily_cost :=
        total_license_cost license_info
        / IZR (license_period_months license_info * 30) in
      np_full days daily_cost
  else
    Ok (map (fun u => u * cost_per_unit license_info) usage_forecast).

Definition _calculate_confidence (df : DataFrame) (forecast_day : Z) : R :=
  if (length df <? 7)%nat then 0.3
  else
    let base_confidence := 0.8 in
    let decay_factor := 0.95 in
    let confidence := base_confidence * powerRZ decay_factor forecast_day in
    let units := map units_used df in
    let data_consistency :=
      if Rgtb (Np.mean units) 0
      then option_map (fun s => 1 - s / Np.mean units) (Np.std units)
      else Some 0.5 in
    match data_consistency with
    | Some c => Rmax 0.1 (Rmin 0.95 (confidence * c))
    | None => Rmax 0.1 0.95   (* a NaN never compares smaller: [min] keeps 0.95 *)
    end.

Definition _determine_trend (df : DataFrame) (forecast : list R) : string :=
  if (length df <? 7)%nat then "stable"
  else
    let recent_avg := Np.mean (Np.tail 7 (map units_used df)) in
    let forecast_avg :=
      if (7 <=? length forecast)%nat then Np.mean (firstn 7 forecast)
      else Np.mean forecast in
    let change_percent :=
      if Rgtb recent_avg 0 then (forecast_avg - recent_avg) / recent_avg else 0 in
    if Rgtb change_percent 0.1 then "upward"
    else if Rltb change_percent (-0.1) then "downward"
    else "stable".

Definition _get_seasonal_factors (forecast_date : date) : list (string * R) :=
  let month := Calendar.month forecast_date in
  let day_of_week := Calendar.weekday forecast_date in
  let monthly_factor := 1 + 0.1 * sin (2 * PI * (IZR month - 1) / 12) in
  let weekly_factor := 1 + 0.05 * sin (2 * PI * IZR day_of_week / 7) in
  [("monthly"%string, monthly_factor); ("weekly"%string, weekly_factor)].

Definition generate_forecast (usage_data : list UsageMetric)
    (license_info : SoftwareLicense) (forecast_days : Z)
  : M World (list ForecastData) :=
  match usage_data with
  | [] => ret []
  | _ :: _ =>
      let df := sort_values_date usage_data in
      usage_forecast <- lift (_forecast_usage df forecast_days) ;;
      cost_forecast <- lift (_forecast_costs df license_info forecast_days) ;;
      for_each (range forecast_days)
        (fun i =>
           today <- now_date ;;
           let forecast_date := (today + (i + 1))%Z in
           score <- lift (validate_ge0_le1 (_calculate_confidence df i)) ;;
           ret {| fd_license_id := lic_id license_info;
                  forecast_date := forecast_date;
                  predicted_usage := nth (Z.to_nat i) usage_forecast 0;
                  predicted_cost := nth (Z.to_nat i) cost_forecast 0;
                  confidence_score := score;
                  trend := _determine_trend df usage_forecast;
                  seasonal_factors := _get_seasonal_factors forecast_date |})
  end.

(** *** RecommendationEngine *)

(** The running triple of [_evaluate_license]: decision, confidence and the
    reasons appended so far. *)
Definition Verdict := (string * R * list string)%type.

(** Step 1: utilization-based evaluation. *)
Definition evaluate_utilization (avg_utilization : R) : Verdict :=
  if Rltb avg_utilization 30 then
    let reasoning :=
      [append "Low utilization ("
         (append (PyFormat.format_1f avg_utilization)
                 "%) suggests over-provisioning")] in
    if Rltb avg_utilization 20 then ("cancel"%string, 0.9, reasoning)
    else ("downgrade"%string, 0.8, reasoning)
  else if Rgtb avg_utilization 90 then
    ("negotiate"%string, 0.8,
     [append "High utilization ("
        (append (PyFormat.format_1f avg_utilization) "%) may require upgrade")])
  else
    ("renew"%string, 0.7,
     [append "Moderate utilization ("
        (append (PyFormat.format_1f avg_utilization)
                "%) is within acceptable range")]).

(** Step 2: cost trend analysis. *)
Definition evaluate_cost_trend (cost_trend : string) (v : Verdict) : Verdict :=
  let '(recommendation, confidence, reasoning) := v in
  if (cost_trend =? "increasing")%string then
    let reasoning := reasoning ++ ["Increasing cost trend detected"%string] in
    if (recommendation =? "renew")%string
    then ("negotiate"%string, Rmin (confidence + 0.1) 0.95, reasoning)
    else (recommendation, confidence, reasoning)
  else if (cost_trend =? "decreasing")%string then
    (recommendation, Rmin (confidence + 0.05) 0.95,
     reasoning ++ ["Decreasing cost trend suggests good value"%string])
  else v.

(** Step 3: anomaly detection. *)
Definition evaluate_anomalies (found : list Anomaly) (v : Verdict) : Verdict :=
  let '(recommendation, confidence, reasoning) := v in
  if (3 <? length found)%nat then
    (recommendation, Rmax (confidence - 0.1) 0.3,
     reasoning ++
       [append "Multiple usage anomalies detected ("
          (append (PyFormat.str_int (Z.of_nat (length found))) ")")])
  else v.

(** Step 4: forecast analysis. *)
Definition evaluate_forecasts (forecasts : list ForecastData) (v : Verdict)
  : Verdict :=
  let '(recommendation, confidence, reasoning) := v in
  match forecasts with
  | [] => v
  | _ :: _ =>
      let avg_forecast_usage := Np.mean (map predicted_usage forecasts) in
      let current_usage :=
        if (7 <=? length forecasts)%nat
        then Np.mean (map predicted_usage (firstn 7 forecasts))
        else avg_forecast_usage in
      if Rgtb avg_forecast_usage (current_usage * 1.2) then
        let reasoning :=
          reasoning ++ ["Forecast predicts significant usage increase"%string] in
        if (recommendation =? "cancel")%string
        then ("renew"%string, confidence, reasoning)
        else (recommendation, confidence, reasoning)
      else if Rltb avg_forecast_usage (current_usage * 0.8) then
        let reasoning := reasoning ++ ["Forecast predicts usage decrease"%string] in
        if (recommendation =? "renew")%string
        then ("downgrade"%string, confidence, reasoning)
        else (recommendation, confidence, reasoning)
      else v
  end.

Definition _evaluate_license (license_info : SoftwareLicense)
    (avg_utilization : R) (cost_trend : string)
    (forecasts : list ForecastData) (found : list Anomaly) : Verdict :=
  evaluate_forecasts forecasts
    (evaluate_anomalies found
       (evaluate_cost_trend cost_trend
          (evaluate_utilization avg_utilization))).

Definition _calculate_savings (license_info : SoftwareLicense)
    (recommendation : string) (forecasts : list ForecastData)
  : Result (option R) :=
  match forecasts with
  | [] => Ok None
  | _ :: _ =>
      if (license_period_months license_info =? 0)%Z then Raise ZeroDivisionError
      else
        let current_annual_cost :=
          total_license_cost license_info
          * (12 / IZR (license_period_months license_info)) in
        if (recommendation =? "cancel")%string then Ok (Some current_annual_cost)
        else if (recommendation =? "downgrade")%string
        then Ok (Some (current_annual_cost * 0.3))
        else if (recommendation =? "negotiate")%string
        then Ok (Some (current_annual_cost * 0.15))
        else Ok (Some 0)
  end.

(** [analysis.get('utilization_stats', {}).get('mean', 0)] and its
    siblings: the defaults apply to the error dictionary. *)
Definition get_mean (a : AnalysisResult) : R :=
  match a with
  | Analysis p => us_mean (utilization_stats p)
  | AnalysisError _ => 0
  end.

Definition get_cost_trend (a : AnalysisResult) : string :=
  match a with
  | Analysis p => ca_cost_trend (cost_analysis p)
  | AnalysisError _ => "stable"
  end.

Definition get_anomalies (a : AnalysisResult) : list Anomaly :=
  match a with
  | Analysis p => anomalies p
  | AnalysisError _ => []
  end.

Definition _identify_risks (license_info : SoftwareLicense)
    (utilization_analysis : AnalysisResult) (forecasts : list ForecastData)
  : M World (list string) :=
  let avg_utilization := get_mean utilization_analysis in
  let risks1 :=
    if Rgtb avg_utilization 85
    then ["High utilization may lead to service degradation"%string] else [] in
  let cost_trend := get_cost_trend utilization_analysis in
  let risks2 :=
    if (cost_trend =? "increasing")%string
    then ["Increasing costs may impact budget"%string] else [] in
  let found := get_anomalies utilization_analysis in
  let risks3 :=
    if (2 <? length found)%nat
    then ["Usage anomalies may indicate operational issues"%string] else [] in
  today <- now_date ;;
  let days_to_expiry := (end_date license_info - today)%Z in
  let risks4 :=
    if (days_to_expiry <? 30)%Z
    then ["License expires soon - urgent action required"%string] else [] in
  ret (risks1 ++ risks2 ++ risks3 ++ risks4).

Definition _suggest_alternatives (license_info : SoftwareLicense)
    (avg_utilization : R) (forecasts : list ForecastData) : list Alternative :=
  (if Rltb avg_utilization 50 then
     [ {| alt_option := "Pay-per-use model";
          alt_description := "Switch to usage-based billing to reduce costs";
          alt_estimated_savings := total_license_cost license_info * 0.4 |} ]
   else [])
  ++ (if Rgtb avg_utilization 80 then
        [ {| alt_option := "Enterprise license";
             alt_description := "Upgrade to enterprise license for better rates";
             alt_estimated_savings := - total_license_cost license_info * 0.2 |} ]
      else [])
  ++ [ {| alt_option := "Multi-year contract";
          alt_description := "Sign longer contract for better pricing";
          alt_estimated_savings := total_license_cost license_info * 0.1 |} ].

(** [estimated_savings and estimated_savings > bound]: [None] and [0.0] are
    falsy. *)
Definition savings_exceed (estimated_savings : option R) (bound : R) : bool :=
  match estimated_savings with
  | None => false
  | Some s => negb (Reqb s 0) && Rgtb s bound
  end.

Definition _determine_priority (confidence : R) (estimated_savings : option R)
    (risk_factors : list string) : string :=
  if (2 <? length risk_factors)%nat || savings_exceed estimated_savings 10000
  then "high"
  else if Rgtb confidence 0.8 || savings_exceed estimated_savings 5000
  then "medium"
  else "low".

Definition generate_recommendations (license_info : SoftwareLicense)
    (usage_data : list UsageMetric) : M World Recommendation :=
  utilization_analysis <- analyze_utilization_patterns usage_data ;;
  forecasts <- generate_forecast usage_data license_info 90 ;;
  let avg_utilization := get_mean utilization_analysis in
  let cost_trend := get_cost_trend utilization_analysis in
  let found := get_anomalies utilization_analysis in
  let '(recommendation, confidence, reasoning) :=
    _evaluate_license license_info avg_utilization cost_trend forecasts found in
  estimated_savings <- lift (_calculate_savings license_info recommendation forecasts) ;;
  risk_factors <- _identify_risks license_info utilization_analysis forecasts ;;
  let alternatives := _suggest_alternatives license_info avg_utilization forecasts in
  checked <- lift (validate_ge0_le1 confidence) ;;
  ret {| rec_license_id := lic_id license_info;
         recommendation := recommendation;
         confidence := checked;
         reasoning := reasoning;
         estimated_savings := estimated_savings;
         risk_factors := risk_factors;
         alternative_options := alternatives;
         priority := _determine_priority confidence estimated_savings risk_factors |}.

End Engine.


(** ** DataManager ([utils/data_manager.py])

    The two JSON files are the state of the manager; a file that does not
    exist is [None].  Writing a list with [json.dump] and reading it back
    (dates through [isoformat] and [strptime]) returns the list. *)

Module DataManager.

Record Disk := {
  licenses_file : option (list SoftwareLicense);
  usage_file : option (list UsageMetric)
}.

Definition get_all_licenses (d : Disk) : list SoftwareLicense :=
  match licenses_file d with
  | None => []
  | Some licenses => licenses
  end.

Definition get_license (d : Disk) (license_id : string) : option SoftwareLicense :=
  find (fun license_info => (lic_id license_info =? license_id)%string)
       (get_all_licenses d).

Definition get_all_usage_metrics (d : Disk) : list UsageMetric :=
  match usage_file d with
  | None => []
  | Some metrics => metrics
  end.

Definition get_usage_metrics (d : Disk) (license_id : string) : list UsageMetric :=
  filter (fun metric => (um_license_id metric =? license_id)%string)
         (get_all_usage_metrics d).

Definition _save_licenses (licenses : list SoftwareLicense) (d : Disk) : Disk :=
  {| licenses_file := Some licenses; usage_file := usage_file d |}.

Definition _save_usage_metrics (usage_metrics : list UsageMetric) (d : Disk) : Disk :=
  {| licenses_file := licenses_file d; usage_file := Some usage_metrics |}.

Definition add_license (license_info : SoftwareLicense) (d : Disk) : Disk :=
  _save_licenses (get_all_licenses d ++ [license_info]) d.

(** The loop of [update_license]: the first license with the id is
    replaced; [None] when the loop ends without a match. *)
Fixpoint replace_first (license_id : string) (updated_license : SoftwareLicense)
    (licenses : list SoftwareLicense) : option (list SoftwareLicense) :=
  match licenses with
  | [] => None
  | license_info :: rest =>
      if (lic_id license_info =? license_id)%string
      then Some (updated_license :: rest)
      else option_map (cons license_info)
             (replace_first license_id updated_license rest)
  end.

Definition update_license (license_id : string) (updated_license : SoftwareLicense)
    (d : Disk) : bool * Disk :=
  match replace_first license_id updated_license (get_all_licenses d) with
  | Some licenses => (true, _save_licenses licenses d)
  | None => (false, d)
  end.

Definition delete_license (license_id : string) (d : Disk) : Disk :=
  let licenses :=
    filter (fun l => negb (lic_id l =? license_id)%string) (get_all_licenses d) in
  let d := _save_licenses licenses d in
  let usage_metrics :=
    filter (fun m => negb (um_license_id m =? license_id)%string)
           (get_all_usage_metrics d) in
  _save_usage_metrics usage_metrics d.

(** A dictionary in insertion order. *)
Fixpoint dict_get {K V} (eqb : K -> K -> bool) (k : K) (dict : list (K * V))
  : option V :=
  match dict with
  | [] => None
  | (k', v) :: rest => if eqb k' k then Some v else dict_get eqb k rest
  end.

Fixpoint dict_set {K V} (eqb : K -> K -> bool) (k : K) (v : V)
    (dict : list (K * V)) : list (K * V) :=
  match dict with
  | [] => [(k, v)]
  | (k', v') :: rest =>
      if eqb k' k then (k, v) :: rest else (k', v') :: dict_set eqb k v rest
  end.

(** [if key not in daily_costs: daily_costs[key] = 0] followed by
    [daily_costs[key] += cost]. *)
Definition add_cost (dict : list (date * R)) (metric : UsageMetric)
  : list (date * R) :=
  let dict :=
    match dict_get Z.eqb (um_date metric) dict with
    | None => dict_set Z.eqb (um_date metric) 0 dict
    | Some _ => dict
    end in
  match dict_get Z.eqb (um_date metric) dict with
  | Some total => dict_set Z.eqb (um_date metric) (total + cost_incurred metric) dict
  | None => dict
  end.

(** [sorted(...)] on the ISO dates, which order as the days do. *)
Fixpoint insert_date (k : date) (ks : list date) : list date :=
  match ks with
  | [] => [k]
  | k' :: t => if (k <? k')%Z then k :: ks else k' :: insert_date k t
  end.

Definition sorted_dates (ks : list date) : list date :=
  fold_left (fun acc k => insert_date k acc) ks [].

(** [if id not in d: d[id] = []] followed by [d[id].append(u)]. *)
Definition add_utilization (dict : list (string * list R)) (metric : UsageMetric)
  : list (string * list R) :=
  let dict :=
    match dict_get String.eqb (um_license_id metric) dict with
    | None => dict_set String.eqb (um_license_id metric) [] dict
    | Some _ => dict
    end in
  match dict_get String.eqb (um_license_id metric) dict with
  | Some us =>
      dict_set String.eqb (um_license_id metric)
        (us ++ [utilization_percentage metric]) dict
  | None => dict
  end.

(** The built-in [sum]: from 0, left to right. *)
Definition py_sum (l : list R) : R := fold_left Rplus l 0.

(** [sum(utilizations) / len(utilizations)]; dividing a float by the
    integer zero raises. *)
Definition average (utilizations : list R) : Result R :=
  if (length utilizations =? 0)%nat then Raise ZeroDivisionError
  else Ok (py_sum utilizations / INR (length utilizations)).

(** The five counters, [counts[i] += 1]. *)
Fixpoint incr_at (i : nat) (counts : list Z) : list Z :=
  match counts, i with
  | [], _ => []
  | c :: t, O => (c + 1)%Z :: t
  | c :: t, S j => c :: incr_at j t
  end.

Definition bucket (avg_util : R) : nat :=
  if Rleb avg_util 20 then 0
  else if Rleb avg_util 40 then 1
  else if Rleb avg_util 60 then 2
  else if Rleb avg_util 80 then 3
  else 4.

Section WithClock.

Context {sk : Sklearn}.

Definition get_cost_trend_data (d : Disk) (days : Z)
  : M World (list string * list R) :=
  let usage_metrics := get_all_usage_metrics d in
  today <- now_date ;;
  let cutoff_date := (today - days)%Z in
  let recent_metrics :=
    filter (fun m => (cutoff_date <=? um_date m)%Z) usage_metrics in
  let daily_costs := fold_left add_cost recent_metrics [] in
  let sorted := sorted_dates (map fst daily_costs) in
  let costs :=
    map (fun k => match dict_get Z.eqb k daily_costs with
                  | Some c => c
                  | None => 0
                  end) sorted in
  ret (map Calendar.strftime_ymd sorted, costs).

Definition get_utilization_distribution (d : Disk)
  : M World (list string * list Z) :=
  let usage_metrics := get_all_usage_metrics d in
  match usage_metrics with
  | [] => ret ([], [])
  | _ :: _ =>
      today <- now_date ;;
      let cutoff_date := (today - 30)%Z in
      let recent_metrics :=
        filter (fun m => (cutoff_date <=? um_date m)%Z) usage_metrics in
      let license_utilization := fold_left add_utilization recent_metrics [] in
      avg_utilizations <-
        for_each license_utilization (fun entry => lift (average (snd entry))) ;;
      let ranges :=
        ["0-20%"; "21-40%"; "41-60%"; "61-80%"; "81-100%"]%string in
      let counts :=
        fold_left (fun counts avg_util => incr_at (bucket avg_util) counts)
                  avg_utilizations [0; 0; 0; 0; 0]%Z in
      ret (ranges, counts)
  end.

End WithClock.

End DataManager.

(** ** The license routes ([api/routes.py]) *)

(** What a route answers: a body, or the [HTTPException] it raises. *)
Inductive Response (A : Type) :=
| Served (body : A)
| HTTPException (status_code : Z) (detail : string).

Arguments Served {A} body.
Arguments HTTPException {A} status_code detail.

Module Routes.

(** One entry of the dashboard's recommendation list. *)
Record DashboardEntry := {
  de_license_name : string;
  de_recommendation : string;
  de_confidence : R;
  de_estimated_savings : R;
  de_priority : string
}.

Record DashboardSummary := {
  ds_total_licenses : nat;
  ds_total_cost : R;
  ds_avg_utilization : R;
  ds_cost_trend : list string * list R;
  ds_utilization_distribution : list string * list Z;
  ds_recommendations : list DashboardEntry
}.

(** What the dashboard route answers: its body, or the [HTTPException] it
    raises from the exception [e] it caught, whose detail is [str(e)]. *)
Inductive DashboardResponse :=
| DashboardServed (body : DashboardSummary)
| DashboardFailed (status_code : Z) (e : PyError).

Section WithEngine.

Context {sk : Sklearn}.

Definition get_license (d : DataManager.Disk) (license_id : string)
  : Response SoftwareLicense :=
  match DataManager.get_license d license_id with
  | None => HTTPException 404 "License not found"
  | Some license_info => Served license_info
  end.

Definition get_license_usage (d : DataManager.Disk) (license_id : string)
  : list UsageMetric :=
  DataManager.get_usage_metrics d license_id.

Definition get_license_forecast (d : DataManager.Disk) (license_id : string)
    (days : Z) : M World (Response (list ForecastData)) :=
  match DataManager.get_license d license_id with
  | None => ret (HTTPException 404 "License not found")
  | Some license_info =>
      match DataManager.get_usage_metrics d license_id with
      | [] => ret (HTTPException 404 "No usage data found")
      | usage_data =>
          forecasts <- generate_forecast usage_data license_info days ;;
          ret (Served forecasts)
      end
  end.

Definition get_license_recommendation (d : DataManager.Disk) (license_id : string)
  : M World (Response Recommendation) :=
  match DataManager.get_license d license_id with
  | None => ret (HTTPException 404 "License not found")
  | Some license_info =>
      match DataManager.get_usage_metrics d license_id with
      | [] => ret (HTTPException 404 "No usage data found")
      | usage_data =>
          recommendation <- generate_recommendations license_info usage_data ;;
          ret (Served recommendation)
      end
  end.

(** The loop over the licenses: a license without usage is skipped, the
    others get a recommendation each, appended in the order of the
    licenses. *)
Fixpoint recommend_each (licenses : list SoftwareLicense)
    (usage_data : list UsageMetric) : M World (list DashboardEntry) :=
  match licenses with
  | [] => ret []
  | license_info :: rest =>
      let license_usage :=
        filter (fun metric => (um_license_id metric =? lic_id license_info)%string)
               usage_data in
      match license_usage with
      | [] => recommend_each rest usage_data
      | _ :: _ =>
          rec <- generate_recommendations license_info license_usage ;;
          let entry :=
            {| de_license_name := lic_name license_info;
               de_recommendation := recommendation rec;
               de_confidence := confidence rec;
               de_estimated_savings :=
                 match estimated_savings rec with
                 | Some s => s
                 | None => 0
                 end;
               de_priority := priority rec |} in
          entries <- recommend_each rest usage_data ;;
          ret (entry :: entries)
      end
  end.

(** The body of the [try] block. *)
Definition dashboard_summary (d : DataManager.Disk) : M World DashboardSummary :=
  let licenses := DataManager.get_all_licenses d in
  let usage_data := DataManager.get_all_usage_metrics d in
  let total_licenses := length licenses in
  let total_cost := DataManager.py_sum (map total_license_cost licenses) in
  let avg_utilization :=
    match usage_data with
    | [] => 0
    | _ :: _ =>
        DataManager.py_sum (map utilization_percentage usage_data)
        / INR (length usage_data)
    end in
  cost_trend <- DataManager.get_cost_trend_data d 30 ;;
  utilization_distribution <- DataManager.get_utilization_distribution d ;;
  recommendations <- recommend_each licenses usage_data ;;
  ret {| ds_total_licenses := total_licenses;
         ds_total_cost := total_cost;
         ds_avg_utilization := avg_utilization;
         ds_cost_trend := cost_trend;
         ds_utilization_distribution := utilization_distribution;
         ds_recommendations := recommendations |}.

(** [except Exception as e: raise HTTPException(status_code=500, ...)].
    The state the request leaves behind is not part of the answer. *)
Definition get_dashboard_summary (d : DataManager.Disk) (w : World)
  : DashboardResponse :=
  match dashboard_summary d w with
  | Ok (summary, _) => DashboardServed summary
  | Raise e => DashboardFailed 500 e
  end.

End WithEngine.

End Routes.

(** ** The forecast report and the budget impact
       ([services/report_customizer.py]) *)

Module ReportCustomizer.

Record ForecastSummary := {
  average_predicted_usage : R;
  average_predicted_cost : R;
  average_confidence : R;
  summary_trend : string
}.

(** The summary dictionary of one forecast; [None] is the empty
    dictionary. *)
Definition _summarize_forecasts (forecast_data : list ForecastData)
  : option ForecastSummary :=
  match forecast_data with
  | [] => None
  | first :: _ =>
      let n := INR (length forecast_data) in
      Some {| average_predicted_usage :=
                DataManager.py_sum (map predicted_usage forecast_data) / n;
              average_predicted_cost :=
                DataManager.py_sum (map predicted_cost forecast_data) / n;
              average_confidence :=
                DataManager.py_sum (map confidence_score forecast_data) / n;
              summary_trend := trend first |}
  end.

(** One entry of the report's forecast list. *)
Record LicenseForecast := {
  lf_license : string;
  lf_forecasts : list ForecastData;
  lf_summary : option ForecastSummary
}.

Record OverallTrends := {
  dominant_trend : string;
  trend_distribution : list (string * Z)
}.

(** [f["summary"]["trend"]] where [f["summary"].get("trend")] is truthy:
    the summary is not empty and its trend is not the empty string. *)
Definition truthy_trend (f : LicenseForecast) : list string :=
  match lf_summary f with
  | Some s => if (summary_trend s =? "")%string then [] else [summary_trend s]
  | None => []
  end.

(** [trend_counts[trend] = trend_counts.get(trend, 0) + 1]. *)
Definition count_trend (trend_counts : list (string * Z)) (trend : string)
  : list (string * Z) :=
  let seen :=
    match DataManager.dict_get String.eqb trend trend_counts with
    | Some c => c
    | None => 0%Z
    end in
  DataManager.dict_set String.eqb trend (seen + 1)%Z trend_counts.

(** [max(items, key=lambda x: x[1])]: the first of the largest. *)
Fixpoint max_by_count (best : string * Z) (items : list (string * Z))
  : string * Z :=
  match items with
  | [] => best
  | item :: rest =>
      max_by_count (if (snd best <? snd item)%Z then item else best) rest
  end.

(** [None] is the empty dictionary. *)
Definition _analyze_overall_trends (forecasts : list LicenseForecast)
  : option OverallTrends :=
  match forecasts with
  | [] => None
  | _ :: _ =>
      let trends := flat_map truthy_trend forecasts in
      let trend_counts := fold_left count_trend trends [] in
      Some {| dominant_trend :=
                match trend_counts with
                | [] => "stable"
                | first :: rest => fst (max_by_count first rest)
                end;
              trend_distribution := trend_counts |}
  end.

(** Without forecasts the dictionary has no "high_confidence_count". *)
Record ConfidenceScores := {
  overall_confidence : R;
  high_confidence_count : option nat
}.

(** [f["summary"]["average_confidence"]] where it is present and not 0. *)
Definition truthy_confidence (f : LicenseForecast) : list R :=
  match lf_summary f with
  | Some s =>
      if Reqb (average_confidence s) 0 then [] else [average_confidence s]
  | None => []
  end.

Definition _calculate_forecast_confidence (forecasts : list LicenseForecast)
  : ConfidenceScores :=
  match forecasts with
  | [] => {| overall_confidence := 0; high_confidence_count := None |}
  | _ :: _ =>
      let confidences := flat_map truthy_confidence forecasts in
      {| overall_confidence :=
           match confidences with
           | [] => 0
           | _ :: _ =>
               DataManager.py_sum confidences / INR (length confidences)
           end;
         high_confidence_count :=
           Some (length (filter (fun c => Rgtb c 0.8) confidences)) |}
  end.

Record ForecastReport := {
  report_type : string;
  forecast_horizon : string;
  license_forecasts : list LicenseForecast;
  overall_trends : option OverallTrends;
  confidence_scores : ConfidenceScores
}.




Section WithEngine.

Context {sk : Sklearn}.

(** The loop of [_generate_forecast_report]: a license without usage is
    skipped. *)
Fixpoint forecast_each (licenses : list SoftwareLicense)
    (usage_data : list UsageMetric) : M World (list LicenseForecast) :=
  match licenses with
  | [] => ret []
  | license_info :: rest =>
      let license_usage :=
        filter (fun m => (um_license_id m =? lic_id license_info)%string)
               usage_data in
      match license_usage with
      | [] => forecast_each rest usage_data
      | _ :: _ =>
          forecast_data <- generate_forecast license_usage license_info 90 ;;
          let entry :=
            {| lf_license := lic_name license_info;
               lf_forecasts := forecast_data;
               lf_summary := _summarize_forecasts forecast_data |} in
          entries <- forecast_each rest usage_data ;;
          ret (entry :: entries)
      end
  end.

(** The customization and the intent are parameters the body does not
    read. *)
Definition _generate_forecast_report (licenses : list SoftwareLicense)
    (usage_data : list UsageMetric) : M World ForecastReport :=
  forecasts <- forecast_each licenses usage_data ;;
  ret {| report_type := "forecast";
         forecast_horizon := "90_days";
         license_forecasts := forecasts;
         overall_trends := _analyze_overall_trends forecasts;
         confidence_scores := _calculate_forecast_confidence forecasts |}.

End WithEngine.

End ReportCustomizer.
(** * Vocabulary of the statements *)

(** The savings estimate exceeds a bound: there is an estimate, and it is
    larger. *)
Definition savings_over (estimated_savings : option R) (bound : R) : Prop :=
  exists s, estimated_savings = Some s /\ bound < s.


(** The components of a verdict. *)
Definition decision (v : Verdict) : string := fst (fst v).
Definition verdict_confidence (v : Verdict) : R := snd (fst v).
Definition verdict_reasoning (v : Verdict) : list string := snd v.

Section Vocabulary.

Context {sk : Sklearn}.

(** The value a run returns, without the state it leaves. *)
Definition output {A} (r : Result (A * World)) : Result A :=
  match r with
  | Ok (a, _) => Ok a
  | Raise e => Raise e
  end.

(** The world after [n] more readings of the clock. *)
Definition advance (n : nat) (w : World) : World :=
  {| clock := clock w; ticks := ticks w + n;
     scaler := scaler w; anomaly_detector := anomaly_detector w |}.

(** The world after the analyzer has fitted its scaler and detector. *)
Definition refit (sc : ScalerModel) (forest : Forest) (w : World) : World :=
  {| clock := clock w; ticks := ticks w;
     scaler := Some sc; anomaly_detector := Some forest |}.

(** The clock shows the same day at every reading from now on. *)
Definition clock_fixed (today : date) (w : World) : Prop :=
  forall k, clock w (ticks w + k) = today.

(** The rows of a frame of at least ten rows that the freshly fitted
    detector marks with -1. *)
Definition detected_rows (df : DataFrame) : list Anomaly :=
  let features :=
    map (fun r => (utilization_percentage r, cost_incurred r, units_used r)) df in
  let sc := scaler_fit features in
  let features_scaled := map (scaler_transform sc) features in
  let forest := iforest_fit contamination random_state features_scaled in
  concat
    (map (fun row : UsageMetric * (Sample * Z) =>
            let '(r, (x, score)) := row in
            if (score =? -1)%Z then
              [ {| an_date := Calendar.strftime_ymd (um_date r);
                   an_utilization := utilization_percentage r;
                   an_cost := cost_incurred r;
                   anomaly_score := iforest_score_samples forest x |} ]
            else [])
         (combine df (combine features_scaled
                        (map (iforest_predict forest) features_scaled)))).

(** The forecast point of day [i] when the clock shows [today]. *)
Definition forecast_point (df : DataFrame) (license_info : SoftwareLicense)
    (usage_forecast cost_forecast : list R) (today : date) (i : Z)
  : ForecastData :=
  {| fd_license_id := lic_id license_info;
     forecast_date := (today + (i + 1))%Z;
     predicted_usage := nth (Z.to_nat i) usage_forecast 0;
     predicted_cost := nth (Z.to_nat i) cost_forecast 0;
     confidence_score := _calculate_confidence df i;
     trend := _determine_trend df usage_forecast;
     seasonal_factors := _get_seasonal_factors (today + (i + 1))%Z |}.

(** The risk factors found when the clock shows [today]. *)
Definition risks_at (license_info : SoftwareLicense)
    (utilization_analysis : AnalysisResult) (forecasts : list ForecastData)
    (today : date) : list string :=
  match _identify_risks license_info utilization_analysis forecasts
          (analyzer_init (fun _ => today)) with
  | Ok (risks, _) => risks
  | Raise _ => []
  end.

End Vocabulary.

(** ** Worked examples *)

(** A stand-in for scikit-learn in the examples: the scaler is the
    identity and the forest marks no row as an outlier. *)
Definition no_outliers : Sklearn :=
  {| ScalerModel := unit;
     Forest := unit;
     scaler_fit := fun _ => tt;
     scaler_transform := fun _ x => x;
     iforest_fit := fun _ _ _ => tt;
     iforest_predict := fun _ _ => 1%Z;
     iforest_score_samples := fun _ _ => 0 |}.

(** 2026-11-03 as an ordinal. *)
Definition day0 : date := 739923%Z.

(** A twelve-month license of 12000 at 2 per unit that ends on [expiry]. *)
Definition sample_license (billing : BillingType) (months : Z) (expiry : date)
  : SoftwareLicense :=
  {| lic_id := "LIC-001";
     lic_name := "Design Suite";
     vendor := "Acme";
     billing_type := billing;
     cost_per_unit := 2;
     total_license_cost := 12000;
     license_period_months := months;
     start_date := (expiry - 365)%Z;
     end_date := expiry;
     status := ACTIVE;
     max_units := Some 100%Z;
     current_units := Some 50%Z;
     auto_renewal := false |}.

Arguments sample_license billing (months expiry)%_Z.

(** One day of usage. *)
Definition usage_on (d : date) (units utilization : R) : UsageMetric :=
  {| um_id := "U";
     um_license_id := "LIC-001";
     um_date := d;
     units_used := units;
     cost_incurred := units * 2;
     utilization_percentage := utilization;
     peak_usage := None;
     average_usage := None |}.

Arguments usage_on d%_Z (units utilization)%_R.

(** A world whose clock always shows [today], with an unfitted analyzer. *)
Definition world_on (today : date) : @World no_outliers :=
  analyzer_init (fun _ => today).

Arguments world_on today%_Z.

(** A clock that shows [today] for its first [n] readings and the next day
    afterwards. *)
Definition midnight_after (n : nat) (today : date) : nat -> date :=
  fun k => if (k <? n)%nat then today else (today + 1)%Z.

Arguments midnight_after n%_nat today%_Z k%_nat.

(** Fourteen days of usage: seven units a day in the first week, none in
    the second. *)
Definition declining_series : list UsageMetric :=
  map (fun k => usage_on (day0 - 14 + Z.of_nat k)%Z
                  (if (k <? 7)%nat then 7 else 0)
                  (if (k <? 7)%nat then 70 else 0))
      (seq 0 14).

(** What the engine recommends on 2026-11-03 for the sample license, billed
    per user and ending a hundred days later, after one day of ten units at
    50 percent. *)
Definition one_day_verdict : Recommendation :=
  {| rec_license_id := "LIC-001";
     recommendation := "renew";
     confidence := 0.7;
     reasoning :=
       ["Moderate utilization (50.0%) is within acceptable range"%string];
     estimated_savings := Some 0;
     risk_factors := [];
     alternative_options :=
       [ {| alt_option := "Multi-year contract";
            alt_description := "Sign longer contract for better pricing";
            alt_estimated_savings := 12000 * 0.1 |} ];
     priority := "low" |}.

(** The population standard deviation: the divisor is the number of
    values. *)
Definition population_std (l : list R) : R :=
  sqrt (Np.sq_dev l / INR (length l)).

(** The sample standard deviation: the divisor is one less. *)
Definition sample_std (l : list R) : R :=
  sqrt (Np.sq_dev l / (INR (length l) - 1)).

(** ** Vocabulary of the further properties *)

(** The decisions a recommendation can carry. *)
Definition decisions : list string :=
  ["renew"; "cancel"; "negotiate"; "downgrade"]%string.

(** The cost of the license brought to twelve months. *)
Definition annual_cost (license_info : SoftwareLicense) : R :=
  total_license_cost license_info
  * (12 / IZR (license_period_months license_info)).

(** The share of the annual cost counted as savings, by decision. *)
Definition savings_share (decision : string) : R :=
  if (decision =? "cancel")%string then 1
  else if (decision =? "downgrade")%string then 0.3
  else if (decision =? "negotiate")%string then 0.15
  else 0.

(** The three alternatives. *)
Definition pay_per_use (license_info : SoftwareLicense) : Alternative :=
  {| alt_option := "Pay-per-use model";
     alt_description := "Switch to usage-based billing to reduce costs";
     alt_estimated_savings := total_license_cost license_info * 0.4 |}.

Definition enterprise (license_info : SoftwareLicense) : Alternative :=
  {| alt_option := "Enterprise license";
     alt_description := "Upgrade to enterprise license for better rates";
     alt_estimated_savings := - total_license_cost license_info * 0.2 |}.

Definition multi_year (license_info : SoftwareLicense) : Alternative :=
  {| alt_option := "Multi-year contract";
     alt_description := "Sign longer contract for better pricing";
     alt_estimated_savings := total_license_cost license_info * 0.1 |}.

(** A series whose costs change by [d] a day from [a]. *)
Definition affine (a d : R) (n : nat) : list R :=
  map (fun k => a + d * INR k) (seq 0 n).

(** The sum of the counters. *)
Definition count_total (counts : list Z) : Z := fold_right Z.add 0%Z counts.


(** The license ids of a list of metrics, each listed once. *)
Definition licenses_of (metrics : list UsageMetric) : list string :=
  nodup string_dec (map um_license_id metrics).

Definition distribution_ranges : list string :=
  ["0-20%"; "21-40%"; "41-60%"; "61-80%"; "81-100%"]%string.


(** A store holding the sample license and one day of its usage. *)
Definition sample_disk : DataManager.Disk :=
  {| DataManager.licenses_file := Some [sample_license PER_USER 12 (day0 + 100)];
     DataManager.usage_file := Some [usage_on (day0 - 1) 10 50] |}.

(** A store in which neither file exists. *)
Definition empty_disk : DataManager.Disk :=
  {| DataManager.licenses_file := None; DataManager.usage_file := None |}.

(** A license some metric of the list belongs to. *)
Definition in_use (usage_data : list UsageMetric) (l : SoftwareLicense) : bool :=
  existsb (fun m => (um_license_id m =? lic_id l)%string) usage_data.

(** A store holding the sample license with a period of zero months and
    one day of its usage. *)
Definition zero_period_disk : DataManager.Disk :=
  {| DataManager.licenses_file := Some [sample_license PER_USER 0 (day0 + 100)];
     DataManager.usage_file := Some [usage_on (day0 - 1) 10 50] |}.

(** The trends a forecast can carry. *)
Definition forecast_trends : list string :=
  ["upward"; "downward"; "stable"]%string.

(** An entry of the forecast report as the loop builds it: ninety points
    and their summary, whose confidence is a confidence and whose trend is
    a trend. *)
Definition sound_entry (e : ReportCustomizer.LicenseForecast) : Prop :=
  length (ReportCustomizer.lf_forecasts e) = 90%nat
  /\ exists s,
       ReportCustomizer.lf_summary e = Some s
       /\ ReportCustomizer._summarize_forecasts (ReportCustomizer.lf_forecasts e)
          = Some s
       /\ 0.1 <= ReportCustomizer.average_confidence s <= 0.95
       /\ In (ReportCustomizer.summary_trend s) forecast_trends.

(** * Properties *)

(** ** Float comparisons *)

Lemma Rltb_true (x y : R) : Rltb x y = true <-> x < y.
Proof. unfold Rltb; destruct (Rlt_dec x y); split; intros; (lra || discriminate || reflexivity). Qed.

Lemma Rltb_false (x y : R) : Rltb x y = false <-> y <= x.
Proof. unfold Rltb; destruct (Rlt_dec x y); split; intros; (lra || discriminate || reflexivity). Qed.

Lemma Rleb_true (x y : R) : Rleb x y = true <-> x <= y.
Proof. unfold Rleb; destruct (Rle_dec x y); split; intros; (lra || discriminate || reflexivity). Qed.

Lemma Rleb_false (x y : R) : Rleb x y = false <-> y < x.
Proof. unfold Rleb; destruct (Rle_dec x y); split; intros; (lra || discriminate || reflexivity). Qed.

Lemma Reqb_true (x y : R) : Reqb x y = true <-> x = y.
Proof. unfold Reqb; destruct (Req_dec_T x y); split; intros; (lra || discriminate || reflexivity). Qed.

Lemma Reqb_false (x y : R) : Reqb x y = false <-> x <> y.
Proof. unfold Reqb; destruct (Req_dec_T x y); split; intros; (contradiction || discriminate || reflexivity || assumption). Qed.

(** Case analysis on every float comparison in sight. *)
Ltac rcases :=
  unfold Rgtb in *;
  repeat match goal with
  | |- context [Rltb ?a ?b] =>
      let E := fresh "E" in
      destruct (Rltb a b) eqn:E;
      [apply Rltb_true in E | apply Rltb_false in E]
  | |- context [Rleb ?a ?b] =>
      let E := fresh "E" in
      destruct (Rleb a b) eqn:E;
      [apply Rleb_true in E | apply Rleb_false in E]
  | |- context [Reqb ?a ?b] =>
      let E := fresh "E" in
      destruct (Reqb a b) eqn:E;
      [apply Reqb_true in E | apply Reqb_false in E]
  end.

Ltac rminmax :=
  unfold Rmin, Rmax in *;
  repeat match goal with
  | |- context [Rle_dec ?a ?b] => destruct (Rle_dec a b)
  | H : context [Rle_dec ?a ?b] |- _ => destruct (Rle_dec a b)
  end.

(** ** Forecast confidence *)

Lemma pow_le_1_antitone (x : R) (a b : nat) :
  0 <= x <= 1 -> (a <= b)%nat -> x ^ b <= x ^ a.
Proof.
  intros Hx Hab. induction Hab as [| b Hab IH].
  - lra.
  - simpl. assert (0 <= x ^ b) by (apply pow_le; lra). nra.
Qed.

Lemma powerRZ_decay_antitone (x : R) (i j : Z) :
  0 <= x <= 1 -> (0 <= i <= j)%Z -> powerRZ x j <= powerRZ x i.
Proof.
  intros Hx Hij.
  rewrite <- (Z2Nat.id i), <- (Z2Nat.id j) by lia.
  rewrite <- !pow_powerRZ. apply pow_le_1_antitone; [assumption | lia].
Qed.

Lemma powerRZ_decay_nonneg (x : R) (i : Z) :
  0 <= x -> (0 <= i)%Z -> 0 <= powerRZ x i.
Proof.
  intros Hx Hi. rewrite <- (Z2Nat.id i) by lia.
  rewrite <- pow_powerRZ. apply pow_le; assumption.
Qed.

Lemma clamp_bounds (c : R) : 0.1 <= Rmax 0.1 (Rmin 0.95 c) <= 0.95.
Proof. rminmax; lra. Qed.

Lemma clamp_monotone (c d : R) :
  c <= d -> Rmax 0.1 (Rmin 0.95 c) <= Rmax 0.1 (Rmin 0.95 d).
Proof. intros; rminmax; lra. Qed.

Lemma calculate_confidence_bounds (df : DataFrame) (i : Z) :
  0.1 <= _calculate_confidence df i <= 0.95.
Proof.
  unfold _calculate_confidence.
  destruct (length df <? 7)%nat; [lra |].
  destruct (if Rgtb _ _ then _ else _); [apply clamp_bounds |].
  rminmax; lra.
Qed.

Lemma calculate_confidence_antitone (df : DataFrame) (i j : Z) :
  (0 <= i <= j)%Z -> _calculate_confidence df j <= _calculate_confidence df i.
Proof.
  intros Hij. unfold _calculate_confidence.
  destruct (length df <? 7)%nat; [lra |].
  destruct (if Rgtb _ _ then _ else _) as [c |]; [| lra].
  pose proof (powerRZ_decay_antitone 0.95 i j ltac:(lra) Hij) as Hp.
  pose proof (powerRZ_decay_nonneg 0.95 i ltac:(lra) ltac:(lia)) as Hi.
  pose proof (powerRZ_decay_nonneg 0.95 j ltac:(lra) ltac:(lia)) as Hj.
  destruct (Rle_dec 0 c) as [Hc | Hc].
  - apply clamp_monotone. nra.
  - assert (0.8 * powerRZ 0.95 j * c <= 0) by nra.
    assert (0.8 * powerRZ 0.95 i * c <= 0) by nra.
    rminmax; lra.
Qed.

(** ** Priority *)

Lemma savings_exceed_iff (estimated_savings : option R) (bound : R) :
  0 <= bound ->
  savings_exceed estimated_savings bound = true <-> savings_over estimated_savings bound.
Proof.
  intros Hb. unfold savings_exceed, savings_over.
  destruct estimated_savings as [s |].
  - rcases; simpl; split; intros H; try discriminate; try reflexivity;
      try (exists s; split; [reflexivity | lra]);
      destruct H as (s' & Hs & H); injection Hs as <-; lra.
  - split; [discriminate | intros (s & [=] & _)].
Qed.

(** ** Running the analyzer *)

Section AnalyzerRuns.

Context {sk : Sklearn}.

(** A loop whose body leaves the state alone maps its body over the list. *)
Lemma for_each_pure {A B} (l : list A) (body : A -> M World B) (g : A -> B)
    (w : World) :
  (forall a, In a l -> body a w = Ok (g a, w)) ->
  for_each l body w = Ok (map g l, w).
Proof.
  induction l as [| a t IH]; intros Hbody; simpl.
  - reflexivity.
  - unfold bind. rewrite (Hbody a (or_introl eq_refl)).
    rewrite IH by (intros; apply Hbody; right; assumption).
    reflexivity.
Qed.

Lemma detect_anomalies_run (df : DataFrame) (w : World) :
  _detect_anomalies df w =
    if (length df <? 10)%nat then Ok ([], w)
    else
      let features :=
        map (fun r => (utilization_percentage r, cost_incurred r, units_used r)) df in
      let sc := scaler_fit features in
      Ok (detected_rows df,
          refit sc (iforest_fit contamination random_state
                      (map (scaler_transform sc) features)) w).
Proof.
  unfold _detect_anomalies.
  destruct (length df <? 10)%nat; [reflexivity |].
  unfold bind at 1. unfold fit_transform. cbv zeta.
  unfold bind at 1. unfold fit_predict. cbv zeta.
  unfold bind at 1.
  erewrite for_each_pure.
  - reflexivity.
  - intros [r [x score]] _. simpl.
    destruct (score =? -1)%Z; reflexivity.
Qed.

Lemma sort_values_date_length (rows : list UsageMetric) :
  length (sort_values_date rows) = length rows.
Proof.
  unfold sort_values_date.
  assert (H : forall acc, length (fold_left (fun acc r => insert_by_date r acc) rows acc)
                          = (length acc + length rows)%nat).
  { induction rows as [| r t IH]; intros acc; simpl; [lia |].
    rewrite IH.
    assert (Hi : length (insert_by_date r acc) = S (length acc)).
    { clear. induction acc as [| r' t' IH']; simpl; [reflexivity |].
      destruct (um_date r <? um_date r')%Z; simpl; [reflexivity | now rewrite IH']. }
    lia. }
  apply H.
Qed.

Lemma insert_by_date_perm (r : UsageMetric) (df : DataFrame) :
  Permutation (r :: df) (insert_by_date r df).
Proof.
  induction df as [| r' t IH]; simpl; [apply Permutation_refl |].
  destruct (um_date r <? um_date r')%Z; [apply Permutation_refl |].
  eapply perm_trans; [apply perm_swap | apply perm_skip, IH].
Qed.

Lemma sort_values_date_perm (rows : list UsageMetric) :
  Permutation rows (sort_values_date rows).
Proof.
  unfold sort_values_date.
  assert (H : forall acc,
             Permutation (acc ++ rows)
               (fold_left (fun acc r => insert_by_date r acc) rows acc)).
  { induction rows as [| r t IH]; intros acc; simpl.
    - rewrite app_nil_r. apply Permutation_refl.
    - eapply perm_trans; [| apply IH].
      eapply perm_trans; [apply Permutation_sym, Permutation_middle |].
      apply (Permutation_app_tail t (insert_by_date_perm r acc)). }
  apply (H []).
Qed.

Lemma sum_perm (l l' : list R) : Permutation l l' -> Np.sum l = Np.sum l'.
Proof.
  induction 1; simpl; lra.
Qed.

Lemma mean_perm (l l' : list R) : Permutation l l' -> Np.mean l = Np.mean l'.
Proof.
  intros H. unfold Np.mean.
  rewrite (sum_perm _ _ H), (Permutation_length H). reflexivity.
Qed.

Lemma sq_dev_perm (l l' : list R) : Permutation l l' -> Np.sq_dev l = Np.sq_dev l'.
Proof.
  intros H. unfold Np.sq_dev. rewrite (mean_perm _ _ H).
  apply sum_perm, Permutation_map, H.
Qed.

Lemma std_perm (l l' : list R) : Permutation l l' -> Np.std l = Np.std l'.
Proof.
  intros H. unfold Np.std.
  rewrite (sq_dev_perm _ _ H), (Permutation_length H). reflexivity.
Qed.

(** On a non-empty series the analyzer returns a profile; its statistics
    are those of the sorted frame, its anomaly list is empty below ten rows
    and otherwise what the refitted detector marks; the clock is not read. *)
Lemma analyze_nonempty_run (usage_data : list UsageMetric) (w : World) :
  usage_data <> [] ->
  exists p w',
    analyze_utilization_patterns usage_data w = Ok (Analysis p, w')
    /\ us_mean (utilization_stats p) =
         Np.mean (map utilization_percentage (sort_values_date usage_data))
    /\ us_std (utilization_stats p) =
         Np.std (map utilization_percentage (sort_values_date usage_data))
    /\ ca_cost_trend (cost_analysis p) =
         _calculate_trend (map cost_incurred (sort_values_date usage_data))
    /\ anomalies p =
         (if (length usage_data <? 10)%nat then []
          else detected_rows (sort_values_date usage_data))
    /\ clock w' = clock w /\ ticks w' = ticks w.
Proof.
  intros Hne. destruct usage_data as [| r t]; [contradiction |].
  unfold analyze_utilization_patterns, bind.
  rewrite detect_anomalies_run, sort_values_date_length.
  destruct (length (r :: t) <? 10)%nat;
    eexists; eexists; (split; [reflexivity |]); simpl; repeat split; reflexivity.
Qed.

(** The profile does not depend on the state the analyzer is called in. *)
Lemma analyze_state_independent (usage_data : list UsageMetric) (w1 w2 : World) :
  output (analyze_utilization_patterns usage_data w1) =
  output (analyze_utilization_patterns usage_data w2).
Proof.
  destruct usage_data as [| r t]; [reflexivity |].
  unfold analyze_utilization_patterns, bind.
  rewrite !detect_anomalies_run.
  destruct (length _ <? 10)%nat; reflexivity.
Qed.

End AnalyzerRuns.

(** ** Running the forecasting agent *)

Section ForecastRuns.

Context {sk : Sklearn}.

Lemma range_length (n : Z) : length (range n) = Z.to_nat n.
Proof. unfold range. now rewrite length_map, length_seq. Qed.

Lemma np_full_ok (days : Z) (v : R) :
  (0 <= days)%Z -> np_full days v = Ok (repeat v (Z.to_nat days)).
Proof.
  intros H. unfold np_full.
  destruct (days <? 0)%Z eqn:E; [apply Z.ltb_lt in E; lia | reflexivity].
Qed.

Lemma forecast_usage_ok (df : DataFrame) (days : Z) :
  (0 <= days)%Z ->
  exists usage_forecast,
    _forecast_usage df days = Ok usage_forecast
    /\ length usage_forecast = Z.to_nat days.
Proof.
  intros H. unfold _forecast_usage.
  destruct (length df <? 7)%nat.
  - rewrite np_full_ok by assumption. eexists; split; [reflexivity |].
    apply repeat_length.
  - eexists; split; [reflexivity |]. now rewrite length_map, range_length.
Qed.

Lemma billing_value_flat (b : BillingType) :
  (billing_value b =? "flat_rate")%string = true <-> b = FLAT_RATE.
Proof. destruct b; simpl; split; intros; (reflexivity || discriminate). Qed.

Lemma billing_value_per_task (b : BillingType) :
  (billing_value b =? "per_task")%string = true <-> b = PER_TASK.
Proof. destruct b; simpl; split; intros; (reflexivity || discriminate). Qed.

Lemma forecast_costs_per_unit (df : DataFrame) (license_info : SoftwareLicense)
    (days : Z) (usage_forecast : list R) :
  billing_type license_info <> FLAT_RATE ->
  _forecast_usage df days = Ok usage_forecast ->
  _forecast_costs df license_info days =
    Ok (map (fun u => u * cost_per_unit license_info) usage_forecast).
Proof.
  intros Hb Hu. unfold _forecast_costs. rewrite Hu. simpl.
  destruct (billing_type license_info); simpl; try reflexivity.
  contradiction.
Qed.

Lemma forecast_costs_flat (df : DataFrame) (license_info : SoftwareLicense)
    (days : Z) (usage_forecast : list R) :
  billing_type license_info = FLAT_RATE ->
  _forecast_usage df days = Ok usage_forecast ->
  _forecast_costs df license_info days =
    if (license_period_months license_info =? 0)%Z then Raise ZeroDivisionError
    else np_full days (total_license_cost license_info
                       / IZR (license_period_months license_info * 30)).
Proof.
  intros Hb Hu. unfold _forecast_costs. rewrite Hu, Hb. simpl.
  destruct (Z.eqb_spec (license_period_months license_info * 30) 0);
    destruct (Z.eqb_spec (license_period_months license_info) 0);
    (reflexivity || lia).
Qed.

Lemma validate_confidence_ok (df : DataFrame) (i : Z) :
  validate_ge0_le1 (_calculate_confidence df i) = Ok (_calculate_confidence df i).
Proof.
  unfold validate_ge0_le1.
  pose proof (calculate_confidence_bounds df i).
  rcases; simpl; (reflexivity || lra).
Qed.

Lemma advance_advance (n m : nat) (w : World) :
  advance n (advance m w) = advance (m + n) w.
Proof. unfold advance; simpl. f_equal. lia. Qed.

Lemma advance_zero (w : World) : advance 0 w = w.
Proof. destruct w; unfold advance; simpl. f_equal. lia. Qed.

(** The loop of [generate_forecast]: iteration [k] reads the clock once
    and builds the point of day [k] from that reading. *)
Lemma forecast_loop (df : DataFrame) (license_info : SoftwareLicense)
    (usage_forecast cost_forecast : list R) (n s : nat) (w : World) :
  for_each (map Z.of_nat (seq s n))
    (fun i =>
       today <- now_date ;;
       let forecast_date := (today + (i + 1))%Z in
       score <- lift (validate_ge0_le1 (_calculate_confidence df i)) ;;
       ret {| fd_license_id := lic_id license_info;
              forecast_date := forecast_date;
              predicted_usage := nth (Z.to_nat i) usage_forecast 0;
              predicted_cost := nth (Z.to_nat i) cost_forecast 0;
              confidence_score := score;
              trend := _determine_trend df usage_forecast;
              seasonal_factors := _get_seasonal_factors forecast_date |}) w
  = Ok (map (fun k => forecast_point df license_info usage_forecast cost_forecast
                        (clock w (ticks w + (k - s))) (Z.of_nat k))
            (seq s n),
        advance n w).
Proof.
  revert s w. induction n as [| n IH]; intros s w; simpl.
  - now rewrite advance_zero.
  - unfold bind at 1. unfold bind at 1. unfold now_date at 1.
    unfold bind at 1. unfold lift at 1. rewrite validate_confidence_ok.
    unfold ret at 1. unfold bind at 1.
    rewrite IH. unfold ret. simpl. f_equal. f_equal.
    + f_equal.
      * unfold forecast_point. now rewrite Nat.sub_diag, Nat.add_0_r.
      * apply map_ext_in. intros k Hk. apply in_seq in Hk.
        cbn [clock ticks].
        match goal with
        | |- forecast_point _ _ _ _ (clock w ?a) _ = _ =>
            replace a with (ticks w + (k - s))%nat by lia
        end.
        reflexivity.
    + unfold advance; simpl. f_equal. lia.
Qed.

Lemma generate_forecast_run (usage_data : list UsageMetric)
    (license_info : SoftwareLicense) (forecast_days : Z) (w : World)
    (usage_forecast cost_forecast : list R) :
  usage_data <> [] ->
  _forecast_usage (sort_values_date usage_data) forecast_days = Ok usage_forecast ->
  _forecast_costs (sort_values_date usage_data) license_info forecast_days
    = Ok cost_forecast ->
  generate_forecast usage_data license_info forecast_days w =
    Ok (map (fun k =>
               forecast_point (sort_values_date usage_data) license_info
                 usage_forecast cost_forecast
                 (clock w (ticks w + k)) (Z.of_nat k))
            (seq 0 (Z.to_nat forecast_days)),
        advance (Z.to_nat forecast_days) w).
Proof.
  intros Hne Hu Hc. destruct usage_data as [| r t]; [contradiction |].
  unfold generate_forecast.
  unfold bind at 1. unfold lift at 1. rewrite Hu.
  unfold bind at 1. unfold lift at 1. rewrite Hc.
  unfold range. rewrite forecast_loop.
  f_equal. f_equal. apply map_ext. intros k. now rewrite Nat.sub_0_r.
Qed.

Lemma generate_forecast_raises (usage_data : list UsageMetric)
    (license_info : SoftwareLicense) (forecast_days : Z) (w : World)
    (usage_forecast : list R) (e : PyError) :
  usage_data <> [] ->
  _forecast_usage (sort_values_date usage_data) forecast_days = Ok usage_forecast ->
  _forecast_costs (sort_values_date usage_data) license_info forecast_days
    = Raise e ->
  generate_forecast usage_data license_info forecast_days w = Raise e.
Proof.
  intros Hne Hu Hc. destruct usage_data as [| r t]; [contradiction |].
  unfold generate_forecast.
  unfold bind at 1. unfold lift at 1. rewrite Hu.
  unfold bind at 1. unfold lift at 1. rewrite Hc. reflexivity.
Qed.

Lemma forecast_costs_ok (df : DataFrame) (license_info : SoftwareLicense)
    (days : Z) :
  (0 <= days)%Z ->
  billing_type license_info <> FLAT_RATE \/ license_period_months license_info <> 0%Z ->
  exists cost_forecast,
    _forecast_costs df license_info days = Ok cost_forecast
    /\ length cost_forecast = Z.to_nat days.
Proof.
  intros Hd Hl.
  destruct (forecast_usage_ok df days Hd) as (uf & Hu & Hlen).
  destruct (billing_type license_info) eqn:Eb;
    try (rewrite (forecast_costs_per_unit df license_info days uf)
           by (assumption || (rewrite Eb; discriminate));
         eexists; split; [reflexivity | now rewrite length_map]).
  rewrite (forecast_costs_flat df license_info days uf) by assumption.
  destruct Hl as [Hl | Hl]; [contradiction |].
  destruct (Z.eqb_spec (license_period_months license_info) 0); [contradiction |].
  rewrite np_full_ok by assumption.
  eexists; split; [reflexivity | apply repeat_length].
Qed.

(** With a horizon that is not negative, and a period that is not zero
    when the billing is flat-rate, the forecast of a non-empty series is
    produced: one point per day of the horizon. *)
Lemma generate_forecast_total (usage_data : list UsageMetric)
    (license_info : SoftwareLicense) (forecast_days : Z) (w : World) :
  usage_data <> [] ->
  (0 <= forecast_days)%Z ->
  billing_type license_info <> FLAT_RATE \/ license_period_months license_info <> 0%Z ->
  exists usage_forecast cost_forecast,
    _forecast_usage (sort_values_date usage_data) forecast_days = Ok usage_forecast
    /\ _forecast_costs (sort_values_date usage_data) license_info forecast_days
         = Ok cost_forecast
    /\ generate_forecast usage_data license_info forecast_days w =
         Ok (map (fun k =>
                    forecast_point (sort_values_date usage_data) license_info
                      usage_forecast cost_forecast
                      (clock w (ticks w + k)) (Z.of_nat k))
                 (seq 0 (Z.to_nat forecast_days)),
             advance (Z.to_nat forecast_days) w).
Proof.
  intros Hne Hd Hl.
  destruct (forecast_usage_ok (sort_values_date usage_data) forecast_days Hd)
    as (uf & Hu & _).
  destruct (forecast_costs_ok (sort_values_date usage_data) license_info
              forecast_days Hd Hl) as (cf & Hc & _).
  exists uf, cf. repeat split; try assumption.
  now apply generate_forecast_run.
Qed.

(** What a returned forecast of a non-empty series is made of. *)
Lemma generate_forecast_inv (usage_data : list UsageMetric)
    (license_info : SoftwareLicense) (forecast_days : Z) (w w' : World)
    (forecasts : list ForecastData) :
  usage_data <> [] ->
  generate_forecast usage_data license_info forecast_days w = Ok (forecasts, w') ->
  exists usage_forecast cost_forecast,
    _forecast_usage (sort_values_date usage_data) forecast_days = Ok usage_forecast
    /\ _forecast_costs (sort_values_date usage_data) license_info forecast_days
         = Ok cost_forecast
    /\ forecasts =
         map (fun k =>
                forecast_point (sort_values_date usage_data) license_info
                  usage_forecast cost_forecast
                  (clock w (ticks w + k)) (Z.of_nat k))
             (seq 0 (Z.to_nat forecast_days))
    /\ w' = advance (Z.to_nat forecast_days) w.
Proof.
  intros Hne H.
  destruct (_forecast_usage (sort_values_date usage_data) forecast_days)
    as [uf | e] eqn:Hu.
  - destruct (_forecast_costs (sort_values_date usage_data) license_info
                forecast_days) as [cf | e] eqn:Hc.
    + rewrite (generate_forecast_run _ _ _ _ uf cf Hne Hu Hc) in H.
      injection H as <- <-. exists uf, cf. repeat split; reflexivity.
    + rewrite (generate_forecast_raises _ _ _ _ uf e Hne Hu Hc) in H.
      discriminate.
  - destruct usage_data as [| r t]; [contradiction |].
    unfold generate_forecast in H. unfold bind at 1 in H.
    unfold lift at 1 in H. rewrite Hu in H. discriminate.
Qed.

(** The [k]-th point of a returned forecast. *)
Lemma forecast_point_nth (df : DataFrame) (license_info : SoftwareLicense)
    (usage_forecast cost_forecast : list R) (w : World) (n k : nat)
    (f : ForecastData) :
  nth_error
    (map (fun k0 =>
            forecast_point df license_info usage_forecast cost_forecast
              (clock w (ticks w + k0)) (Z.of_nat k0))
         (seq 0 n)) k = Some f ->
  (k < n)%nat
  /\ f = forecast_point df license_info usage_forecast cost_forecast
           (clock w (ticks w + k)) (Z.of_nat k).
Proof.
  intros Hk. rewrite nth_error_map in Hk.
  destruct (nth_error (seq 0 n) k) as [k0 |] eqn:Es; [| discriminate].
  injection Hk as <-.
  assert (Hlt : (k < length (seq 0 n))%nat) by (apply nth_error_Some; congruence).
  rewrite length_seq in Hlt.
  rewrite nth_error_nth' with (d := 0%nat) in Es by (rewrite length_seq; lia).
  rewrite seq_nth in Es by lia. injection Es as <-.
  split; [assumption | reflexivity].
Qed.

(** The dates ascend strictly even when midnight passes during the call,
    as long as the clock does not run backwards. *)
Lemma forecast_dates_ascend (usage_data : list UsageMetric)
    (license_info : SoftwareLicense) (forecast_days : Z) (w w' : World)
    (forecasts : list ForecastData) :
  usage_data <> [] ->
  (forall a b, (a <= b)%nat -> (clock w a <= clock w b)%Z) ->
  generate_forecast usage_data license_info forecast_days w = Ok (forecasts, w') ->
  forall j k f g,
    (j < k)%nat ->
    nth_error forecasts j = Some f ->
    nth_error forecasts k = Some g ->
    (forecast_date f < forecast_date g)%Z.
Proof.
  intros Hne Hmono Hrun j k f g Hjk Hf Hg.
  destruct (generate_forecast_inv _ _ _ _ _ _ Hne Hrun) as (uf & cf & _ & _ & -> & _).
  apply forecast_point_nth in Hf. destruct Hf as (_ & ->).
  apply forecast_point_nth in Hg. destruct Hg as (_ & ->).
  simpl.
  pose proof (Hmono (ticks w + j)%nat (ticks w + k)%nat ltac:(lia)). lia.
Qed.

Lemma generate_forecast_empty (license_info : SoftwareLicense)
    (forecast_days : Z) (w : World) :
  generate_forecast [] license_info forecast_days w = Ok ([], w).
Proof. reflexivity. Qed.

End ForecastRuns.

(** ** The verdict of [_evaluate_license] *)

Lemma evaluate_utilization_confidence (avg_utilization : R) :
  0.7 <= verdict_confidence (evaluate_utilization avg_utilization) <= 0.9.
Proof.
  unfold evaluate_utilization, verdict_confidence.
  rcases; simpl; lra.
Qed.

Lemma evaluate_cost_trend_confidence (cost_trend : string) (v : Verdict) :
  0.7 <= verdict_confidence v <= 0.95 ->
  0.7 <= verdict_confidence (evaluate_cost_trend cost_trend v) <= 0.95.
Proof.
  destruct v as [[d c] rs]. unfold evaluate_cost_trend, verdict_confidence. simpl.
  intros Hc.
  destruct (cost_trend =? "increasing")%string.
  - destruct (d =? "renew")%string; simpl; [rminmax |]; lra.
  - destruct (cost_trend =? "decreasing")%string; simpl; [rminmax |]; lra.
Qed.

Lemma evaluate_anomalies_confidence (found : list Anomaly) (v : Verdict) :
  0.7 <= verdict_confidence v <= 0.95 ->
  0.6 <= verdict_confidence (evaluate_anomalies found v) <= 0.95.
Proof.
  destruct v as [[d c] rs]. unfold evaluate_anomalies, verdict_confidence. simpl.
  intros Hc.
  destruct (3 <? length found)%nat; simpl; [rminmax |]; lra.
Qed.

Lemma evaluate_forecasts_confidence (forecasts : list ForecastData) (v : Verdict) :
  verdict_confidence (evaluate_forecasts forecasts v) = verdict_confidence v.
Proof.
  destruct v as [[d c] rs]. unfold evaluate_forecasts, verdict_confidence.
  destruct forecasts as [| f fs]; [reflexivity |].
  cbv zeta.
  destruct (Rgtb _ _).
  - destruct (d =? "cancel")%string; reflexivity.
  - destruct (Rltb _ _); [| reflexivity].
    destruct (d =? "renew")%string; reflexivity.
Qed.

Lemma evaluate_license_confidence (license_info : SoftwareLicense)
    (avg_utilization : R) (cost_trend : string)
    (forecasts : list ForecastData) (found : list Anomaly) :
  0.6 <= verdict_confidence
           (_evaluate_license license_info avg_utilization cost_trend
              forecasts found) <= 0.95.
Proof.
  unfold _evaluate_license.
  rewrite evaluate_forecasts_confidence.
  apply evaluate_anomalies_confidence, evaluate_cost_trend_confidence.
  pose proof (evaluate_utilization_confidence avg_utilization). lra.
Qed.

(** The later steps only append to the reasons of the first. *)
Lemma evaluate_cost_trend_reasoning (cost_trend : string) (v : Verdict) :
  exists more,
    verdict_reasoning (evaluate_cost_trend cost_trend v)
      = verdict_reasoning v ++ more.
Proof.
  destruct v as [[d c] rs]. unfold evaluate_cost_trend, verdict_reasoning.
  destruct (cost_trend =? "increasing")%string.
  - destruct (d =? "renew")%string; simpl; eexists; reflexivity.
  - destruct (cost_trend =? "decreasing")%string; simpl.
    + eexists; reflexivity.
    + exists []. now rewrite app_nil_r.
Qed.

Lemma evaluate_anomalies_reasoning (found : list Anomaly) (v : Verdict) :
  exists more,
    verdict_reasoning (evaluate_anomalies found v) = verdict_reasoning v ++ more.
Proof.
  destruct v as [[d c] rs]. unfold evaluate_anomalies, verdict_reasoning.
  destruct (3 <? length found)%nat; simpl.
  - eexists; reflexivity.
  - exists []. now rewrite app_nil_r.
Qed.

Lemma evaluate_forecasts_reasoning (forecasts : list ForecastData) (v : Verdict) :
  exists more,
    verdict_reasoning (evaluate_forecasts forecasts v) = verdict_reasoning v ++ more.
Proof.
  destruct v as [[d c] rs]. unfold evaluate_forecasts, verdict_reasoning.
  destruct forecasts as [| f fs]; [exists []; now rewrite app_nil_r |].
  cbv zeta.
  destruct (Rgtb _ _).
  - destruct (d =? "cancel")%string; simpl; eexists; reflexivity.
  - destruct (Rltb _ _).
    + destruct (d =? "renew")%string; simpl; eexists; reflexivity.
    + exists []. simpl. now rewrite app_nil_r.
Qed.

Lemma evaluate_license_reasoning (license_info : SoftwareLicense)
    (avg_utilization : R) (cost_trend : string)
    (forecasts : list ForecastData) (found : list Anomaly) :
  exists more,
    verdict_reasoning
      (_evaluate_license license_info avg_utilization cost_trend forecasts found)
    = verdict_reasoning (evaluate_utilization avg_utilization) ++ more.
Proof.
  unfold _evaluate_license.
  destruct (evaluate_forecasts_reasoning forecasts
              (evaluate_anomalies found
                 (evaluate_cost_trend cost_trend
                    (evaluate_utilization avg_utilization)))) as (m3 & ->).
  destruct (evaluate_anomalies_reasoning found
              (evaluate_cost_trend cost_trend
                 (evaluate_utilization avg_utilization))) as (m2 & ->).
  destruct (evaluate_cost_trend_reasoning cost_trend
              (evaluate_utilization avg_utilization)) as (m1 & ->).
  exists (m1 ++ m2 ++ m3). now rewrite !app_assoc.
Qed.

Lemma validate_ge0_le1_ok (x : R) : 0 <= x <= 1 -> validate_ge0_le1 x = Ok x.
Proof. intros H. unfold validate_ge0_le1. rcases; simpl; (reflexivity || lra). Qed.

(** ** Running the recommendation engine *)

Section RecommendationRuns.

Context {sk : Sklearn}.

Lemma identify_risks_run (license_info : SoftwareLicense)
    (utilization_analysis : AnalysisResult) (forecasts : list ForecastData)
    (w : World) :
  _identify_risks license_info utilization_analysis forecasts w =
    Ok (risks_at license_info utilization_analysis forecasts (clock w (ticks w)),
        advance 1 w).
Proof.
  unfold risks_at, _identify_risks, bind, now_date, ret, advance. simpl.
  repeat f_equal. lia.
Qed.

(** What a successful run of [generate_recommendations] is made of. *)
Lemma generate_recommendations_inv (license_info : SoftwareLicense)
    (usage_data : list UsageMetric) (w w' : World) (r : Recommendation) :
  generate_recommendations license_info usage_data w = Ok (r, w') ->
  exists a w1 forecasts w2 savings,
    analyze_utilization_patterns usage_data w = Ok (a, w1)
    /\ generate_forecast usage_data license_info 90 w1 = Ok (forecasts, w2)
    /\ let v := _evaluate_license license_info (get_mean a) (get_cost_trend a)
                  forecasts (get_anomalies a) in
       let risks := risks_at license_info a forecasts (clock w2 (ticks w2)) in
       _calculate_savings license_info (decision v) forecasts = Ok savings
       /\ w' = advance 1 w2
       /\ r = {| rec_license_id := lic_id license_info;
                 recommendation := decision v;
                 confidence := verdict_confidence v;
                 reasoning := verdict_reasoning v;
                 estimated_savings := savings;
                 risk_factors := risks;
                 alternative_options :=
                   _suggest_alternatives license_info (get_mean a) forecasts;
                 priority :=
                   _determine_priority (verdict_confidence v) savings risks |}.
Proof.
  unfold generate_recommendations. intros H.
  unfold bind at 1 in H.
  destruct (analyze_utilization_patterns usage_data w) as [[a w1] |] eqn:Ea;
    [| discriminate].
  unfold bind at 1 in H.
  destruct (generate_forecast usage_data license_info 90 w1) as [[fs w2] |] eqn:Ef;
    [| discriminate].
  pose proof (evaluate_license_confidence license_info (get_mean a)
                (get_cost_trend a) fs (get_anomalies a)) as Hc.
  destruct (_evaluate_license license_info (get_mean a) (get_cost_trend a) fs
              (get_anomalies a)) as [[d c] rs] eqn:Ev.
  unfold verdict_confidence in Hc; simpl in Hc.
  unfold bind at 1 in H. unfold lift at 1 in H.
  destruct (_calculate_savings license_info d fs) as [sv |] eqn:Es; [| discriminate].
  unfold bind at 1 in H. rewrite identify_risks_run in H.
  unfold bind at 1 in H. unfold lift at 1 in H.
  rewrite validate_ge0_le1_ok in H by lra.
  unfold ret in H. injection H as <- <-.
  exists a, w1, fs, w2, sv. rewrite Ev. simpl.
  repeat split; try reflexivity; assumption.
Qed.

Lemma calculate_savings_ok (license_info : SoftwareLicense)
    (recommendation : string) (forecasts : list ForecastData) :
  forecasts = [] \/ license_period_months license_info <> 0%Z ->
  exists savings,
    _calculate_savings license_info recommendation forecasts = Ok savings.
Proof.
  intros H. unfold _calculate_savings.
  destruct forecasts as [| f fs]; [eexists; reflexivity |].
  destruct H as [H | H]; [discriminate |].
  destruct (Z.eqb_spec (license_period_months license_info) 0); [contradiction |].
  destruct (recommendation =? "cancel")%string; [eexists; reflexivity |].
  destruct (recommendation =? "downgrade")%string; [eexists; reflexivity |].
  destruct (recommendation =? "negotiate")%string; eexists; reflexivity.
Qed.

(** From its first two calls on, [generate_recommendations] succeeds as
    soon as the savings can be computed. *)
Lemma generate_recommendations_from (license_info : SoftwareLicense)
    (usage_data : list UsageMetric) (w w1 w2 : World) (a : AnalysisResult)
    (forecasts : list ForecastData) :
  analyze_utilization_patterns usage_data w = Ok (a, w1) ->
  generate_forecast usage_data license_info 90 w1 = Ok (forecasts, w2) ->
  forecasts = [] \/ license_period_months license_info <> 0%Z ->
  exists r, generate_recommendations license_info usage_data w = Ok (r, advance 1 w2).
Proof.
  intros Ea Ef Hl. unfold generate_recommendations.
  unfold bind at 1. rewrite Ea. unfold bind at 1. rewrite Ef.
  pose proof (evaluate_license_confidence license_info (get_mean a)
                (get_cost_trend a) forecasts (get_anomalies a)) as Hc.
  destruct (_evaluate_license license_info (get_mean a) (get_cost_trend a)
              forecasts (get_anomalies a)) as [[d c] rs].
  unfold verdict_confidence in Hc; simpl in Hc.
  destruct (calculate_savings_ok license_info d forecasts Hl) as (sv & Es).
  unfold bind at 1. unfold lift at 1. rewrite Es.
  unfold bind at 1. rewrite identify_risks_run.
  unfold bind at 1. unfold lift at 1.
  rewrite validate_ge0_le1_ok by lra.
  eexists. reflexivity.
Qed.

(** A license whose period is not zero gets a recommendation, whatever the
    series. *)
Lemma generate_recommendations_total (license_info : SoftwareLicense)
    (usage_data : list UsageMetric) (w : World) :
  license_period_months license_info <> 0%Z ->
  exists r w', generate_recommendations license_info usage_data w = Ok (r, w').
Proof.
  intros Hl. destruct usage_data as [| m t].
  - destruct (generate_recommendations_from license_info [] w w w
                (AnalysisError "No usage data provided") [])
      as (r & Hr); try reflexivity; [now left |].
    now exists r, (advance 1 w).
  - destruct (analyze_nonempty_run (m :: t) w ltac:(discriminate))
      as (p & w1 & Ea & _).
    destruct (generate_forecast_total (m :: t) license_info 90 w1
                ltac:(discriminate) ltac:(lia) (or_intror Hl))
      as (uf & cf & _ & _ & Ef).
    destruct (generate_recommendations_from license_info (m :: t) w w1 _ _ _
                Ea Ef (or_intror Hl)) as (r & Hr).
    eexists; eexists; exact Hr.
Qed.

End RecommendationRuns.

(** ** The reductions on small inputs *)

Example mean_of_three : Np.mean [1; 2; 6] = 3.
Proof. unfold Np.mean, Np.sum. simpl. lra. Qed.

Example median_of_three : Np.median [3; 1; 2] = 2.
Proof.
  unfold Np.median, Np.sort. simpl fold_right.
  unfold Np.insert_sorted.
  repeat (rcases; try lra; simpl).
Qed.

Example var_of_one : Np.var [5] = None.
Proof. reflexivity. Qed.

Example trend_of_rising_costs : _calculate_trend [1; 2; 3] = "increasing"%string.
Proof.
  unfold _calculate_trend. simpl Nat.ltb. cbv iota zeta.
  assert (H : Np.polyfit_slope (Np.arange (length [1; 2; 3])) [1; 2; 3] = 1).
  { unfold Np.polyfit_slope, Np.arange, Np.mean, Np.sum. simpl. field. }
  rewrite H. rcases; (reflexivity || lra).
Qed.

Example growth_of_doubling : _calculate_growth_rate [50; 100] = Some 1.
Proof.
  unfold _calculate_growth_rate. simpl Nat.ltb. cbv iota zeta. simpl nth.
  rcases; [lra |]. simpl. f_equal. lra.
Qed.

Example sort_by_date_example :
  map um_date
    (sort_values_date
       [usage_on 12 1 1; usage_on 10 2 2; usage_on 11 3 3])
  = [10; 11; 12]%Z.
Proof. reflexivity. Qed.

(** ** Formatting *)

Lemma round_half_even_IZR (z : Z) : PyFormat.round_half_even (IZR z) = z.
Proof.
  unfold PyFormat.round_half_even.
  rewrite ZfloorZ. cbv zeta.
  replace (IZR z - IZR z) with 0 by lra.
  rcases; (reflexivity || lra).
Qed.

(** A non-negative number of tenths prints as its integer part, a point,
    and its last digit. *)
Lemma format_1f_tenths (t : Z) :
  (0 <= t)%Z ->
  PyFormat.format_1f (IZR t / 10) =
    append (PyFormat.str_int (t / 10))
           (append "." (PyFormat.str_int (t mod 10))).
Proof.
  intros Ht. unfold PyFormat.format_1f.
  assert (H0 : 0 <= IZR t / 10).
  { apply IZR_le in Ht. lra. }
  rewrite (Rabs_pos_eq _ H0).
  replace (10 * (IZR t / 10)) with (IZR t) by lra.
  rewrite round_half_even_IZR.
  rcases; [lra | reflexivity].
Qed.

Lemma format_1f_0 : PyFormat.format_1f 0 = "0.0"%string.
Proof.
  replace 0 with (IZR 0 / 10) by lra.
  now rewrite format_1f_tenths by lia.
Qed.

Lemma format_1f_15 : PyFormat.format_1f 15 = "15.0"%string.
Proof.
  replace 15 with (IZR 150 / 10) by lra.
  now rewrite format_1f_tenths by lia.
Qed.

(** ** The calendar on known days *)

Example ord2ymd_2026_11_03 : Calendar.ord2ymd 739923%Z = (2026, 11, 3)%Z.
Proof. reflexivity. Qed.

Example ord2ymd_leap_day : Calendar.ord2ymd 738945%Z = (2024, 2, 29)%Z.
Proof. reflexivity. Qed.

Example ord2ymd_end_of_leap_year : Calendar.ord2ymd 730485%Z = (2000, 12, 31)%Z.
Proof. reflexivity. Qed.

Example strftime_2026_11_03 : Calendar.strftime_ymd 739923%Z = "2026-11-03"%string.
Proof. reflexivity. Qed.

Example weekday_2026_11_03 : Calendar.weekday 739923%Z = 1%Z.
Proof. reflexivity. Qed.

Example quarter_2026_11_03 : Calendar.quarter 739923%Z = 4%Z.
Proof. reflexivity. Qed.

(** ** Empty input *)

Section EmptyInput.

Context {sk : Sklearn}.

Lemma evaluate_license_no_data (license_info : SoftwareLicense) :
  _evaluate_license license_info 0 "stable" [] [] =
    ("cancel"%string, 0.9,
     ["Low utilization (0.0%) suggests over-provisioning"%string]).
Proof.
  unfold _evaluate_license, evaluate_utilization.
  rcases; try lra. rewrite format_1f_0. reflexivity.
Qed.

Lemma risks_at_no_data (license_info : SoftwareLicense) (msg : string)
    (today : date) :
  risks_at license_info (AnalysisError msg) [] today =
    if (end_date license_info - today <? 30)%Z
    then ["License expires soon - urgent action required"%string] else [].
Proof.
  unfold risks_at, _identify_risks, bind, now_date, ret. simpl.
  rcases; [lra |]. reflexivity.
Qed.

Lemma determine_priority_no_data (risks : list string) :
  (length risks <= 1)%nat -> _determine_priority 0.9 None risks = "medium"%string.
Proof.
  intros H. unfold _determine_priority. simpl.
  destruct (Nat.ltb_spec 2 (length risks)); [lia |]. simpl.
  rcases; [reflexivity | lra].
Qed.

(** On the empty series the engine skips nothing: the analyzer's error
    dictionary is read with its defaults, the forecast is empty, and the
    verdict of a zero utilization is returned. *)
Lemma generate_recommendations_empty (license_info : SoftwareLicense) (w : World) :
  let risks :=
    if (end_date license_info - clock w (ticks w) <? 30)%Z
    then ["License expires soon - urgent action required"%string] else [] in
  generate_recommendations license_info [] w =
    Ok ({| rec_license_id := lic_id license_info;
           recommendation := "cancel";
           confidence := 0.9;
           reasoning := ["Low utilization (0.0%) suggests over-provisioning"%string];
           estimated_savings := None;
           risk_factors := risks;
           alternative_options :=
             _suggest_alternatives license_info 0 [];
           priority := "medium" |},
        advance 1 w).
Proof.
  intros risks.
  destruct (generate_recommendations_from license_info [] w w w
              (AnalysisError "No usage data provided") [])
    as (r & Hr); try reflexivity; [now left |].
  rewrite Hr. f_equal. f_equal.
  apply generate_recommendations_inv in Hr.
  destruct Hr as (a & w1 & fs & w2 & sv & Ea & Ef & Hs & _ & ->).
  injection Ea as <- <-. injection Ef as <- <-.
  simpl get_mean in *. simpl get_cost_trend in *. simpl get_anomalies in *.
  rewrite evaluate_license_no_data in *.
  simpl in Hs. injection Hs as <-.
  unfold decision, verdict_confidence, verdict_reasoning. simpl fst. simpl snd.
  rewrite risks_at_no_data. fold risks.
  rewrite determine_priority_no_data by (subst risks; destruct (_ <? _)%Z; simpl; lia).
  reflexivity.
Qed.

End EmptyInput.

(** ** Priority and cost, case by case *)

Lemma determine_priority_cases (confidence : R) (estimated_savings : option R)
    (risk_factors : list string) :
  let high :=
    (2 < length risk_factors)%nat \/ savings_over estimated_savings 10000 in
  let medium :=
    0.8 < confidence \/ savings_over estimated_savings 5000 in
  (_determine_priority confidence estimated_savings risk_factors = "high"%string
     <-> high)
  /\ (~ high ->
      (_determine_priority confidence estimated_savings risk_factors
         = "medium"%string <-> medium))
  /\ (~ high -> ~ medium ->
      _determine_priority confidence estimated_savings risk_factors
        = "low"%string).
Proof.
  intros high medium. subst high medium. unfold _determine_priority.
  pose proof (savings_exceed_iff estimated_savings 10000 ltac:(lra)) as H10.
  pose proof (savings_exceed_iff estimated_savings 5000 ltac:(lra)) as H5.
  destruct (Nat.ltb_spec 2 (length risk_factors)) as [Hr | Hr]; simpl.
  - repeat split; intros; try reflexivity; try tauto.
  - destruct (savings_exceed estimated_savings 10000) eqn:E10; simpl.
    + assert (savings_over estimated_savings 10000) by (apply H10; reflexivity).
      repeat split; intros; try reflexivity; try tauto.
    + assert (Hn10 : ~ savings_over estimated_savings 10000)
        by (intros Hs; apply H10 in Hs; discriminate).
      assert (Hnh : ~ ((2 < length risk_factors)%nat
                       \/ savings_over estimated_savings 10000))
        by (intros [? | ?]; [lia | contradiction]).
      unfold Rgtb.
      destruct (Rltb 0.8 confidence) eqn:Ec; simpl.
      * apply Rltb_true in Ec.
        repeat split; intros; try reflexivity; try discriminate; try tauto.
      * apply Rltb_false in Ec.
        destruct (savings_exceed estimated_savings 5000) eqn:E5.
        -- assert (savings_over estimated_savings 5000) by (apply H5; reflexivity).
           repeat split; intros; try reflexivity; try discriminate; try tauto.
        -- assert (Hn5 : ~ savings_over estimated_savings 5000)
             by (intros Hs; apply H5 in Hs; discriminate).
           repeat split; intros; try reflexivity; try discriminate; try tauto.
           match goal with
           | H : 0.8 < confidence \/ _ |- _ =>
               destruct H as [? | ?]; [lra | contradiction]
           end.
Qed.

Lemma nth_repeat_lt (v d : R) (n k : nat) :
  (k < n)%nat -> nth k (repeat v n) d = v.
Proof.
  revert k. induction n as [| n IH]; intros k Hk; [lia |].
  destruct k as [| k]; simpl; [reflexivity | apply IH; lia].
Qed.

Lemma nth_map_lt (f : R -> R) (l : list R) (d d' : R) (k : nat) :
  (k < length l)%nat -> nth k (map f l) d = f (nth k l d').
Proof.
  revert k. induction l as [| x t IH]; intros k Hk; simpl in *; [lia |].
  destruct k as [| k]; [reflexivity | apply IH; lia].
Qed.

Lemma np_full_inv (days : Z) (v : R) (l : list R) :
  np_full days v = Ok l -> (0 <= days)%Z /\ l = repeat v (Z.to_nat days).
Proof.
  unfold np_full. destruct (Z.ltb_spec days 0); [discriminate |].
  intros [= <-]. split; [assumption | reflexivity].
Qed.

Lemma forecast_usage_length (df : DataFrame) (days : Z) (usage_forecast : list R) :
  _forecast_usage df days = Ok usage_forecast ->
  length usage_forecast = Z.to_nat days.
Proof.
  unfold _forecast_usage. destruct (length df <? 7)%nat.
  - intros H. apply np_full_inv in H. destruct H as (_ & ->). apply repeat_length.
  - intros [= <-]. now rewrite length_map, range_length.
Qed.

(** ** The declining fortnight *)

Lemma declining_series_sorted :
  sort_values_date declining_series = declining_series.
Proof. reflexivity. Qed.

Lemma declining_series_units :
  map units_used declining_series = [7; 7; 7; 7; 7; 7; 7; 0; 0; 0; 0; 0; 0; 0].
Proof. reflexivity. Qed.

Lemma declining_series_means :
  Np.mean (Np.tail 7 (map units_used declining_series)) = 0
  /\ Np.mean (Np.head 7 (map units_used declining_series)) = 7.
Proof.
  rewrite declining_series_units.
  unfold Np.mean, Np.tail, Np.head, Np.sum. simpl. lra.
Qed.

Lemma forecast_usage_declining :
  _forecast_usage (sort_values_date declining_series) 1 = Ok [- (1 / 2)].
Proof.
  rewrite declining_series_sorted. unfold _forecast_usage.
  change (length declining_series) with 14%nat.
  change (14 <? 7)%nat with false. change (14 <=? 14)%nat with true.
  change (Nat.min 7 (14 / 2)) with 7%nat. cbv zeta.
  destruct declining_series_means as (-> & ->).
  change (range 1) with [0%Z]. simpl map.
  replace (2 * PI * 0 / 30) with 0 by lra. rewrite sin_0.
  f_equal. f_equal. simpl. lra.
Qed.

(** ** Dependence on the state and on the clock *)

Section Determinism.

Context {sk : Sklearn}.

Lemma clock_fixed_advance (today : date) (n : nat) (w : World) :
  clock_fixed today w -> clock_fixed today (advance n w).
Proof.
  intros H k. unfold advance; simpl.
  rewrite <- Nat.add_assoc. apply H.
Qed.

Lemma clock_fixed_same_clock (today : date) (w w' : World) :
  clock w' = clock w -> ticks w' = ticks w ->
  clock_fixed today w -> clock_fixed today w'.
Proof. intros Hc Ht H k. rewrite Hc, Ht. apply H. Qed.

(** The analyzer always returns, and reads no clock. *)
Lemma analyze_run (usage_data : list UsageMetric) (w : World) :
  exists a w',
    analyze_utilization_patterns usage_data w = Ok (a, w')
    /\ clock w' = clock w /\ ticks w' = ticks w.
Proof.
  destruct usage_data as [| r t].
  - exists (AnalysisError "No usage data provided"), w. repeat split.
  - destruct (analyze_nonempty_run (r :: t) w ltac:(discriminate))
      as (p & w' & Hrun & _ & _ & _ & _ & Hc & Ht).
    exists (Analysis p), w'. repeat split; assumption.
Qed.

Lemma generate_forecast_raises_usage (usage_data : list UsageMetric)
    (license_info : SoftwareLicense) (forecast_days : Z) (w : World)
    (e : PyError) :
  usage_data <> [] ->
  _forecast_usage (sort_values_date usage_data) forecast_days = Raise e ->
  generate_forecast usage_data license_info forecast_days w = Raise e.
Proof.
  intros Hne Hu. destruct usage_data as [| r t]; [contradiction |].
  unfold generate_forecast. unfold bind at 1. unfold lift at 1.
  rewrite Hu. reflexivity.
Qed.

(** While the clock shows one day, the forecast does not depend on the
    state it is asked in. *)
Lemma generate_forecast_state_independent (usage_data : list UsageMetric)
    (license_info : SoftwareLicense) (forecast_days : Z) (today : date)
    (w1 w2 : World) :
  clock_fixed today w1 -> clock_fixed today w2 ->
  output (generate_forecast usage_data license_info forecast_days w1) =
  output (generate_forecast usage_data license_info forecast_days w2).
Proof.
  intros H1 H2.
  destruct usage_data as [| r t]; [reflexivity |].
  assert (Hne : r :: t <> []) by discriminate.
  destruct (_forecast_usage (sort_values_date (r :: t)) forecast_days)
    as [uf | e] eqn:Hu.
  - destruct (_forecast_costs (sort_values_date (r :: t)) license_info
                forecast_days) as [cf | e] eqn:Hc.
    + rewrite !(generate_forecast_run _ _ _ _ uf cf Hne Hu Hc). simpl.
      f_equal. apply map_ext. intros k. now rewrite H1, H2.
    + now rewrite !(generate_forecast_raises _ _ _ _ uf e Hne Hu Hc).
  - now rewrite !(generate_forecast_raises_usage _ _ _ _ e Hne Hu).
Qed.

Lemma generate_forecast_keeps_clock (usage_data : list UsageMetric)
    (license_info : SoftwareLicense) (forecast_days : Z) (today : date)
    (w w' : World) (forecasts : list ForecastData) :
  generate_forecast usage_data license_info forecast_days w = Ok (forecasts, w') ->
  clock_fixed today w -> clock_fixed today w'.
Proof.
  intros Hrun Hfix. destruct usage_data as [| r t].
  - injection Hrun as _ <-. assumption.
  - assert (Hne : r :: t <> []) by discriminate.
    destruct (generate_forecast_inv _ _ _ _ _ _ Hne Hrun)
      as (_ & _ & _ & _ & _ & ->).
    now apply clock_fixed_advance.
Qed.

(** [generate_recommendations], call by call. *)
Lemma generate_recommendations_run (license_info : SoftwareLicense)
    (usage_data : list UsageMetric) (w w1 w2 : World) (a : AnalysisResult)
    (forecasts : list ForecastData) :
  analyze_utilization_patterns usage_data w = Ok (a, w1) ->
  generate_forecast usage_data license_info 90 w1 = Ok (forecasts, w2) ->
  let v := _evaluate_license license_info (get_mean a) (get_cost_trend a)
             forecasts (get_anomalies a) in
  let risks := risks_at license_info a forecasts (clock w2 (ticks w2)) in
  output (generate_recommendations license_info usage_data w) =
    match _calculate_savings license_info (decision v) forecasts with
    | Ok savings =>
        Ok {| rec_license_id := lic_id license_info;
              recommendation := decision v;
              confidence := verdict_confidence v;
              reasoning := verdict_reasoning v;
              estimated_savings := savings;
              risk_factors := risks;
              alternative_options :=
                _suggest_alternatives license_info (get_mean a) forecasts;
              priority :=
                _determine_priority (verdict_confidence v) savings risks |}
    | Raise e => Raise e
    end.
Proof.
  intros Ea Ef v risks. subst v risks.
  unfold generate_recommendations.
  unfold bind at 1. rewrite Ea. unfold bind at 1. rewrite Ef.
  pose proof (evaluate_license_confidence license_info (get_mean a)
                (get_cost_trend a) forecasts (get_anomalies a)) as Hc.
  destruct (_evaluate_license license_info (get_mean a) (get_cost_trend a)
              forecasts (get_anomalies a)) as [[d c] rs].
  unfold verdict_confidence in *; simpl in Hc.
  unfold decision, verdict_reasoning. simpl fst. simpl snd.
  unfold bind at 1. unfold lift at 1.
  destruct (_calculate_savings license_info d forecasts) as [sv | e];
    [| reflexivity].
  unfold bind at 1. rewrite identify_risks_run.
  unfold bind at 1. unfold lift at 1.
  rewrite validate_ge0_le1_ok by lra.
  reflexivity.
Qed.

Lemma generate_recommendations_raises_forecast (license_info : SoftwareLicense)
    (usage_data : list UsageMetric) (w w1 : World) (a : AnalysisResult)
    (e : PyError) :
  analyze_utilization_patterns usage_data w = Ok (a, w1) ->
  generate_forecast usage_data license_info 90 w1 = Raise e ->
  generate_recommendations license_info usage_data w = Raise e.
Proof.
  intros Ea Ef. unfold generate_recommendations.
  unfold bind at 1. rewrite Ea. unfold bind at 1. rewrite Ef. reflexivity.
Qed.

(** While the clock shows one day, the recommendation does not depend on
    the state it is asked in. *)
Lemma generate_recommendations_state_independent
    (license_info : SoftwareLicense) (usage_data : list UsageMetric)
    (today : date) (w1 w2 : World) :
  clock_fixed today w1 -> clock_fixed today w2 ->
  output (generate_recommendations license_info usage_data w1) =
  output (generate_recommendations license_info usage_data w2).
Proof.
  intros H1 H2.
  destruct (analyze_run usage_data w1) as (a1 & u1 & Ea1 & Hc1 & Ht1).
  destruct (analyze_run usage_data w2) as (a2 & u2 & Ea2 & Hc2 & Ht2).
  pose proof (analyze_state_independent usage_data w1 w2) as Ha.
  rewrite Ea1, Ea2 in Ha. simpl in Ha. injection Ha as <-.
  pose proof (clock_fixed_same_clock today w1 u1 Hc1 Ht1 H1) as Hu1.
  pose proof (clock_fixed_same_clock today w2 u2 Hc2 Ht2 H2) as Hu2.
  pose proof (generate_forecast_state_independent usage_data license_info 90
                today u1 u2 Hu1 Hu2) as Hf.
  destruct (generate_forecast usage_data license_info 90 u1)
    as [[fs1 v1] | e1] eqn:Ef1;
    destruct (generate_forecast usage_data license_info 90 u2)
      as [[fs2 v2] | e2] eqn:Ef2; simpl in Hf; try discriminate.
  - injection Hf as <-.
    rewrite (generate_recommendations_run _ _ _ _ _ _ _ Ea1 Ef1).
    rewrite (generate_recommendations_run _ _ _ _ _ _ _ Ea2 Ef2).
    pose proof (generate_forecast_keeps_clock _ _ _ today _ _ _ Ef1 Hu1 0%nat) as K1.
    pose proof (generate_forecast_keeps_clock _ _ _ today _ _ _ Ef2 Hu2 0%nat) as K2.
    rewrite Nat.add_0_r in K1, K2. rewrite K1, K2. reflexivity.
  - injection Hf as <-.
    rewrite (generate_recommendations_raises_forecast _ _ _ _ _ _ Ea1 Ef1).
    rewrite (generate_recommendations_raises_forecast _ _ _ _ _ _ Ea2 Ef2).
    reflexivity.
Qed.

(** The risk factors of a recommendation for a non-empty series are those
    found on the day the clock shows at its ninety-first reading. *)
Lemma generate_recommendations_risk_factors (license_info : SoftwareLicense)
    (usage_data : list UsageMetric) (w w' : World) (r : Recommendation) :
  usage_data <> [] ->
  generate_recommendations license_info usage_data w = Ok (r, w') ->
  exists p forecasts,
    risk_factors r =
      risks_at license_info (Analysis p) forecasts (clock w (ticks w + 90))
    /\ us_mean (utilization_stats p) =
         Np.mean (map utilization_percentage (sort_values_date usage_data))
    /\ ca_cost_trend (cost_analysis p) =
         _calculate_trend (map cost_incurred (sort_values_date usage_data))
    /\ anomalies p =
         (if (length usage_data <? 10)%nat then []
          else detected_rows (sort_values_date usage_data))
    /\ clock w' = clock w /\ ticks w' = (ticks w + 91)%nat.
Proof.
  intros Hne Hrun.
  apply generate_recommendations_inv in Hrun.
  destruct Hrun as (a & w1 & fs & w2 & sv & Ea & Ef & _ & -> & ->).
  destruct (analyze_nonempty_run usage_data w Hne)
    as (p & w1' & Ea' & Hm & _ & Ht & Han & Hc1 & Ht1).
  rewrite Ea in Ea'. injection Ea' as -> <-.
  destruct (generate_forecast_inv _ _ _ _ _ _ Hne Ef) as (_ & _ & _ & _ & _ & ->).
  exists p, fs. simpl. rewrite Hc1, Ht1.
  repeat split; try assumption. lia.
Qed.

Lemma risks_at_quiet (license_info : SoftwareLicense) (p : UtilizationProfile)
    (forecasts : list ForecastData) (today : date) :
  us_mean (utilization_stats p) <= 85 ->
  (ca_cost_trend (cost_analysis p) =? "increasing")%string = false ->
  (length (anomalies p) <= 2)%nat ->
  risks_at license_info (Analysis p) forecasts today =
    if (end_date license_info - today <? 30)%Z
    then ["License expires soon - urgent action required"%string] else [].
Proof.
  intros Hm Ht Ha.
  unfold risks_at, _identify_risks, bind, now_date, ret. simpl.
  rewrite Ht.
  destruct (Nat.ltb_spec 2 (length (anomalies p))); [lia |].
  rcases; [lra |]. reflexivity.
Qed.

End Determinism.

(** ** One day of usage, end to end *)

Lemma sum_repeat (v : R) (n : nat) : Np.sum (repeat v n) = INR n * v.
Proof.
  induction n as [| n IH]; [simpl; lra |].
  change (repeat v (S n)) with (v :: repeat v n).
  change (Np.sum (v :: repeat v n)) with (v + Np.sum (repeat v n)).
  rewrite IH, S_INR. lra.
Qed.

Lemma mean_repeat (v : R) (n : nat) : (0 < n)%nat -> Np.mean (repeat v n) = v.
Proof.
  intros Hn. unfold Np.mean. rewrite sum_repeat, repeat_length.
  assert (0 < INR n) by (apply lt_0_INR; assumption).
  field. lra.
Qed.

Lemma map_nth_seq (l : list R) (d : R) (s : nat) :
  map (fun k => nth (k - s) l d) (seq s (length l)) = l.
Proof.
  revert s. induction l as [| x t IH]; intros s; [reflexivity |].
  simpl. rewrite Nat.sub_diag. f_equal.
  rewrite <- (IH (S s)) at 2. apply map_ext_in.
  intros k Hk. apply in_seq in Hk.
  destruct (k - s)%nat as [| m] eqn:E; [lia |].
  replace (k - S s)%nat with m by lia. reflexivity.
Qed.

(** The predicted usages of a returned forecast are the usage projection. *)
Lemma forecast_points_usage (df : DataFrame) (license_info : SoftwareLicense)
    (usage_forecast cost_forecast : list R) (clk : nat -> date) :
  map predicted_usage
    (map (fun k =>
            forecast_point df license_info usage_forecast cost_forecast
              (clk k) (Z.of_nat k))
         (seq 0 (length usage_forecast)))
  = usage_forecast.
Proof.
  rewrite map_map. rewrite <- (map_nth_seq usage_forecast 0 0) at 2.
  apply map_ext. intros k. simpl. now rewrite Nat2Z.id, Nat.sub_0_r.
Qed.

Lemma format_1f_50 : PyFormat.format_1f 50 = "50.0"%string.
Proof.
  replace 50 with (IZR 500 / 10) by lra.
  now rewrite format_1f_tenths by lia.
Qed.

(** A flat projection changes nothing in step 4. *)
Lemma evaluate_forecasts_flat (forecasts : list ForecastData) (u : R) (n : nat)
    (v : Verdict) :
  0 < u -> (7 <= n)%nat ->
  map predicted_usage forecasts = repeat u n ->
  evaluate_forecasts forecasts v = v.
Proof.
  intros Hu Hn Hmap. destruct v as [[d c] rs]. unfold evaluate_forecasts.
  destruct forecasts as [| f fs] eqn:Ef.
  - reflexivity.
  - rewrite <- Ef in *. clear Ef.
    assert (Hlen : length forecasts = n)
      by (rewrite <- (length_map predicted_usage), Hmap; apply repeat_length).
    rewrite Hlen.
    destruct (Nat.leb_spec 7 n) as [_ | ?]; [| lia].
    rewrite <- firstn_map, Hmap.
    replace (firstn 7 (repeat u n)) with (repeat u 7).
    2:{ replace n with (7 + (n - 7))%nat by lia.
        rewrite repeat_app, firstn_app, repeat_length, Nat.sub_diag.
        rewrite firstn_all2 by (rewrite repeat_length; lia).
        simpl firstn at 1. now rewrite app_nil_r. }
    rewrite !mean_repeat by lia.
    cbv zeta. rcases; try lra. reflexivity.
Qed.

Lemma one_day_recommendation :
  output (generate_recommendations (sk := no_outliers)
            (sample_license PER_USER 12 (day0 + 100))
            [usage_on (day0 - 1) 10 50] (world_on day0))
  = Ok one_day_verdict.
Proof.
  set (lic := sample_license PER_USER 12 (day0 + 100)).
  set (data := [usage_on (day0 - 1) 10 50]).
  assert (Hne : data <> []) by discriminate.
  destruct (analyze_nonempty_run (sk := no_outliers) data (world_on day0) Hne)
    as (p & w1 & Ea & Hm & _ & Ht & Ha & Hc1 & Ht1).
  destruct (generate_forecast_total (sk := no_outliers) data lic 90 w1 Hne
              ltac:(lia) ltac:(left; discriminate))
    as (uf & cf & Hu & Hc & Ef).
  rewrite (generate_recommendations_run _ _ _ _ _ _ _ Ea Ef).
  assert (Hmean : get_mean (Analysis p) = 50).
  { simpl. rewrite Hm. unfold Np.mean, Np.sum. simpl. lra. }
  assert (Htrend : get_cost_trend (Analysis p) = "insufficient_data"%string).
  { simpl. rewrite Ht. reflexivity. }
  assert (Hanom : get_anomalies (Analysis p) = []).
  { simpl. rewrite Ha. reflexivity. }
  assert (Huf : uf = repeat 10 90).
  { assert (H10 : Np.mean (map units_used (sort_values_date data)) = 10)
      by (unfold Np.mean, Np.sum; simpl; lra).
    unfold _forecast_usage in Hu.
    change (length (sort_values_date data) <? 7)%nat with true in Hu.
    cbv iota zeta in Hu.
    rewrite H10, np_full_ok in Hu by lia.
    injection Hu as <-. reflexivity. }
  rewrite Hmean, Htrend, Hanom.
  assert (Hv : _evaluate_license lic 50 "insufficient_data"
                 (map (fun k =>
                         forecast_point (sort_values_date data) lic uf cf
                           (clock w1 (ticks w1 + k)) (Z.of_nat k))
                      (seq 0 (Z.to_nat 90))) []
               = ("renew"%string, 0.7,
                  ["Moderate utilization (50.0%) is within acceptable range"%string])).
  { unfold _evaluate_license.
    rewrite (evaluate_forecasts_flat _ 10 90);
      [| lra | lia
       | subst uf;
         exact (forecast_points_usage (sort_values_date data) lic
                  (repeat 10 90) cf (fun k => clock w1 (ticks w1 + k)))].
    unfold evaluate_utilization. rcases; try lra.
    rewrite format_1f_50. reflexivity. }
  rewrite Hv. unfold decision, verdict_confidence, verdict_reasoning.
  simpl fst. simpl snd.
  assert (Hrisk : forall fs today,
             today = day0 ->
             risks_at (sk := no_outliers) lic (Analysis p) fs today = []).
  { intros fs today ->. rewrite risks_at_quiet.
    - reflexivity.
    - simpl in Hmean. rewrite Hmean. lra.
    - simpl in Htrend. rewrite Htrend. reflexivity.
    - simpl in Hanom. rewrite Hanom. simpl. lia. }
  rewrite Hrisk by (simpl; rewrite Hc1; reflexivity).
  simpl _calculate_savings.
  assert (Halt : forall fs,
             _suggest_alternatives lic 50 fs =
               [ {| alt_option := "Multi-year contract";
                    alt_description := "Sign longer contract for better pricing";
                    alt_estimated_savings := 12000 * 0.1 |} ]).
  { intros fs. unfold _suggest_alternatives. rcases; try lra. reflexivity. }
  assert (Hprio : _determine_priority 0.7 (Some 0) [] = "low"%string).
  { unfold _determine_priority, savings_exceed. simpl length. simpl Nat.ltb.
    rcases; simpl; try reflexivity; lra. }
  rewrite Halt, Hprio. reflexivity.
Qed.

Lemma one_day_recommendation_run :
  exists w',
    generate_recommendations (sk := no_outliers)
      (sample_license PER_USER 12 (day0 + 100))
      [usage_on (day0 - 1) 10 50] (world_on day0) = Ok (one_day_verdict, w').
Proof.
  destruct (generate_recommendations_total (sk := no_outliers)
              (sample_license PER_USER 12 (day0 + 100))
              [usage_on (day0 - 1) 10 50] (world_on day0))
    as (r & w' & Hrun); [discriminate |].
  pose proof one_day_recommendation as H.
  rewrite Hrun in H. simpl in H. injection H as ->.
  exists w'. exact Hrun.
Qed.

(** * The claims *)

Section EmptySeries.

Context {sk : Sklearn}.

(** C1 (as the code has it). For the empty series the analyzer returns the
    error dictionary and no profile.  The recommendation engine does not
    stop there: the forecast it asks for is the empty sequence, the mean
    utilization defaults to 0, and a recommendation is returned: "cancel"
    with confidence 0.9, one reason, no savings estimate, at most the
    expiry risk, priority "medium". *)
Theorem empty_series_error_record_and_cancel (license_info : SoftwareLicense)
    (w : World) :
  analyze_utilization_patterns [] w
    = Ok (AnalysisError "No usage data provided", w)
  /\ generate_forecast [] license_info 90 w = Ok ([], w)
  /\ exists r,
       generate_recommendations license_info [] w = Ok (r, advance 1 w)
       /\ recommendation r = "cancel"%string
       /\ confidence r = 0.9
       /\ reasoning r = ["Low utilization (0.0%) suggests over-provisioning"%string]
       /\ estimated_savings r = None
       /\ risk_factors r =
            (if (end_date license_info - clock w (ticks w) <? 30)%Z
             then ["License expires soon - urgent action required"%string]
             else [])
       /\ priority r = "medium"%string.
Proof.
  split; [reflexivity |]. split; [reflexivity |].
  eexists. split; [apply generate_recommendations_empty |].
  simpl. repeat split; reflexivity.
Qed.

End EmptySeries.

(** C1 (counterexample). The recommendation for an empty series, asked on
    2026-11-03 for a license that ends a hundred days later, is not an
    error: it is the decision "cancel". *)
Lemma recommend_on_empty_series_is_cancel :
  generate_recommendations (sk := no_outliers)
    (sample_license PER_USER 12 (day0 + 100)) [] (world_on day0)
  = Ok ({| rec_license_id := "LIC-001";
           recommendation := "cancel";
           confidence := 0.9;
           reasoning := ["Low utilization (0.0%) suggests over-provisioning"%string];
           estimated_savings := None;
           risk_factors := [];
           alternative_options :=
             [ {| alt_option := "Pay-per-use model";
                  alt_description := "Switch to usage-based billing to reduce costs";
                  alt_estimated_savings := 12000 * 0.4 |};
               {| alt_option := "Multi-year contract";
                  alt_description := "Sign longer contract for better pricing";
                  alt_estimated_savings := 12000 * 0.1 |} ];
           priority := "medium" |},
         advance 1 (world_on day0))
  /\ forall e,
       generate_recommendations (sk := no_outliers)
         (sample_license PER_USER 12 (day0 + 100)) [] (world_on day0) <> Raise e.
Proof.
  rewrite generate_recommendations_empty.
  split; [| discriminate].
  f_equal. f_equal. f_equal.
  unfold _suggest_alternatives. simpl.
  rcases; try lra. reflexivity.
Qed.

Section ForecastShape.

Context {sk : Sklearn}.

(** C2 (as the code has it). The forecast of the empty series is the empty
    sequence.  For a non-empty series, a horizon [N >= 0] and a license
    that is not flat-rate with a period of zero months, the forecast has
    exactly [N] points; while the clock shows the same day, point [k]
    (counted from 0) is dated [k + 1] days after that day, so the dates
    start tomorrow and ascend strictly, one day per point. *)
Theorem forecast_one_point_per_day (usage_data : list UsageMetric)
    (license_info : SoftwareLicense) (N : Z) (w : World) (today : date) :
  generate_forecast [] license_info N w = Ok ([], w)
  /\ (usage_data <> [] ->
      (0 <= N)%Z ->
      billing_type license_info <> FLAT_RATE
        \/ license_period_months license_info <> 0%Z ->
      clock_fixed today w ->
      exists forecasts w',
        generate_forecast usage_data license_info N w = Ok (forecasts, w')
        /\ Z.of_nat (length forecasts) = N
        /\ (forall k f, nth_error forecasts k = Some f ->
              forecast_date f = (today + 1 + Z.of_nat k)%Z)
        /\ (forall j k f g, (j < k)%nat ->
              nth_error forecasts j = Some f ->
              nth_error forecasts k = Some g ->
              (forecast_date f < forecast_date g)%Z)).
Proof.
  split; [reflexivity |].
  intros Hne HN Hl Hclock.
  destruct (generate_forecast_total usage_data license_info N w Hne HN Hl)
    as (uf & cf & _ & _ & Hrun).
  eexists; eexists; split; [exact Hrun |].
  assert (Hdate : forall k f,
             nth_error
               (map (fun k0 =>
                       forecast_point (sort_values_date usage_data) license_info
                         uf cf (clock w (ticks w + k0)) (Z.of_nat k0))
                    (seq 0 (Z.to_nat N))) k = Some f ->
             forecast_date f = (today + 1 + Z.of_nat k)%Z).
  { intros k f Hk. apply forecast_point_nth in Hk. destruct Hk as (_ & ->).
    simpl. rewrite Hclock. lia. }
  split; [rewrite length_map, length_seq; lia |].
  split; [exact Hdate |].
  intros j k f g Hjk Hf Hg.
  rewrite (Hdate _ _ Hf), (Hdate _ _ Hg). lia.
Qed.

End ForecastShape.

(** C2 (witness). Three days are forecast from one day of usage. *)
Lemma forecast_one_point_per_day_witness :
  exists forecasts w',
    generate_forecast (sk := no_outliers) [usage_on (day0 - 1) 10 50]
      (sample_license PER_USER 12 (day0 + 100)) 3 (world_on day0)
      = Ok (forecasts, w')
    /\ Z.of_nat (length forecasts) = 3%Z
    /\ (forall k f, nth_error forecasts k = Some f ->
          forecast_date f = (day0 + 1 + Z.of_nat k)%Z)
    /\ (forall j k f g, (j < k)%nat ->
          nth_error forecasts j = Some f ->
          nth_error forecasts k = Some g ->
          (forecast_date f < forecast_date g)%Z).
Proof.
  apply (forecast_one_point_per_day (sk := no_outliers)
           [usage_on (day0 - 1) 10 50]
           (sample_license PER_USER 12 (day0 + 100)) 3 (world_on day0) day0).
  - discriminate.
  - lia.
  - left; discriminate.
  - intros k; reflexivity.
Defined.

(** C2 (counterexample). A flat-rate license with a period of zero months:
    the daily cost divides by zero and no forecast is returned. *)
Lemma forecast_flat_rate_zero_period_raises :
  generate_forecast (sk := no_outliers) [usage_on (day0 - 1) 10 50]
    (sample_license FLAT_RATE 0 (day0 + 100)) 1 (world_on day0)
  = Raise ZeroDivisionError.
Proof.
  destruct (forecast_usage_ok
              (sort_values_date [usage_on (day0 - 1) 10 50]) 1 ltac:(lia))
    as (uf & Hu & _).
  apply (generate_forecast_raises (sk := no_outliers) _ _ _ _ uf);
    [discriminate | exact Hu |].
  rewrite (forecast_costs_flat _ _ _ uf) by (reflexivity || exact Hu).
  reflexivity.
Qed.

Section ForecastConfidence.

Context {sk : Sklearn}.

(** C4. In the forecast returned for a non-empty series, the confidence
    score of a later point is never above that of an earlier one, and
    every score lies between 0.1 and 0.95; the score of point [k] is
    [_calculate_confidence] at day index [k]. *)
Theorem forecast_confidence_decays_within_bounds (usage_data : list UsageMetric)
    (license_info : SoftwareLicense) (N : Z) (w w' : World)
    (forecasts : list ForecastData) :
  usage_data <> [] ->
  generate_forecast usage_data license_info N w = Ok (forecasts, w') ->
  forall j k f g,
    (j <= k)%nat ->
    nth_error forecasts j = Some f ->
    nth_error forecasts k = Some g ->
    confidence_score f =
      _calculate_confidence (sort_values_date usage_data) (Z.of_nat j)
    /\ confidence_score g <= confidence_score f
    /\ 0.1 <= confidence_score f <= 0.95.
Proof.
  intros Hne Hrun j k f g Hjk Hf Hg.
  destruct (generate_forecast_inv _ _ _ _ _ _ Hne Hrun) as (uf & cf & _ & _ & -> & _).
  apply forecast_point_nth in Hf. destruct Hf as (_ & ->).
  apply forecast_point_nth in Hg. destruct Hg as (_ & ->).
  simpl. split; [reflexivity |]. split.
  - apply calculate_confidence_antitone. lia.
  - apply calculate_confidence_bounds.
Qed.

End ForecastConfidence.

(** C4 (witness). The first and the third point of the three-day forecast
    from the fourteen days of declining usage. *)
Lemma forecast_confidence_witness :
  exists forecasts w' f g,
    generate_forecast (sk := no_outliers) declining_series
      (sample_license PER_USER 12 (day0 + 100)) 3 (world_on day0)
      = Ok (forecasts, w')
    /\ nth_error forecasts 0 = Some f
    /\ nth_error forecasts 2 = Some g
    /\ confidence_score f =
         _calculate_confidence (sort_values_date declining_series) 0
    /\ confidence_score g <= confidence_score f
    /\ 0.1 <= confidence_score f <= 0.95.
Proof.
  assert (Hne : declining_series <> []) by discriminate.
  destruct (generate_forecast_total (sk := no_outliers) declining_series
              (sample_license PER_USER 12 (day0 + 100)) 3 (world_on day0))
    as (uf & cf & _ & _ & Hrun).
  - exact Hne.
  - lia.
  - left; discriminate.
  - eexists; eexists; eexists; eexists.
    split; [exact Hrun |].
    split; [reflexivity |]. split; [reflexivity |].
    apply (forecast_confidence_decays_within_bounds _ _ _ _ _ _ Hne Hrun
             0%nat 2%nat); [lia | reflexivity | reflexivity].
Defined.

(** C3. The base decision is a function of the mean utilization: below 20
    it is "cancel" with confidence 0.9, from 20 up to (excluding) 30 it is
    "downgrade" with 0.8, above 90 it is "negotiate" with 0.8, and in every
    other case "renew" with 0.7; the single reason appended names the
    percentage formatted with one decimal.  [_evaluate_license] starts
    from this verdict; a non-empty series feeds it the mean of its
    utilization percentages, and the reason stays the first reason of the
    recommendation returned. *)
Theorem base_decision_by_mean_utilization {sk : Sklearn}
    (usage_data : list UsageMetric) (w : World) :
  usage_data <> [] ->
  let avg_utilization := Np.mean (map utilization_percentage usage_data) in
  (exists p w',
      analyze_utilization_patterns usage_data w = Ok (Analysis p, w')
      /\ get_mean (Analysis p) = avg_utilization)
  /\ (forall license_info cost_trend forecasts found,
        _evaluate_license license_info avg_utilization cost_trend forecasts found =
          evaluate_forecasts forecasts
            (evaluate_anomalies found
               (evaluate_cost_trend cost_trend
                  (evaluate_utilization avg_utilization))))
  /\ (avg_utilization < 20 ->
      evaluate_utilization avg_utilization =
        ("cancel"%string, 0.9,
         [append "Low utilization ("
            (append (PyFormat.format_1f avg_utilization)
                    "%) suggests over-provisioning")]))
  /\ (20 <= avg_utilization < 30 ->
      evaluate_utilization avg_utilization =
        ("downgrade"%string, 0.8,
         [append "Low utilization ("
            (append (PyFormat.format_1f avg_utilization)
                    "%) suggests over-provisioning")]))
  /\ (90 < avg_utilization ->
      evaluate_utilization avg_utilization =
        ("negotiate"%string, 0.8,
         [append "High utilization ("
            (append (PyFormat.format_1f avg_utilization)
                    "%) may require upgrade")]))
  /\ (30 <= avg_utilization <= 90 ->
      evaluate_utilization avg_utilization =
        ("renew"%string, 0.7,
         [append "Moderate utilization ("
            (append (PyFormat.format_1f avg_utilization)
                    "%) is within acceptable range")]))
  /\ (forall license_info r w',
        generate_recommendations license_info usage_data w = Ok (r, w') ->
        exists more,
          reasoning r =
            verdict_reasoning (evaluate_utilization avg_utilization) ++ more).
Proof.
  intros Hne avg_utilization.
  assert (Hmean : forall p w',
             analyze_utilization_patterns usage_data w = Ok (Analysis p, w') ->
             get_mean (Analysis p) = avg_utilization).
  { intros p w' Hrun.
    destruct (analyze_nonempty_run usage_data w Hne)
      as (p0 & w0 & Hrun0 & Hm & _).
    rewrite Hrun in Hrun0. injection Hrun0 as <- <-.
    simpl. rewrite Hm. subst avg_utilization.
    apply mean_perm, Permutation_map, Permutation_sym, sort_values_date_perm. }
  split.
  { destruct (analyze_nonempty_run usage_data w Hne) as (p & w' & Hrun & _).
    exists p, w'. split; [exact Hrun | exact (Hmean _ _ Hrun)]. }
  split; [reflexivity |].
  repeat split;
    try (unfold evaluate_utilization; intros; rcases; try reflexivity; lra).
  intros license_info r w' Hrun.
  apply generate_recommendations_inv in Hrun.
  destruct Hrun as (a & w1 & fs & w2 & sv & Ea & _ & _ & _ & ->).
  destruct (analyze_nonempty_run usage_data w Hne) as (p & w0 & Hrun0 & _).
  rewrite Ea in Hrun0. injection Hrun0 as -> <-.
  rewrite (Hmean _ _ Ea). simpl.
  apply evaluate_license_reasoning.
Qed.

(** C3 (witness). One day at 15 percent: the mean is 15 and the base
    decision is "cancel". *)
Lemma base_decision_witness :
  Np.mean (map utilization_percentage [usage_on (day0 - 1) 10 15]) = 15
  /\ evaluate_utilization
       (Np.mean (map utilization_percentage [usage_on (day0 - 1) 10 15])) =
       ("cancel"%string, 0.9,
        ["Low utilization (15.0%) suggests over-provisioning"%string]).
Proof.
  assert (Hne : [usage_on (day0 - 1) 10 15] <> []) by discriminate.
  assert (Havg : Np.mean (map utilization_percentage
                            [usage_on (day0 - 1) 10 15]) = 15)
    by (unfold Np.mean, Np.sum; simpl; lra).
  split; [exact Havg |].
  destruct (base_decision_by_mean_utilization (sk := no_outliers)
              [usage_on (day0 - 1) 10 15] (world_on day0) Hne)
    as (_ & _ & Hcancel & _).
  rewrite Hcancel by (rewrite Havg; lra).
  rewrite Havg, format_1f_15. reflexivity.
Defined.

Section Priority.

Context {sk : Sklearn}.

(** C6. The priority of a recommendation that the engine returns is
    "high" exactly when it lists more than two risk factors or its savings
    estimate exceeds 10000; failing that, it is "medium" exactly when the
    confidence exceeds 0.8 or the savings estimate exceeds 5000; failing
    both it is "low".  More than two risk factors alone make it "high". *)
Theorem priority_rule (license_info : SoftwareLicense)
    (usage_data : list UsageMetric) (w w' : World) (r : Recommendation) :
  generate_recommendations license_info usage_data w = Ok (r, w') ->
  let high :=
    (2 < length (risk_factors r))%nat
    \/ savings_over (estimated_savings r) 10000 in
  let medium :=
    0.8 < confidence r \/ savings_over (estimated_savings r) 5000 in
  priority r =
    _determine_priority (confidence r) (estimated_savings r) (risk_factors r)
  /\ (priority r = "high"%string <-> high)
  /\ (~ high -> (priority r = "medium"%string <-> medium))
  /\ (~ high -> ~ medium -> priority r = "low"%string)
  /\ ((2 < length (risk_factors r))%nat -> priority r = "high"%string).
Proof.
  intros Hrun high medium.
  apply generate_recommendations_inv in Hrun.
  destruct Hrun as (a & w1 & fs & w2 & sv & _ & _ & _ & _ & Hr).
  assert (Hp : priority r =
               _determine_priority (confidence r) (estimated_savings r)
                 (risk_factors r)) by (rewrite Hr; reflexivity).
  destruct (determine_priority_cases (confidence r) (estimated_savings r)
              (risk_factors r)) as (Hh & Hm & Hlow).
  rewrite Hp. subst high medium.
  repeat split; tauto.
Qed.

(** C9. The confidence of a recommendation returned for a non-empty series
    lies between 0.3 and 0.95. *)
Theorem recommendation_confidence_bounds (license_info : SoftwareLicense)
    (usage_data : list UsageMetric) (w w' : World) (r : Recommendation) :
  usage_data <> [] ->
  generate_recommendations license_info usage_data w = Ok (r, w') ->
  0.3 <= confidence r <= 0.95.
Proof.
  intros _ Hrun.
  apply generate_recommendations_inv in Hrun.
  destruct Hrun as (a & w1 & fs & w2 & sv & _ & _ & _ & _ & ->).
  simpl.
  pose proof (evaluate_license_confidence license_info (get_mean a)
                (get_cost_trend a) fs (get_anomalies a)).
  lra.
Qed.

End Priority.

(** C6 (witness). The recommendation after one day of usage at 50
    percent: no risk factor, savings 0, confidence 0.7, hence "low". *)
Lemma priority_rule_witness :
  exists w',
    generate_recommendations (sk := no_outliers)
      (sample_license PER_USER 12 (day0 + 100))
      [usage_on (day0 - 1) 10 50] (world_on day0) = Ok (one_day_verdict, w')
    /\ priority one_day_verdict = "low"%string
    /\ (priority one_day_verdict = "high"%string <->
          (2 < length (risk_factors one_day_verdict))%nat
          \/ savings_over (estimated_savings one_day_verdict) 10000).
Proof.
  destruct one_day_recommendation_run as (w' & Hrun).
  exists w'. split; [exact Hrun |]. split; [reflexivity |].
  destruct (priority_rule _ _ _ _ _ Hrun) as (_ & Hh & _).
  exact Hh.
Defined.

(** C9 (witness). The same recommendation has its confidence, 0.7, in
    range. *)
Lemma recommendation_confidence_witness :
  exists w',
    generate_recommendations (sk := no_outliers)
      (sample_license PER_USER 12 (day0 + 100))
      [usage_on (day0 - 1) 10 50] (world_on day0) = Ok (one_day_verdict, w')
    /\ 0.3 <= confidence one_day_verdict <= 0.95.
Proof.
  destruct one_day_recommendation_run as (w' & Hrun).
  exists w'. split; [exact Hrun |].
  assert (Hne : [usage_on (day0 - 1) 10 50] <> []) by discriminate.
  exact (recommendation_confidence_bounds _ _ _ _ _ Hne Hrun).
Defined.

Section ForecastCost.

Context {sk : Sklearn}.

(** C7. In the forecast returned for a non-empty series, the predicted
    cost of every point is the total cost divided by thirty times the
    period in months when the billing is flat-rate, whatever the predicted
    usage, and the predicted usage of that point times the cost per unit
    for every other billing model; for those other models the forecast of
    a horizon [N >= 0] is always returned, with [N] points. *)
Theorem forecast_cost_by_billing_model (usage_data : list UsageMetric)
    (license_info : SoftwareLicense) (N : Z) (w : World) :
  usage_data <> [] ->
  (forall forecasts w' f,
      generate_forecast usage_data license_info N w = Ok (forecasts, w') ->
      In f forecasts ->
      predicted_cost f =
        match billing_type license_info with
        | FLAT_RATE =>
            total_license_cost license_info
            / IZR (license_period_months license_info * 30)
        | _ => predicted_usage f * cost_per_unit license_info
        end)
  /\ (billing_type license_info <> FLAT_RATE ->
      (0 <= N)%Z ->
      exists forecasts w',
        generate_forecast usage_data license_info N w = Ok (forecasts, w')
        /\ Z.of_nat (length forecasts) = N).
Proof.
  intros Hne. split.
  - intros fs w' f Hrun Hin.
    destruct (generate_forecast_inv _ _ _ _ _ _ Hne Hrun)
      as (uf & cf & Hu & Hc & -> & _).
    apply In_nth_error in Hin. destruct Hin as (k & Hk).
    apply forecast_point_nth in Hk. destruct Hk as (Hlt & ->).
    pose proof (forecast_usage_length _ _ _ Hu) as Hlen.
    simpl. rewrite Nat2Z.id.
    destruct (billing_type license_info) eqn:Eb;
      try (rewrite (forecast_costs_per_unit _ _ _ uf) in Hc
             by (assumption || (rewrite Eb; discriminate));
           injection Hc as <-;
           rewrite (nth_map_lt _ _ 0 0) by lia; reflexivity).
    rewrite (forecast_costs_flat _ _ _ uf) in Hc by assumption.
    destruct (license_period_months license_info =? 0)%Z; [discriminate |].
    apply np_full_inv in Hc. destruct Hc as (_ & ->).
    apply nth_repeat_lt. assumption.
  - intros Hb HN.
    destruct (generate_forecast_total usage_data license_info N w Hne HN
                (or_introl Hb)) as (uf & cf & _ & _ & Hrun).
    eexists; eexists; split; [exact Hrun |].
    rewrite length_map, length_seq. lia.
Qed.

End ForecastCost.

(** C7 (witness). A flat-rate license of 12000 over twelve months costs
    12000 / 360 on the first forecast day. *)
Lemma forecast_cost_flat_rate_witness :
  exists forecasts w' f,
    generate_forecast (sk := no_outliers) declining_series
      (sample_license FLAT_RATE 12 (day0 + 100)) 2 (world_on day0)
      = Ok (forecasts, w')
    /\ nth_error forecasts 0 = Some f
    /\ predicted_cost f = 12000 / IZR (12 * 30).
Proof.
  assert (Hne : declining_series <> []) by discriminate.
  destruct (generate_forecast_total (sk := no_outliers) declining_series
              (sample_license FLAT_RATE 12 (day0 + 100)) 2 (world_on day0))
    as (uf & cf & _ & _ & Hrun).
  - exact Hne.
  - lia.
  - right; discriminate.
  - eexists; eexists; eexists. split; [exact Hrun |]. split; [reflexivity |].
    destruct (forecast_cost_by_billing_model declining_series
                (sample_license FLAT_RATE 12 (day0 + 100)) 2 (world_on day0) Hne)
      as (Hcost & _).
    apply (Hcost _ _ _ Hrun). left; reflexivity.
Defined.

Section DeviationField.

Context {sk : Sklearn}.

(** C5 (as the code has it). For a non-empty series the [std] field of the
    utilization statistics is the sample standard deviation of the
    utilization percentages, with divisor [n - 1]; for a single point it
    is NaN, not 0. *)
Theorem std_field_is_sample_deviation (usage_data : list UsageMetric)
    (w : World) :
  usage_data <> [] ->
  exists p w',
    analyze_utilization_patterns usage_data w = Ok (Analysis p, w')
    /\ us_std (utilization_stats p) =
         if (length usage_data <? 2)%nat then None
         else Some (sample_std (map utilization_percentage usage_data)).
Proof.
  intros Hne.
  destruct (analyze_nonempty_run usage_data w Hne)
    as (p & w' & Hrun & _ & Hstd & _).
  exists p, w'. split; [exact Hrun |].
  rewrite Hstd.
  rewrite (std_perm _ (map utilization_percentage usage_data))
    by (apply Permutation_map, Permutation_sym, sort_values_date_perm).
  unfold Np.std, sample_std. rewrite length_map. reflexivity.
Qed.

End DeviationField.

Lemma sq_dev_0_2 : Np.sq_dev [0; 2] = 2.
Proof. unfold Np.sq_dev, Np.mean, Np.sum. simpl. lra. Qed.

Lemma sqrt_2_neq_1 : sqrt 2 <> 1.
Proof.
  intros H. pose proof (sqrt_sqrt 2 ltac:(lra)) as Hs.
  rewrite H in Hs. lra.
Qed.

(** C5 (witness). Two days, at 0 and at 2 percent: the field is the
    square root of 2. *)
Lemma std_field_witness :
  exists p w',
    analyze_utilization_patterns (sk := no_outliers)
      [usage_on (day0 - 2) 0 0; usage_on (day0 - 1) 2 2] (world_on day0)
      = Ok (Analysis p, w')
    /\ us_std (utilization_stats p) = Some (sample_std [0; 2])
    /\ sample_std [0; 2] = sqrt 2.
Proof.
  assert (Hne : [usage_on (day0 - 2) 0 0; usage_on (day0 - 1) 2 2] <> [])
    by discriminate.
  destruct (std_field_is_sample_deviation (sk := no_outliers)
              [usage_on (day0 - 2) 0 0; usage_on (day0 - 1) 2 2]
              (world_on day0) Hne) as (p & w' & Hrun & Hstd).
  exists p, w'. split; [exact Hrun |]. split; [exact Hstd |].
  unfold sample_std. rewrite sq_dev_0_2. simpl. f_equal. lra.
Defined.

(** C5 (counterexample). For two days at 0 and 2 percent the population
    deviation is 1 while the field holds the square root of 2; for a single
    day the field holds NaN, not 0. *)
Lemma std_field_is_not_population_deviation :
  (exists p w',
      analyze_utilization_patterns (sk := no_outliers)
        [usage_on (day0 - 2) 0 0; usage_on (day0 - 1) 2 2] (world_on day0)
        = Ok (Analysis p, w')
      /\ us_std (utilization_stats p) = Some (sqrt 2)
      /\ population_std
           (map utilization_percentage
              [usage_on (day0 - 2) 0 0; usage_on (day0 - 1) 2 2]) = 1
      /\ us_std (utilization_stats p) <>
           Some (population_std
                   (map utilization_percentage
                      [usage_on (day0 - 2) 0 0; usage_on (day0 - 1) 2 2])))
  /\ (exists p w',
        analyze_utilization_patterns (sk := no_outliers)
          [usage_on (day0 - 1) 10 50] (world_on day0) = Ok (Analysis p, w')
        /\ us_std (utilization_stats p) = None
        /\ us_std (utilization_stats p) <> Some 0).
Proof.
  split.
  - destruct (analyze_nonempty_run (sk := no_outliers)
                [usage_on (day0 - 2) 0 0; usage_on (day0 - 1) 2 2]
                (world_on day0) ltac:(discriminate))
      as (p & w' & Hrun & _ & Hstd & _).
    exists p, w'. split; [exact Hrun |].
    assert (Hs : us_std (utilization_stats p) = Some (sqrt 2)).
    { rewrite Hstd.
      change (map utilization_percentage
                (sort_values_date
                   [usage_on (day0 - 2) 0 0; usage_on (day0 - 1) 2 2]))
        with [0; 2].
      unfold Np.std. simpl length. simpl Nat.ltb. cbv iota.
      rewrite sq_dev_0_2. simpl. do 2 f_equal. lra. }
    assert (Hp : population_std
                   (map utilization_percentage
                      [usage_on (day0 - 2) 0 0; usage_on (day0 - 1) 2 2]) = 1).
    { change (map utilization_percentage
                [usage_on (day0 - 2) 0 0; usage_on (day0 - 1) 2 2])
        with [0; 2].
      unfold population_std. rewrite sq_dev_0_2. simpl.
      replace (2 / (1 + 1)) with 1 by lra. apply sqrt_1. }
    split; [exact Hs |]. split; [exact Hp |].
    rewrite Hs, Hp. intros [= H]. exact (sqrt_2_neq_1 H).
  - destruct (analyze_nonempty_run (sk := no_outliers)
                [usage_on (day0 - 1) 10 50] (world_on day0) ltac:(discriminate))
      as (p & w' & Hrun & _ & Hstd & _).
    exists p, w'. split; [exact Hrun |].
    assert (Hs : us_std (utilization_stats p) = None) by (rewrite Hstd; reflexivity).
    split; [exact Hs |]. rewrite Hs. discriminate.
Qed.

Section NegativeForecast.

Context {sk : Sklearn}.

(** C10. Nothing keeps the usage projection at or above zero: there is a
    series of fourteen days whose trailing-week mean is below its
    leading-week mean for which the first point of the forecast has a
    negative predicted usage and, the billing being per unit at a positive
    price, a negative predicted cost. *)
Theorem declining_usage_forecast_goes_negative (w : World) :
  exists usage_data license_info N k forecasts w' f,
    (14 <= length usage_data)%nat
    /\ Np.mean (Np.tail (Nat.min 7 (length usage_data / 2))
                  (map units_used (sort_values_date usage_data)))
       < Np.mean (Np.head (Nat.min 7 (length usage_data / 2))
                    (map units_used (sort_values_date usage_data)))
    /\ billing_type license_info = PER_USER
    /\ 0 < cost_per_unit license_info
    /\ generate_forecast usage_data license_info N w = Ok (forecasts, w')
    /\ nth_error forecasts k = Some f
    /\ predicted_usage f < 0
    /\ predicted_cost f < 0.
Proof.
  assert (Hne : declining_series <> []) by discriminate.
  pose proof forecast_usage_declining as Hu.
  assert (Hc : _forecast_costs (sort_values_date declining_series)
                 (sample_license PER_USER 12 (day0 + 100)) 1
               = Ok (map (fun u => u * 2) [- (1 / 2)])).
  { rewrite (forecast_costs_per_unit _ _ _ [- (1 / 2)]);
      [reflexivity | discriminate | exact Hu]. }
  exists declining_series, (sample_license PER_USER 12 (day0 + 100)), 1%Z, 0%nat.
  eexists; eexists; eexists.
  split; [simpl; lia |].
  split.
  { rewrite declining_series_sorted.
    change (Nat.min 7 (length declining_series / 2)) with 7%nat.
    destruct declining_series_means as (-> & ->). lra. }
  split; [reflexivity |].
  split; [simpl; lra |].
  split; [apply (generate_forecast_run _ _ _ _ _ _ Hne Hu Hc) |].
  split; [reflexivity |].
  simpl. split; lra.
Qed.

End NegativeForecast.

Section Repeatability.

Context {sk : Sklearn}.

(** C8 (as the code has it). The profile returned by the analyzer depends
    on the series alone: not on the clock, and not on the scaler and the
    detector left by earlier calls, which every call of at least ten rows
    refits, the detector with the fixed seed 42.  The forecast and the
    recommendation depend, besides the series and the license, on the day
    the clock shows: asked twice while the clock shows the same day, in
    whatever state, each returns the same value or raises the same
    error. *)
Theorem repeated_calls_identical_output (usage_data : list UsageMetric)
    (license_info : SoftwareLicense) (N : Z) (today : date) (w1 w2 : World) :
  output (analyze_utilization_patterns usage_data w1) =
  output (analyze_utilization_patterns usage_data w2)
  /\ (clock_fixed today w1 -> clock_fixed today w2 ->
      output (generate_forecast usage_data license_info N w1) =
      output (generate_forecast usage_data license_info N w2))
  /\ (clock_fixed today w1 -> clock_fixed today w2 ->
      output (generate_recommendations license_info usage_data w1) =
      output (generate_recommendations license_info usage_data w2))
  /\ (clock_fixed today w1 ->
      forall r w', generate_recommendations license_info usage_data w1 = Ok (r, w') ->
      clock_fixed today w'
      /\ output (generate_recommendations license_info usage_data w') = Ok r)
  /\ (usage_data <> [] -> (10 <= length usage_data)%nat ->
      forall p w',
        analyze_utilization_patterns usage_data w1 = Ok (Analysis p, w') ->
        anomalies p = detected_rows (sort_values_date usage_data)
        /\ anomaly_detector w' =
             Some (iforest_fit 0.1 42
                     (map (scaler_transform
                             (scaler_fit
                                (map (fun r => (utilization_percentage r,
                                                cost_incurred r, units_used r))
                                     (sort_values_date usage_data))))
                          (map (fun r => (utilization_percentage r,
                                          cost_incurred r, units_used r))
                               (sort_values_date usage_data))))).
Proof.
  split; [apply analyze_state_independent |].
  split; [apply generate_forecast_state_independent |].
  split; [apply generate_recommendations_state_independent |].
  split.
  - intros H1 r w' Hrun.
    assert (Hfix : clock_fixed today w').
    { pose proof Hrun as Hinv. apply generate_recommendations_inv in Hinv.
      destruct Hinv as (a & u1 & fs & u2 & sv & Ea & Ef & _ & -> & _).
      destruct (analyze_run usage_data w1) as (a' & u1' & Ea' & Hc & Ht).
      rewrite Ea in Ea'. injection Ea' as <- <-.
      apply clock_fixed_advance.
      apply (generate_forecast_keeps_clock _ _ _ today _ _ _ Ef).
      apply (clock_fixed_same_clock today w1 u1 Hc Ht H1). }
    split; [exact Hfix |].
    rewrite (generate_recommendations_state_independent license_info usage_data
               today w' w1 Hfix H1).
    rewrite Hrun. reflexivity.
  - intros Hne Hlen p w' Hrun.
    destruct usage_data as [| r t]; [contradiction |].
    unfold analyze_utilization_patterns, bind in Hrun.
    rewrite detect_anomalies_run, sort_values_date_length in Hrun.
    destruct (Nat.ltb_spec (length (r :: t)) 10) as [Hlt | _]; [lia |].
    cbv zeta in Hrun. unfold ret in Hrun.
    injection Hrun as <- <-. split; reflexivity.
Qed.

End Repeatability.

(** C8 (witness). Two calls on the same day. *)
Lemma repeated_calls_witness :
  output (generate_recommendations (sk := no_outliers)
            (sample_license PER_USER 12 (day0 + 100))
            [usage_on (day0 - 1) 10 50] (world_on day0)) =
  output (generate_recommendations (sk := no_outliers)
            (sample_license PER_USER 12 (day0 + 100))
            [usage_on (day0 - 1) 10 50] (advance 91 (world_on day0))).
Proof.
  destruct (repeated_calls_identical_output (sk := no_outliers)
              [usage_on (day0 - 1) 10 50]
              (sample_license PER_USER 12 (day0 + 100)) 90 day0
              (world_on day0) (advance 91 (world_on day0)))
    as (_ & _ & Hrec & _).
  apply Hrec; intros k; reflexivity.
Defined.

(** C8 (counterexample). A license that ends thirty days after 2026-11-03,
    one day of usage, and a clock that passes midnight after its
    ninety-first reading: the first call lists no risk factor, the second
    call, with the same series and license, lists the expiry risk. *)
Lemma recommend_twice_across_midnight_differs :
  exists r1 w1 r2 w2,
    generate_recommendations (sk := no_outliers)
      (sample_license PER_USER 12 (day0 + 30)) [usage_on (day0 - 1) 10 50]
      (analyzer_init (midnight_after 91 day0)) = Ok (r1, w1)
    /\ generate_recommendations (sk := no_outliers)
         (sample_license PER_USER 12 (day0 + 30)) [usage_on (day0 - 1) 10 50]
         w1 = Ok (r2, w2)
    /\ risk_factors r1 = []
    /\ risk_factors r2 = ["License expires soon - urgent action required"%string]
    /\ r1 <> r2.
Proof.
  assert (Hne : [usage_on (day0 - 1) 10 50] <> []) by discriminate.
  assert (Hquiet : forall p fs today,
             us_mean (utilization_stats p) =
               Np.mean (map utilization_percentage
                          (sort_values_date [usage_on (day0 - 1) 10 50])) ->
             ca_cost_trend (cost_analysis p) =
               _calculate_trend
                 (map cost_incurred (sort_values_date [usage_on (day0 - 1) 10 50])) ->
             anomalies p = [] ->
             risks_at (sk := no_outliers) (sample_license PER_USER 12 (day0 + 30))
               (Analysis p) fs today =
               if (day0 + 30 - today <? 30)%Z
               then ["License expires soon - urgent action required"%string]
               else []).
  { intros p fs today Hm Ht Ha. apply risks_at_quiet.
    - rewrite Hm. unfold Np.mean, Np.sum. simpl. lra.
    - rewrite Ht. reflexivity.
    - rewrite Ha. simpl. lia. }
  destruct (generate_recommendations_total (sk := no_outliers)
              (sample_license PER_USER 12 (day0 + 30)) [usage_on (day0 - 1) 10 50]
              (analyzer_init (midnight_after 91 day0)))
    as (r1 & w1 & Hrun1); [discriminate |].
  destruct (generate_recommendations_total (sk := no_outliers)
              (sample_license PER_USER 12 (day0 + 30)) [usage_on (day0 - 1) 10 50]
              w1)
    as (r2 & w2 & Hrun2); [discriminate |].
  destruct (generate_recommendations_risk_factors _ _ _ _ _ Hne Hrun1)
    as (p1 & fs1 & Hr1 & Hm1 & Ht1 & Ha1 & Hc1 & Hk1).
  destruct (generate_recommendations_risk_factors _ _ _ _ _ Hne Hrun2)
    as (p2 & fs2 & Hr2 & Hm2 & Ht2 & Ha2 & _ & _).
  rewrite (Hquiet _ _ _ Hm1 Ht1 Ha1) in Hr1.
  rewrite (Hquiet _ _ _ Hm2 Ht2 Ha2) in Hr2.
  rewrite Hc1, Hk1 in Hr2. simpl in Hr1, Hr2.
  exists r1, w1, r2, w2.
  split; [exact Hrun1 |]. split; [exact Hrun2 |].
  split; [exact Hr1 |]. split; [exact Hr2 |].
  intros E. rewrite E, Hr2 in Hr1. discriminate.
Qed.

(** * Further properties of the engine *)

(** ** The decision and its reasons *)

Lemma evaluate_utilization_decision (avg_utilization : R) :
  In (decision (evaluate_utilization avg_utilization)) decisions
  /\ length (verdict_reasoning (evaluate_utilization avg_utilization)) = 1%nat.
Proof.
  unfold evaluate_utilization, decision, verdict_reasoning, decisions.
  rcases; simpl; tauto.
Qed.

Lemma evaluate_cost_trend_decision (cost_trend : string) (v : Verdict) :
  In (decision v) decisions ->
  In (decision (evaluate_cost_trend cost_trend v)) decisions
  /\ (length (verdict_reasoning v)
      <= length (verdict_reasoning (evaluate_cost_trend cost_trend v))
      <= S (length (verdict_reasoning v)))%nat.
Proof.
  destruct v as [[d c] rs].
  unfold evaluate_cost_trend, decision, verdict_reasoning, decisions. simpl.
  intros Hd.
  destruct (cost_trend =? "increasing")%string.
  - destruct (d =? "renew")%string; simpl; rewrite length_app; simpl;
      (split; [tauto | lia]).
  - destruct (cost_trend =? "decreasing")%string; simpl;
      try rewrite length_app; simpl; (split; [tauto | lia]).
Qed.

Lemma evaluate_anomalies_decision (found : list Anomaly) (v : Verdict) :
  decision (evaluate_anomalies found v) = decision v
  /\ (length (verdict_reasoning v)
      <= length (verdict_reasoning (evaluate_anomalies found v))
      <= S (length (verdict_reasoning v)))%nat.
Proof.
  destruct v as [[d c] rs].
  unfold evaluate_anomalies, decision, verdict_reasoning. simpl.
  destruct (3 <? length found)%nat; simpl; try rewrite length_app; simpl;
    (split; [reflexivity | lia]).
Qed.

Lemma evaluate_forecasts_decision (forecasts : list ForecastData) (v : Verdict) :
  In (decision v) decisions ->
  In (decision (evaluate_forecasts forecasts v)) decisions
  /\ (decision (evaluate_forecasts forecasts v) = "cancel"%string ->
      decision v = "cancel"%string)
  /\ (decision (evaluate_forecasts forecasts v) = "negotiate"%string ->
      decision v = "negotiate"%string)
  /\ (length (verdict_reasoning v)
      <= length (verdict_reasoning (evaluate_forecasts forecasts v))
      <= S (length (verdict_reasoning v)))%nat.
Proof.
  destruct v as [[d c] rs].
  unfold evaluate_forecasts, decision, verdict_reasoning, decisions. simpl.
  intros Hd.
  destruct forecasts as [| f fs]; [simpl; repeat split; (tauto || lia) |].
  cbv zeta.
  destruct (Rgtb _ _).
  - destruct (d =? "cancel")%string eqn:E; simpl; rewrite length_app; simpl.
    + apply String.eqb_eq in E. subst d.
      repeat split; try tauto; try lia; discriminate.
    + repeat split; try tauto; lia.
  - destruct (Rltb _ _).
    + destruct (d =? "renew")%string eqn:E; simpl; rewrite length_app; simpl.
      * apply String.eqb_eq in E. subst d.
        repeat split; try tauto; try lia; discriminate.
      * repeat split; try tauto; lia.
    + simpl. repeat split; try tauto; lia.
Qed.

Lemma evaluate_utilization_origin (avg_utilization : R) :
  (decision (evaluate_utilization avg_utilization) = "cancel"%string
     <-> avg_utilization < 20)
  /\ (decision (evaluate_utilization avg_utilization) = "downgrade"%string
     <-> 20 <= avg_utilization < 30)
  /\ (decision (evaluate_utilization avg_utilization) = "negotiate"%string
     <-> 90 < avg_utilization)
  /\ (decision (evaluate_utilization avg_utilization) = "renew"%string
     <-> 30 <= avg_utilization <= 90).
Proof.
  unfold evaluate_utilization, decision.
  rcases; simpl; repeat split; intros; try discriminate; try reflexivity; lra.
Qed.

Lemma evaluate_cost_trend_origin (cost_trend : string) (v : Verdict) :
  (decision (evaluate_cost_trend cost_trend v) = "cancel"%string ->
   decision v = "cancel"%string)
  /\ (decision (evaluate_cost_trend cost_trend v) = "negotiate"%string ->
      decision v = "negotiate"%string
      \/ (decision v = "renew"%string /\ cost_trend = "increasing"%string)).
Proof.
  destruct v as [[d c] rs]. unfold evaluate_cost_trend, decision. simpl.
  destruct (cost_trend =? "increasing")%string eqn:Ei.
  - apply String.eqb_eq in Ei.
    destruct (d =? "renew")%string eqn:Er; simpl.
    + apply String.eqb_eq in Er. split; [discriminate | intros _; right; tauto].
    + split; [tauto | intros ->; left; reflexivity].
  - destruct (cost_trend =? "decreasing")%string; simpl;
      (split; [tauto | intros ->; left; reflexivity]).
Qed.

Lemma evaluate_license_decision (license_info : SoftwareLicense)
    (avg_utilization : R) (cost_trend : string)
    (forecasts : list ForecastData) (found : list Anomaly) :
  let v := _evaluate_license license_info avg_utilization cost_trend
             forecasts found in
  In (decision v) decisions
  /\ (1 <= length (verdict_reasoning v) <= 4)%nat
  /\ (decision v = "cancel"%string -> avg_utilization < 20)
  /\ (decision v = "negotiate"%string ->
      90 < avg_utilization
      \/ (30 <= avg_utilization <= 90 /\ cost_trend = "increasing"%string)).
Proof.
  unfold _evaluate_license.
  set (v0 := evaluate_utilization avg_utilization).
  set (v1 := evaluate_cost_trend cost_trend v0).
  set (v2 := evaluate_anomalies found v1).
  destruct (evaluate_utilization_decision avg_utilization) as (D0 & L0).
  fold v0 in D0, L0.
  destruct (evaluate_cost_trend_decision cost_trend v0 D0) as (D1 & L1).
  fold v1 in D1, L1.
  destruct (evaluate_anomalies_decision found v1) as (D2 & L2).
  fold v2 in D2, L2.
  assert (D2' : In (decision v2) decisions) by (rewrite D2; exact D1).
  destruct (evaluate_forecasts_decision forecasts v2 D2') as (D3 & C3 & N3 & L3).
  destruct (evaluate_cost_trend_origin cost_trend v0) as (C1 & N1).
  fold v1 in C1, N1.
  destruct (evaluate_utilization_origin avg_utilization) as (Oc & _ & On & Or).
  fold v0 in Oc, On, Or.
  cbv zeta. repeat split; try assumption; try lia.
  - intros H. apply Oc, C1. rewrite <- D2. apply C3, H.
  - intros H. apply N3 in H. rewrite D2 in H. apply N1 in H.
    destruct H as [H | [H Hi]]; [left; apply On, H | right].
    split; [apply Or, H | exact Hi].
Qed.

Section ReturnedRecommendation.

Context {sk : Sklearn}.

(** A recommendation returned for a non-empty series, field by field. *)
Lemma generate_recommendations_fields (license_info : SoftwareLicense)
    (usage_data : list UsageMetric) (w w' : World) (r : Recommendation) :
  usage_data <> [] ->
  generate_recommendations license_info usage_data w = Ok (r, w') ->
  exists p forecasts,
    let avg := Np.mean (map utilization_percentage usage_data) in
    let cost_trend :=
      _calculate_trend (map cost_incurred (sort_values_date usage_data)) in
    let v := _evaluate_license license_info avg cost_trend forecasts
               (anomalies p) in
    us_mean (utilization_stats p) = avg
    /\ ca_cost_trend (cost_analysis p) = cost_trend
    /\ length forecasts = 90%nat
    /\ recommendation r = decision v
    /\ confidence r = verdict_confidence v
    /\ reasoning r = verdict_reasoning v
    /\ _calculate_savings license_info (decision v) forecasts
         = Ok (estimated_savings r)
    /\ risk_factors r =
         risks_at license_info (Analysis p) forecasts (clock w (ticks w + 90))
    /\ alternative_options r = _suggest_alternatives license_info avg forecasts
    /\ priority r =
         _determine_priority (confidence r) (estimated_savings r) (risk_factors r).
Proof.
  intros Hne Hrun.
  apply generate_recommendations_inv in Hrun.
  destruct Hrun as (a & w1 & fs & w2 & sv & Ea & Ef & Hs & _ & ->).
  destruct (analyze_nonempty_run usage_data w Hne)
    as (p & w1' & Ea' & Hm & _ & Ht & _ & Hc1 & Ht1).
  rewrite Ea in Ea'. injection Ea' as -> <-.
  destruct (generate_forecast_inv _ _ _ _ _ _ Hne Ef) as (uf & cf & _ & _ & Hfs & ->).
  assert (Havg : us_mean (utilization_stats p)
                 = Np.mean (map utilization_percentage usage_data)).
  { rewrite Hm.
    apply mean_perm, Permutation_map, Permutation_sym, sort_values_date_perm. }
  exists p, fs. cbv zeta. simpl in Hs |- *.
  rewrite Havg, Ht in Hs |- *. rewrite Hc1, Ht1.
  repeat split; try reflexivity; try assumption.
  rewrite Hfs, length_map, length_seq. reflexivity.
Qed.

(** X1. The decision of a returned recommendation is one of "renew",
    "cancel", "negotiate" and "downgrade", and it comes with at least one
    and at most four reasons. *)
Theorem recommendation_decision_is_known (license_info : SoftwareLicense)
    (usage_data : list UsageMetric) (w w' : World) (r : Recommendation) :
  generate_recommendations license_info usage_data w = Ok (r, w') ->
  In (recommendation r) decisions
  /\ (1 <= length (reasoning r) <= 4)%nat.
Proof.
  intros Hrun.
  apply generate_recommendations_inv in Hrun.
  destruct Hrun as (a & w1 & fs & w2 & sv & _ & _ & _ & _ & ->).
  simpl.
  destruct (evaluate_license_decision license_info (get_mean a)
              (get_cost_trend a) fs (get_anomalies a)) as (Hd & Hl & _).
  split; assumption.
Qed.

(** X2. For a non-empty series the engine says "cancel" only when the mean
    utilization is below 20, and "negotiate" only when it is above 90 or,
    between 30 and 90, when the cost trend is increasing. *)
Theorem cancel_and_negotiate_have_a_cause (license_info : SoftwareLicense)
    (usage_data : list UsageMetric) (w w' : World) (r : Recommendation) :
  usage_data <> [] ->
  generate_recommendations license_info usage_data w = Ok (r, w') ->
  let avg := Np.mean (map utilization_percentage usage_data) in
  (recommendation r = "cancel"%string -> avg < 20)
  /\ (recommendation r = "negotiate"%string ->
      90 < avg
      \/ (30 <= avg <= 90
          /\ _calculate_trend (map cost_incurred (sort_values_date usage_data))
             = "increasing"%string)).
Proof.
  intros Hne Hrun avg.
  destruct (generate_recommendations_fields _ _ _ _ _ Hne Hrun)
    as (p & fs & _ & _ & _ & Hd & _).
  cbv zeta in Hd. rewrite Hd.
  destruct (evaluate_license_decision license_info avg
              (_calculate_trend (map cost_incurred (sort_values_date usage_data)))
              fs (anomalies p)) as (_ & _ & Hc & Hn).
  split; assumption.
Qed.

(** X3. A recommendation returned for a non-empty series always carries a
    savings estimate: the whole annualized cost for "cancel", 30 percent of
    it for "downgrade", 15 percent for "negotiate" and 0 for "renew". *)
Theorem savings_follow_the_decision (license_info : SoftwareLicense)
    (usage_data : list UsageMetric) (w w' : World) (r : Recommendation) :
  usage_data <> [] ->
  generate_recommendations license_info usage_data w = Ok (r, w') ->
  license_period_months license_info <> 0%Z
  /\ estimated_savings r =
       Some (annual_cost license_info * savings_share (recommendation r)).
Proof.
  intros Hne Hrun.
  destruct (generate_recommendations_fields _ _ _ _ _ Hne Hrun)
    as (p & fs & _ & _ & Hlen & Hd & _ & _ & Hs & _).
  cbv zeta in Hd, Hs. rewrite <- Hd in Hs.
  destruct fs as [| f fs]; [discriminate |].
  unfold _calculate_savings in Hs.
  destruct (Z.eqb_spec (license_period_months license_info) 0) as [| Hm];
    [discriminate |].
  split; [exact Hm |].
  unfold savings_share, annual_cost.
  destruct (recommendation r =? "cancel")%string.
  { injection Hs as <-. f_equal. lra. }
  destruct (recommendation r =? "downgrade")%string.
  { injection Hs as <-. reflexivity. }
  destruct (recommendation r =? "negotiate")%string.
  { injection Hs as <-. reflexivity. }
  injection Hs as <-. f_equal. lra.
Qed.

(** For a non-empty series the period alone decides whether a
    recommendation is returned. *)
Lemma generate_recommendations_outcome (license_info : SoftwareLicense)
    (usage_data : list UsageMetric) (w : World) :
  usage_data <> [] ->
  (license_period_months license_info <> 0%Z
   /\ exists r w', generate_recommendations license_info usage_data w = Ok (r, w'))
  \/ (license_period_months license_info = 0%Z
      /\ generate_recommendations license_info usage_data w
         = Raise ZeroDivisionError).
Proof.
  intros Hne.
  destruct (Z.eq_dec (license_period_months license_info) 0) as [Hz | Hnz];
    [right; split; [exact Hz |] | left; split; [exact Hnz |];
     now apply generate_recommendations_total].
  destruct (analyze_nonempty_run usage_data w Hne) as (p & w1 & Ea & _).
  destruct (forecast_usage_ok (sort_values_date usage_data) 90 ltac:(lia))
    as (uf & Hu & Hlen).
  destruct (billing_type license_info) eqn:Eb.
  5:{ apply (generate_recommendations_raises_forecast _ _ _ _ _ _ Ea).
      apply (generate_forecast_raises _ _ _ _ uf); [exact Hne | exact Hu |].
      rewrite (forecast_costs_flat _ _ _ uf) by assumption.
      now rewrite Hz. }
  all: assert (Hnf : billing_type license_info <> FLAT_RATE)
         by (rewrite Eb; discriminate);
       pose proof (forecast_costs_per_unit _ _ _ _ Hnf Hu) as Hc;
       pose proof (generate_forecast_run usage_data license_info 90 w1 _ _
                     Hne Hu Hc) as Ef;
       pose proof (generate_recommendations_run _ _ _ _ _ _ _ Ea Ef) as Hout;
       cbv zeta in Hout;
       unfold _calculate_savings in Hout; rewrite Hz in Hout;
       simpl in Hout;
       destruct (generate_recommendations license_info usage_data w)
         as [[r w'] | e]; simpl in Hout; [discriminate | congruence].
Qed.

(** A license with a period of zero months gets no recommendation for
    any non-empty series, whatever its billing model: the engine raises
    [ZeroDivisionError]. *)
Theorem zero_period_raises (license_info : SoftwareLicense)
    (usage_data : list UsageMetric) (w : World) :
  usage_data <> [] ->
  license_period_months license_info = 0%Z ->
  generate_recommendations license_info usage_data w = Raise ZeroDivisionError.
Proof.
  intros Hne Hz.
  destruct (generate_recommendations_outcome license_info usage_data w Hne)
    as [(Hnz & _) | (_ & Hraise)].
  - contradiction.
  - exact Hraise.
Qed.

(** X4. The alternatives of a returned recommendation end with the
    multi-year contract; before it comes the pay-per-use model when the
    mean utilization is below 50, the enterprise license (a negative
    saving of 20 percent) when it is above 80, and nothing in between: the
    two are never offered together. *)
Theorem alternatives_by_utilization (license_info : SoftwareLicense)
    (usage_data : list UsageMetric) (w w' : World) (r : Recommendation) :
  usage_data <> [] ->
  generate_recommendations license_info usage_data w = Ok (r, w') ->
  let avg := Np.mean (map utilization_percentage usage_data) in
  (avg < 50 ->
   alternative_options r = [pay_per_use license_info; multi_year license_info])
  /\ (80 < avg ->
      alternative_options r = [enterprise license_info; multi_year license_info])
  /\ (50 <= avg <= 80 -> alternative_options r = [multi_year license_info])
  /\ ~ (In (pay_per_use license_info) (alternative_options r)
        /\ In (enterprise license_info) (alternative_options r)).
Proof.
  intros Hne Hrun avg.
  destruct (generate_recommendations_fields _ _ _ _ _ Hne Hrun)
    as (p & fs & _ & _ & _ & _ & _ & _ & _ & _ & Ha & _).
  cbv zeta in Ha. fold avg in Ha. rewrite Ha.
  unfold _suggest_alternatives, pay_per_use, enterprise, multi_year.
  rcases; simpl; repeat split; try (intros; reflexivity); try (intros; lra).
  all: intros [H1 H2];
    repeat (destruct H1 as [H1 | H1]; try discriminate; try contradiction);
    repeat (destruct H2 as [H2 | H2]; try discriminate; try contradiction).
Qed.

Lemma risks_at_structure (license_info : SoftwareLicense)
    (p : UtilizationProfile) (forecasts : list ForecastData) (today : date) :
  risks_at license_info (Analysis p) forecasts today =
    (if Rgtb (us_mean (utilization_stats p)) 85
     then ["High utilization may lead to service degradation"%string] else [])
    ++ (if (ca_cost_trend (cost_analysis p) =? "increasing")%string
        then ["Increasing costs may impact budget"%string] else [])
    ++ (if (2 <? length (anomalies p))%nat
        then ["Usage anomalies may indicate operational issues"%string] else [])
    ++ (if (end_date license_info - today <? 30)%Z
        then ["License expires soon - urgent action required"%string] else []).
Proof. reflexivity. Qed.

(** X5. A returned recommendation lists at most four risk factors, none
    twice.  When the mean utilization is above 85, the cost trend is
    increasing and the license ends less than thirty days after the day
    the clock shows, three of them are listed and the priority is
    "high". *)
Theorem risks_accumulate_to_high_priority (license_info : SoftwareLicense)
    (usage_data : list UsageMetric) (today : date) (w w' : World)
    (r : Recommendation) :
  usage_data <> [] ->
  clock w (ticks w + 90) = today ->
  generate_recommendations license_info usage_data w = Ok (r, w') ->
  (length (risk_factors r) <= 4)%nat
  /\ NoDup (risk_factors r)
  /\ (In "License expires soon - urgent action required"%string (risk_factors r)
      <-> (end_date license_info - today < 30)%Z)
  /\ (85 < Np.mean (map utilization_percentage usage_data) ->
      _calculate_trend (map cost_incurred (sort_values_date usage_data))
        = "increasing"%string ->
      (end_date license_info - today < 30)%Z ->
      (3 <= length (risk_factors r))%nat /\ priority r = "high"%string).
Proof.
  intros Hne Hclock Hrun.
  destruct (generate_recommendations_fields _ _ _ _ _ Hne Hrun)
    as (p & fs & Hm & Ht & _ & _ & _ & _ & _ & Hr & _ & Hp).
  cbv zeta in Hm, Ht.
  rewrite Hclock in Hr. rewrite risks_at_structure, Hm, Ht in Hr.
  assert (Hshape :
    (length (risk_factors r) <= 4)%nat
    /\ NoDup (risk_factors r)
    /\ (In "License expires soon - urgent action required"%string (risk_factors r)
        <-> (end_date license_info - today < 30)%Z)
    /\ (85 < Np.mean (map utilization_percentage usage_data) ->
        _calculate_trend (map cost_incurred (sort_values_date usage_data))
          = "increasing"%string ->
        (end_date license_info - today < 30)%Z ->
        (3 <= length (risk_factors r))%nat)).
  { rewrite Hr. clear Hr Hp.
    destruct (Z.ltb_spec (end_date license_info - today) 30);
      destruct (2 <? length (anomalies p))%nat;
      destruct (_calculate_trend _ =? "increasing")%string eqn:Ei;
      unfold Rgtb;
      destruct (Rltb 85 _) eqn:Eu;
      try apply Rltb_true in Eu; try apply Rltb_false in Eu;
      simpl;
      (split; [lia |]);
      (split; [repeat constructor; simpl; intuition discriminate |]);
      (split; [split; intros Hx; try lia; try tauto;
               repeat (destruct Hx as [Hx | Hx]; try discriminate; try contradiction)
              |]);
      intros Hu Hinc Hexp; try lia; try lra;
      rewrite Hinc in Ei; discriminate. }
  destruct Hshape as (H4 & Hnd & Hexp & H3).
  split; [exact H4 |]. split; [exact Hnd |]. split; [exact Hexp |].
  intros Hu Hi He. pose proof (H3 Hu Hi He) as Hlen.
  split; [exact Hlen |].
  rewrite Hp. unfold _determine_priority.
  destruct (Nat.ltb_spec 2 (length (risk_factors r))); [reflexivity | lia].
Qed.

End ReturnedRecommendation.

(** ** The forecast, by length of the history *)

Lemma forecast_usage_short (df : DataFrame) (days : Z) (usage_forecast : list R) :
  (length df < 7)%nat ->
  _forecast_usage df days = Ok usage_forecast ->
  usage_forecast = repeat (Np.mean (map units_used df)) (Z.to_nat days).
Proof.
  intros Hn Hu. unfold _forecast_usage in Hu.
  destruct (Nat.ltb_spec (length df) 7); [| lia].
  apply np_full_inv in Hu. tauto.
Qed.

Lemma forecast_usage_long (df : DataFrame) (days : Z) :
  (7 <= length df)%nat ->
  let units := map units_used df in
  let window := Nat.min 7 (length df / 2) in
  let recent_avg := Np.mean (Np.tail window units) in
  let slope :=
    if (14 <=? length df)%nat
    then (recent_avg - Np.mean (Np.head window units)) / INR (length df)
    else 0 in
  _forecast_usage df days =
    Ok (map (fun i => (recent_avg + slope * (IZR i + 1))
                      * (1 + 0.1 * sin (2 * PI * IZR i / 30)))
            (range days)).
Proof.
  intros Hn. unfold _forecast_usage.
  destruct (Nat.ltb_spec (length df) 7); [lia | reflexivity].
Qed.


Lemma seasonal_factor_bounds (x : R) : 0.9 <= 1 + 0.1 * sin x <= 1.1.
Proof. pose proof (SIN_bound x). lra. Qed.

Lemma evaluate_forecasts_level (forecasts : list ForecastData) (u : R) (n : nat)
    (v : Verdict) :
  0 <= u ->
  map predicted_usage forecasts = repeat u n ->
  evaluate_forecasts forecasts v = v.
Proof.
  intros Hu Hmap. destruct v as [[d c] rs]. unfold evaluate_forecasts.
  destruct forecasts as [| f fs] eqn:Ef; [reflexivity |].
  rewrite <- Ef in *.
  assert (Hlen : length forecasts = n)
    by (rewrite <- (length_map predicted_usage), Hmap; apply repeat_length).
  assert (Hpos : (0 < n)%nat) by (rewrite <- Hlen, Ef; simpl; lia).
  assert (Hcur :
    (if (7 <=? length forecasts)%nat
     then Np.mean (map predicted_usage (firstn 7 forecasts))
     else Np.mean (map predicted_usage forecasts)) = u).
  { destruct (Nat.leb_spec 7 (length forecasts)).
    - rewrite <- firstn_map, Hmap.
      replace (firstn 7 (repeat u n)) with (repeat u 7).
      + apply mean_repeat. lia.
      + replace n with (7 + (n - 7))%nat by lia.
        rewrite repeat_app, firstn_app, repeat_length, Nat.sub_diag.
        rewrite firstn_all2 by (rewrite repeat_length; lia).
        simpl firstn at 1. now rewrite app_nil_r.
    - rewrite Hmap. now apply mean_repeat. }
  clear Ef. cbv zeta. rewrite Hcur, Hmap, mean_repeat by assumption.
  rcases; try lra. reflexivity.
Qed.

Section ForecastByHistory.

Context {sk : Sklearn}.

(** X6. With fewer than seven days of history every point of a returned
    forecast predicts the mean of the units used, at confidence 0.3 and
    with the trend "stable". *)
Theorem short_history_forecast_is_flat (usage_data : list UsageMetric)
    (license_info : SoftwareLicense) (N : Z) (w w' : World)
    (forecasts : list ForecastData) :
  usage_data <> [] ->
  (length usage_data < 7)%nat ->
  generate_forecast usage_data license_info N w = Ok (forecasts, w') ->
  forall f, In f forecasts ->
    predicted_usage f = Np.mean (map units_used usage_data)
    /\ confidence_score f = 0.3
    /\ trend f = "stable"%string.
Proof.
  intros Hne Hn Hrun f Hin.
  destruct (generate_forecast_inv _ _ _ _ _ _ Hne Hrun)
    as (uf & cf & Hu & _ & -> & _).
  rewrite <- (sort_values_date_length usage_data) in Hn.
  apply In_nth_error in Hin. destruct Hin as (k & Hk).
  apply forecast_point_nth in Hk. destruct Hk as (Hlt & ->).
  rewrite (forecast_usage_short _ _ _ Hn Hu).
  simpl. rewrite Nat2Z.id, nth_repeat_lt by assumption.
  unfold _calculate_confidence, _determine_trend.
  destruct (Nat.ltb_spec (length (sort_values_date usage_data)) 7); [| lia].
  repeat split.
  apply mean_perm, Permutation_map, Permutation_sym, sort_values_date_perm.
Qed.


(** X8. Every point of a returned forecast carries a monthly factor
    between 0.9 and 1.1 and a weekly factor between 0.95 and 1.05, under
    the keys "monthly" and "weekly"; the weekly factor of a Monday and the
    monthly factor of a day in January are exactly 1. *)
Theorem seasonal_factors_stay_near_one (usage_data : list UsageMetric)
    (license_info : SoftwareLicense) (N : Z) (w w' : World)
    (forecasts : list ForecastData) :
  usage_data <> [] ->
  generate_forecast usage_data license_info N w = Ok (forecasts, w') ->
  forall f, In f forecasts ->
    exists monthly weekly,
      seasonal_factors f = [("monthly"%string, monthly); ("weekly"%string, weekly)]
      /\ 0.9 <= monthly <= 1.1
      /\ 0.95 <= weekly <= 1.05
      /\ (Calendar.weekday (forecast_date f) = 0%Z -> weekly = 1)
      /\ (Calendar.month (forecast_date f) = 1%Z -> monthly = 1).
Proof.
  intros Hne Hrun f Hin.
  destruct (generate_forecast_inv _ _ _ _ _ _ Hne Hrun)
    as (uf & cf & _ & _ & -> & _).
  apply In_nth_error in Hin. destruct Hin as (k & Hk).
  apply forecast_point_nth in Hk. destruct Hk as (_ & ->).
  simpl. unfold _get_seasonal_factors.
  eexists; eexists. split; [reflexivity |].
  split; [apply seasonal_factor_bounds |].
  split.
  { match goal with
    | |- _ <= 1 + 0.05 * sin ?x <= _ => pose proof (SIN_bound x)
    end. lra. }
  split.
  - intros ->. replace (2 * PI * 0 / 7) with 0 by lra. rewrite sin_0. lra.
  - intros ->. replace (2 * PI * (1 - 1) / 12) with 0 by lra. rewrite sin_0. lra.
Qed.

(** X9. A negative horizon is not refused uniformly.  With fewer than
    seven days of history the forecast raises [ValueError]; with seven or
    more and a billing model other than flat-rate it returns the empty
    sequence without reading the clock; with flat-rate billing it raises
    [ValueError], or [ZeroDivisionError] when the period is zero. *)
Theorem negative_horizon (usage_data : list UsageMetric)
    (license_info : SoftwareLicense) (N : Z) (w : World) :
  usage_data <> [] ->
  (N < 0)%Z ->
  ((length usage_data < 7)%nat ->
   generate_forecast usage_data license_info N w = Raise ValueError)
  /\ ((7 <= length usage_data)%nat ->
      billing_type license_info <> FLAT_RATE ->
      generate_forecast usage_data license_info N w = Ok ([], w))
  /\ ((7 <= length usage_data)%nat ->
      billing_type license_info = FLAT_RATE ->
      generate_forecast usage_data license_info N w =
        if (license_period_months license_info =? 0)%Z
        then Raise ZeroDivisionError else Raise ValueError).
Proof.
  intros Hne HN.
  pose proof (sort_values_date_length usage_data) as Hlen.
  assert (Hfull : forall v, np_full N v = Raise ValueError).
  { intros v. unfold np_full. destruct (Z.ltb_spec N 0); [reflexivity | lia]. }
  assert (Hrange : range N = []).
  { unfold range. replace (Z.to_nat N) with 0%nat by lia. reflexivity. }
  repeat split.
  - intros Hn. apply generate_forecast_raises_usage; [exact Hne |].
    unfold _forecast_usage. rewrite Hlen.
    destruct (Nat.ltb_spec (length usage_data) 7); [apply Hfull | lia].
  - intros Hn Hb.
    assert (Hu : _forecast_usage (sort_values_date usage_data) N = Ok []).
    { rewrite forecast_usage_long by lia. now rewrite Hrange. }
    rewrite (generate_forecast_run _ _ _ _ [] [] Hne Hu).
    + replace (Z.to_nat N) with 0%nat by lia. simpl. now rewrite advance_zero.
    + now rewrite (forecast_costs_per_unit _ _ _ [] Hb Hu).
  - intros Hn Hb.
    assert (Hu : _forecast_usage (sort_values_date usage_data) N = Ok []).
    { rewrite forecast_usage_long by lia. now rewrite Hrange. }
    pose proof (forecast_costs_flat _ _ _ _ Hb Hu) as Hc.
    rewrite Hfull in Hc.
    destruct (license_period_months license_info =? 0)%Z;
      apply (generate_forecast_raises _ _ _ _ [] _ Hne Hu Hc).
Qed.

(** X10. With fewer than seven days of history and a mean of the units used
    that is not negative, neither the anomaly step nor the forecast step
    changes the verdict: decision, confidence and reasons of a returned
    recommendation are those of the utilization and cost-trend steps. *)
Theorem short_history_verdict (license_info : SoftwareLicense)
    (usage_data : list UsageMetric) (w w' : World) (r : Recommendation) :
  usage_data <> [] ->
  (length usage_data < 7)%nat ->
  0 <= Np.mean (map units_used usage_data) ->
  generate_recommendations license_info usage_data w = Ok (r, w') ->
  (recommendation r, confidence r, reasoning r) =
    evaluate_cost_trend
      (_calculate_trend (map cost_incurred (sort_values_date usage_data)))
      (evaluate_utilization (Np.mean (map utilization_percentage usage_data))).
Proof.
  intros Hne Hn Hpos Hrun.
  pose proof Hrun as Hinv. apply generate_recommendations_inv in Hinv.
  destruct Hinv as (a & w1 & fs & w2 & sv & Ea & Ef & _ & _ & ->).
  destruct (analyze_nonempty_run usage_data w Hne)
    as (p & w1' & Ea' & Hm & _ & Ht & Ha & _).
  rewrite Ea in Ea'. injection Ea' as -> <-.
  destruct (Nat.ltb_spec (length usage_data) 10); [| lia].
  destruct (generate_forecast_inv _ _ _ _ _ _ Hne Ef) as (uf & cf & Hu & _ & Hfs & _).
  pose proof (forecast_usage_length _ _ _ Hu) as Hlen.
  rewrite <- (sort_values_date_length usage_data) in Hn.
  pose proof (forecast_usage_short _ _ _ Hn Hu) as Huf.
  assert (Hmean : Np.mean (map units_used (sort_values_date usage_data))
                  = Np.mean (map units_used usage_data))
    by (apply mean_perm, Permutation_map, Permutation_sym, sort_values_date_perm).
  assert (Hmap : map predicted_usage fs
                 = repeat (Np.mean (map units_used usage_data)) (Z.to_nat 90)).
  { rewrite Hfs. rewrite <- Hlen.
    rewrite (forecast_points_usage (sort_values_date usage_data) license_info
               uf cf (fun k => clock w1 (ticks w1 + k))).
    rewrite Huf, Hmean. reflexivity. }
  simpl. unfold _evaluate_license. rewrite Ha, Ht, Hm.
  rewrite (evaluate_forecasts_level _ _ _ _ Hpos Hmap).
  rewrite (mean_perm _ (map utilization_percentage usage_data))
    by (apply Permutation_map, Permutation_sym, sort_values_date_perm).
  unfold decision, verdict_confidence, verdict_reasoning.
  destruct (evaluate_anomalies [] _) as [[d c] rs] eqn:E.
  unfold evaluate_anomalies in E.
  destruct (evaluate_cost_trend _ _) as [[d' c'] rs'].
  simpl in E. injection E as <- <- <-. reflexivity.
Qed.

End ForecastByHistory.

(** ** The profile *)





Lemma sum_between (l : list R) (lo hi : R) :
  (forall x, In x l -> lo <= x <= hi) ->
  INR (length l) * lo <= Np.sum l <= INR (length l) * hi.
Proof.
  induction l as [| a t IH]; intros H.
  - simpl. lra.
  - change (Np.sum (a :: t)) with (a + Np.sum t).
    change (length (a :: t)) with (S (length t)). rewrite S_INR.
    pose proof (H a (or_introl eq_refl)).
    assert (Ht : forall x, In x t -> lo <= x <= hi)
      by (intros; apply H; right; assumption).
    specialize (IH Ht). lra.
Qed.

Lemma mean_between (l : list R) (lo hi : R) :
  l <> [] ->
  (forall x, In x l -> lo <= x <= hi) ->
  lo <= Np.mean l <= hi.
Proof.
  intros Hne H. pose proof (sum_between l lo hi H) as Hs.
  assert (Hn : 0 < INR (length l)).
  { apply lt_0_INR. destruct l; [contradiction | simpl; lia]. }
  unfold Np.mean. split.
  - apply Rmult_le_reg_r with (r := INR (length l)); [assumption |].
    unfold Rdiv. rewrite Rmult_assoc, Rinv_l by lra. lra.
  - apply Rmult_le_reg_r with (r := INR (length l)); [assumption |].
    unfold Rdiv. rewrite Rmult_assoc, Rinv_l by lra. lra.
Qed.




Section Profile.

Context {sk : Sklearn}.

(** The profile of a non-empty series, field by field. *)
Lemma analyze_nonempty_profile (usage_data : list UsageMetric) (w : World) :
  usage_data <> [] ->
  exists p w',
    analyze_utilization_patterns usage_data w = Ok (Analysis p, w')
    /\ total_records p = length usage_data
    /\ utilization_stats p =
         (let utilization :=
            map utilization_percentage (sort_values_date usage_data) in
          {| us_mean := Np.mean utilization;
             us_median := Np.median utilization;
             us_std := Np.std utilization;
             us_min := Np.min utilization;
             us_max := Np.max utilization |})
    /\ cost_analysis p =
         (let cost := map cost_incurred (sort_values_date usage_data) in
          {| ca_total_cost := Np.sum cost;
             ca_average_daily_cost := Np.mean cost;
             ca_cost_trend := _calculate_trend cost |})
    /\ usage_trends p = _analyze_usage_trends (sort_values_date usage_data)
    /\ seasonality p = _detect_seasonality (sort_values_date usage_data)
    /\ anomalies p =
         (if (length usage_data <? 10)%nat then []
          else detected_rows (sort_values_date usage_data))
    /\ (if (length usage_data <? 10)%nat then w' = w
        else exists sc forest, w' = refit sc forest w).
Proof.
  intros Hne. destruct usage_data as [| r t]; [contradiction |].
  unfold analyze_utilization_patterns, bind.
  rewrite detect_anomalies_run, sort_values_date_length.
  destruct (length (r :: t) <? 10)%nat; cbv zeta.
  - eexists; eexists. split; [reflexivity |].
    cbn [total_records utilization_stats cost_analysis usage_trends
         seasonality anomalies].
    repeat split; reflexivity.
  - eexists; eexists. split; [reflexivity |].
    cbn [total_records utilization_stats cost_analysis usage_trends
         seasonality anomalies].
    repeat split; try reflexivity. eexists; eexists; reflexivity.
Qed.


(** X12. The analyzer returns for every series in every state, fitted or
    not, and never reads the clock.  With fewer than ten rows it reports no
    anomaly and leaves the scaler and the detector as they were; from ten
    rows on it refits both before scoring, so that every call ends with a
    fitted detector. *)
Theorem analyzer_always_returns (usage_data : list UsageMetric) (w : World) :
  exists a w',
    analyze_utilization_patterns usage_data w = Ok (a, w')
    /\ clock w' = clock w /\ ticks w' = ticks w
    /\ ((length usage_data < 10)%nat -> w' = w /\ get_anomalies a = [])
    /\ ((10 <= length usage_data)%nat ->
        scaler w' <> None /\ anomaly_detector w' <> None).
Proof.
  destruct usage_data as [| r t].
  - exists (AnalysisError "No usage data provided"), w.
    repeat split; intros; try reflexivity; simpl in *; lia.
  - destruct (analyze_nonempty_profile (r :: t) w ltac:(discriminate))
      as (p & w' & Hrun & _ & _ & _ & _ & _ & Ha & Hw).
    exists (Analysis p), w'. split; [exact Hrun |].
    destruct (Nat.ltb_spec (length (r :: t)) 10).
    + subst w'. repeat split; intros; try reflexivity; try assumption; lia.
    + destruct Hw as (sc & forest & ->).
      unfold refit. cbn [clock ticks scaler anomaly_detector].
      repeat split; intros; try reflexivity; try lia; discriminate.
Qed.

(** X13. Every anomaly reported was measured: its date, utilization and
    cost are those of a row of the series, and there are no more anomalies
    than rows. *)
Theorem anomalies_come_from_rows (usage_data : list UsageMetric)
    (w w' : World) (p : UtilizationProfile) :
  analyze_utilization_patterns usage_data w = Ok (Analysis p, w') ->
  (length (anomalies p) <= length usage_data)%nat
  /\ forall a, In a (anomalies p) ->
       exists m, In m usage_data
         /\ an_date a = Calendar.strftime_ymd (um_date m)
         /\ an_utilization a = utilization_percentage m
         /\ an_cost a = cost_incurred m.
Proof.
  intros Hrun.
  assert (Hne : usage_data <> []) by (intros ->; discriminate).
  destruct (analyze_nonempty_profile usage_data w Hne)
    as (p0 & w0 & Hrun0 & _ & _ & _ & _ & _ & Ha & _).
  rewrite Hrun in Hrun0. injection Hrun0 as <- <-.
  rewrite Ha.
  destruct (length usage_data <? 10)%nat; [simpl; split; [lia | tauto] |].
  unfold detected_rows. cbv zeta.
  set (df := sort_values_date usage_data).
  set (rows := combine df _).
  assert (Hrows : (length rows <= length usage_data)%nat).
  { subst rows. rewrite length_combine.
    subst df. rewrite sort_values_date_length. lia. }
  assert (Hin : forall r x s, In (r, (x, s)) rows -> In r usage_data).
  { intros r x s H. subst rows. apply in_combine_l in H.
    apply (Permutation_in _ (Permutation_sym (sort_values_date_perm usage_data))).
    exact H. }
  clearbody rows. clear Ha. split.
  - clear Hin. revert Hrows. generalize (length usage_data).
    induction rows as [| [r [x s]] t IH]; intros n Hn; simpl in *; [lia |].
    rewrite length_app.
    specialize (IH (n - 1)%nat ltac:(lia)).
    destruct (s =? -1)%Z; simpl; lia.
  - intros a Ha. apply in_concat in Ha. destruct Ha as (l & Hl & Hal).
    apply in_map_iff in Hl. destruct Hl as ([r [x s]] & <- & Hrow).
    destruct (s =? -1)%Z; [| contradiction].
    destruct Hal as [<- | []].
    exists r. split; [apply (Hin r x s Hrow) |]. simpl. repeat split.
Qed.

End Profile.

(** ** Trend, growth and seasonality *)

Lemma sum_map_affine (a d : R) (x : list R) :
  Np.sum (map (fun t => a + d * t) x) = INR (length x) * a + d * Np.sum x.
Proof.
  induction x as [| t x IH]; [simpl; lra |].
  change (Np.sum (map (fun t => a + d * t) (t :: x)))
    with ((a + d * t) + Np.sum (map (fun t => a + d * t) x)).
  change (Np.sum (t :: x)) with (t + Np.sum x).
  change (length (t :: x)) with (S (length x)). rewrite S_INR, IH. lra.
Qed.

Lemma sum_map_scale (d : R) (g : R -> R) (x : list R) :
  Np.sum (map (fun t => d * g t) x) = d * Np.sum (map g x).
Proof.
  induction x as [| t x IH]; [simpl; lra |].
  change (Np.sum (map (fun t => d * g t) (t :: x)))
    with (d * g t + Np.sum (map (fun t => d * g t) x)).
  change (Np.sum (map g (t :: x))) with (g t + Np.sum (map g x)).
  rewrite IH. lra.
Qed.

Lemma sum_squares_bound (c : R) (x : list R) (t0 : R) :
  In t0 x ->
  (t0 - c) * (t0 - c) <= Np.sum (map (fun t => (t - c) * (t - c)) x).
Proof.
  induction x as [| t x IH]; [contradiction |].
  change (Np.sum (map (fun t => (t - c) * (t - c)) (t :: x)))
    with ((t - c) * (t - c) + Np.sum (map (fun t => (t - c) * (t - c)) x)).
  assert (H0 : 0 <= Np.sum (map (fun t => (t - c) * (t - c)) x)).
  { clear. induction x as [| s x IH]; [unfold Np.sum; simpl; lra |].
    change (Np.sum (map (fun t => (t - c) * (t - c)) (s :: x)))
      with ((s - c) * (s - c) + Np.sum (map (fun t => (t - c) * (t - c)) x)).
    pose proof (Rle_0_sqr (s - c)) as Hs. unfold Rsqr in Hs. lra. }
  pose proof (Rle_0_sqr (t - c)) as Ht. unfold Rsqr in Ht.
  intros [<- | Hin]; [lra |]. specialize (IH Hin). lra.
Qed.

Lemma combine_map_r {A B} (g : A -> B) (x : list A) :
  combine x (map g x) = map (fun t => (t, g t)) x.
Proof. induction x as [| t x IH]; simpl; [reflexivity | now rewrite IH]. Qed.

Lemma affine_arange (a d : R) (n : nat) :
  affine a d n = map (fun t => a + d * t) (Np.arange n).
Proof. unfold affine, Np.arange. now rewrite map_map. Qed.

(** The least-squares slope of a series that changes by [d] a day is [d]. *)
Lemma polyfit_slope_affine (a d : R) (n : nat) :
  (2 <= n)%nat ->
  Np.polyfit_slope (Np.arange n) (affine a d n) = d.
Proof.
  intros Hn. rewrite affine_arange. set (x := Np.arange n).
  assert (Hlen : length x = n) by (subst x; unfold Np.arange; now rewrite length_map, length_seq).
  assert (Hpos : 0 < INR n) by (apply lt_0_INR; lia).
  unfold Np.polyfit_slope. rewrite combine_map_r, map_map. cbn [fst snd].
  set (mx := Np.mean x).
  assert (Hmy : Np.mean (map (fun t => a + d * t) x) = a + d * mx).
  { unfold Np.mean at 1. rewrite sum_map_affine, length_map, Hlen.
    subst mx. unfold Np.mean. rewrite Hlen. field. lra. }
  rewrite Hmy.
  rewrite (map_ext (fun t => (t - mx) * (a + d * t - (a + d * mx)))
                   (fun t => d * ((t - mx) * (t - mx))))
    by (intros; lra).
  rewrite (sum_map_scale d (fun t => (t - mx) * (t - mx))).
  set (S := Np.sum (map (fun t => (t - mx) * (t - mx)) x)).
  assert (H0 : In 0 x).
  { subst x. unfold Np.arange. apply in_map_iff. exists 0%nat.
    split; [reflexivity | apply in_seq; lia]. }
  assert (H1 : In 1 x).
  { subst x. unfold Np.arange. apply in_map_iff. exists 1%nat.
    split; [reflexivity | apply in_seq; lia]. }
  pose proof (sum_squares_bound mx x 0 H0) as B0.
  pose proof (sum_squares_bound mx x 1 H1) as B1.
  fold S in B0, B1.
  assert (HS : 0 < S) by nra.
  field. lra.
Qed.

(** X14. A cost series of at least two days that changes by the same
    amount [d] every day is labelled by that amount: "increasing" when
    [d > 0.1], "decreasing" when [d < -0.1], "stable" otherwise; the level
    it starts from plays no part.  Fewer than two days are
    "insufficient_data". *)
Theorem trend_of_steady_change (a d : R) (n : nat) :
  ((n < 2)%nat -> _calculate_trend (affine a d n) = "insufficient_data"%string)
  /\ ((2 <= n)%nat ->
      (0.1 < d -> _calculate_trend (affine a d n) = "increasing"%string)
      /\ (d < -0.1 -> _calculate_trend (affine a d n) = "decreasing"%string)
      /\ (-0.1 <= d <= 0.1 -> _calculate_trend (affine a d n) = "stable"%string)).
Proof.
  assert (Hlen : length (affine a d n) = n)
    by (unfold affine; now rewrite length_map, length_seq).
  unfold _calculate_trend. rewrite Hlen. split.
  - intros Hn. destruct (Nat.ltb_spec n 2); [reflexivity | lia].
  - intros Hn. destruct (Nat.ltb_spec n 2); [lia |].
    cbv zeta. rewrite (polyfit_slope_affine a d n Hn).
    repeat split; intros; rcases; try reflexivity; lra.
Qed.




Section Seasons.

Context {sk : Sklearn}.


End Seasons.

(** * The license store *)

Module DataManagerFacts.

Import DataManager.

Lemma find_app_none {A} (f : A -> bool) (l1 l2 : list A) :
  find f l1 = None -> find f (l1 ++ l2) = find f l2.
Proof.
  induction l1 as [| a t IH]; simpl; [reflexivity |].
  destruct (f a); [discriminate | exact IH].
Qed.

Lemma find_app_some {A} (f : A -> bool) (l1 l2 : list A) (x : A) :
  find f l1 = Some x -> find f (l1 ++ l2) = Some x.
Proof.
  induction l1 as [| a t IH]; simpl; [discriminate |].
  destruct (f a); [tauto | exact IH].
Qed.

(** X17. [add_license] appends without looking for the id: a new id is
    found afterwards, but a license added under an id that is already
    stored stays hidden behind the older one.  Other ids and the usage
    metrics are not affected. *)
Theorem add_license_then_get (license_info : SoftwareLicense) (d : Disk) :
  (get_license d (lic_id license_info) = None ->
   get_license (add_license license_info d) (lic_id license_info)
     = Some license_info)
  /\ (forall older,
        get_license d (lic_id license_info) = Some older ->
        get_license (add_license license_info d) (lic_id license_info)
          = Some older)
  /\ (forall license_id,
        license_id <> lic_id license_info ->
        get_license (add_license license_info d) license_id
          = get_license d license_id)
  /\ length (get_all_licenses (add_license license_info d))
       = S (length (get_all_licenses d))
  /\ get_all_usage_metrics (add_license license_info d) = get_all_usage_metrics d.
Proof.
  unfold get_license, add_license, _save_licenses, get_all_usage_metrics.
  cbn [get_all_licenses licenses_file usage_file].
  repeat split.
  - intros Hnone. rewrite (find_app_none _ _ _ Hnone). simpl.
    now rewrite String.eqb_refl.
  - intros older Hold. now apply find_app_some.
  - intros license_id Hid.
    destruct (find _ (get_all_licenses d)) as [x |] eqn:E.
    + now apply find_app_some.
    + rewrite (find_app_none _ _ _ E). simpl.
      destruct (String.eqb_spec (lic_id license_info) license_id);
        [congruence | reflexivity].
  - now rewrite length_app, Nat.add_comm.
Qed.

Lemma replace_first_spec (license_id : string) (updated : SoftwareLicense)
    (licenses : list SoftwareLicense) :
  match replace_first license_id updated licenses with
  | None =>
      find (fun l => (lic_id l =? license_id)%string) licenses = None
  | Some licenses' =>
      find (fun l => (lic_id l =? license_id)%string) licenses <> None
      /\ length licenses' = length licenses
      /\ (lic_id updated = license_id ->
          forall other,
            find (fun l => (lic_id l =? other)%string) licenses' =
              if (license_id =? other)%string then Some updated
              else find (fun l => (lic_id l =? other)%string) licenses)
  end.
Proof.
  induction licenses as [| l t IH]; simpl; [reflexivity |].
  destruct (String.eqb_spec (lic_id l) license_id) as [El | El].
  - split; [discriminate |]. split; [reflexivity |].
    intros Hu other. simpl. rewrite Hu, El.
    destruct (license_id =? other)%string; reflexivity.
  - destruct (replace_first license_id updated t) as [t' |]; simpl.
    + destruct IH as (Hf & Hl & Ho). split; [exact Hf |].
      split; [now rewrite Hl |].
      intros Hu other. simpl. rewrite (Ho Hu other).
      destruct (String.eqb_spec (lic_id l) other) as [Eo | Eo];
        [| reflexivity].
      destruct (String.eqb_spec license_id other); [congruence | reflexivity].
    + exact IH.
Qed.

(** X18. [update_license] answers [True] exactly when the id is stored.
    Then the number of licenses is unchanged and, the replacement carrying
    the same id, it is what the id now finds, every other id finding what
    it found before; otherwise nothing is written. *)
Theorem update_license_replaces_in_place (license_id : string)
    (updated_license : SoftwareLicense) (d : Disk) :
  (get_license d license_id = None ->
   update_license license_id updated_license d = (false, d))
  /\ (get_license d license_id <> None ->
      exists d',
        update_license license_id updated_license d = (true, d')
        /\ length (get_all_licenses d') = length (get_all_licenses d)
        /\ get_all_usage_metrics d' = get_all_usage_metrics d
        /\ (lic_id updated_license = license_id ->
            get_license d' license_id = Some updated_license
            /\ forall other, other <> license_id ->
                 get_license d' other = get_license d other)).
Proof.
  unfold update_license, get_license.
  pose proof (replace_first_spec license_id updated_license (get_all_licenses d)) as H.
  destruct (replace_first license_id updated_license (get_all_licenses d))
    as [ls |].
  - destruct H as (Hf & Hl & Ho). split; [intros E; contradiction |].
    intros _. eexists. split; [reflexivity |].
    unfold _save_licenses, get_all_usage_metrics.
    cbn [get_all_licenses licenses_file usage_file].
    split; [exact Hl |]. split; [reflexivity |].
    intros Hu. split.
    + rewrite (Ho Hu license_id). now rewrite String.eqb_refl.
    + intros other Hne. rewrite (Ho Hu other).
      destruct (String.eqb_spec license_id other); [congruence | reflexivity].
  - split; [reflexivity | intros Hn; contradiction].
Qed.

Lemma find_filter_out {A} (f g : A -> bool) (l : list A) :
  (forall x, f x = true -> g x = false) ->
  find f (filter g l) = None.
Proof.
  intros H. induction l as [| a t IH]; simpl; [reflexivity |].
  destruct (g a) eqn:Eg; [| exact IH].
  simpl. destruct (f a) eqn:Ef; [| exact IH].
  rewrite (H a Ef) in Eg. discriminate.
Qed.

Lemma find_filter_keep {A} (f g : A -> bool) (l : list A) :
  (forall x, f x = true -> g x = true) ->
  find f (filter g l) = find f l.
Proof.
  intros H. induction l as [| a t IH]; simpl; [reflexivity |].
  destruct (g a) eqn:Eg; simpl.
  - destruct (f a); [reflexivity | exact IH].
  - destruct (f a) eqn:Ef; [| exact IH].
    rewrite (H a Ef) in Eg. discriminate.
Qed.

Lemma filter_filter_out {A} (f g : A -> bool) (l : list A) :
  (forall x, f x = true -> g x = false) ->
  filter f (filter g l) = [].
Proof.
  intros H. induction l as [| a t IH]; simpl; [reflexivity |].
  destruct (g a) eqn:Eg; [| exact IH].
  simpl. destruct (f a) eqn:Ef; [| exact IH].
  rewrite (H a Ef) in Eg. discriminate.
Qed.

Lemma filter_filter_keep {A} (f g : A -> bool) (l : list A) :
  (forall x, f x = true -> g x = true) ->
  filter f (filter g l) = filter f l.
Proof.
  intros H. induction l as [| a t IH]; simpl; [reflexivity |].
  destruct (g a) eqn:Eg; simpl.
  - destruct (f a); [now rewrite IH | exact IH].
  - destruct (f a) eqn:Ef; [| exact IH].
    rewrite (H a Ef) in Eg. discriminate.
Qed.

(** X19. After [delete_license] the id finds no license and no usage
    metric, both files exist, and every other id finds the license and the
    metrics it found before. *)
Theorem delete_license_cascades (license_id : string) (d : Disk) :
  get_license (delete_license license_id d) license_id = None
  /\ get_usage_metrics (delete_license license_id d) license_id = []
  /\ licenses_file (delete_license license_id d) <> None
  /\ usage_file (delete_license license_id d) <> None
  /\ forall other, other <> license_id ->
       get_license (delete_license license_id d) other = get_license d other
       /\ get_usage_metrics (delete_license license_id d) other
          = get_usage_metrics d other.
Proof.
  unfold delete_license, get_license, get_usage_metrics,
    _save_usage_metrics, _save_licenses, get_all_usage_metrics.
  cbn [get_all_licenses licenses_file usage_file].
  fold (get_all_usage_metrics d).
  repeat split; try discriminate.
  - apply find_filter_out. intros x Hx. now rewrite Hx.
  - apply filter_filter_out. intros x Hx. now rewrite Hx.
  - apply find_filter_keep. intros x Hx.
    apply String.eqb_eq in Hx.
    destruct (String.eqb_spec (lic_id x) license_id); [congruence | reflexivity].
  - apply filter_filter_keep. intros x Hx.
    apply String.eqb_eq in Hx.
    destruct (String.eqb_spec (um_license_id x) license_id);
      [congruence | reflexivity].
Qed.

(** *** Dictionaries in insertion order *)

Section Dict.

Context {K V : Type} (eqb : K -> K -> bool).
Hypothesis eqb_spec : forall a b, reflect (a = b) (eqb a b).

Lemma dict_get_none_iff (k : K) (dict : list (K * V)) :
  dict_get eqb k dict = None <-> ~ In k (map fst dict).
Proof.
  induction dict as [| [k' v] t IH]; simpl; [tauto |].
  destruct (eqb_spec k' k) as [-> | Hne].
  - split; [discriminate | intros H; exfalso; apply H; left; reflexivity].
  - rewrite IH. tauto.
Qed.

Lemma dict_get_set (k : K) (v : V) (dict : list (K * V)) :
  dict_get eqb k (dict_set eqb k v dict) = Some v.
Proof.
  induction dict as [| [k' v'] t IH]; simpl.
  - destruct (eqb_spec k k); [reflexivity | contradiction].
  - destruct (eqb_spec k' k) as [-> | Hne]; simpl.
    + destruct (eqb_spec k k); [reflexivity | contradiction].
    + destruct (eqb_spec k' k); [contradiction | exact IH].
Qed.

Lemma dict_set_keys_old (k : K) (v v0 : V) (dict : list (K * V)) :
  dict_get eqb k dict = Some v0 ->
  map fst (dict_set eqb k v dict) = map fst dict.
Proof.
  induction dict as [| [k' v'] t IH]; simpl; [discriminate |].
  destruct (eqb_spec k' k) as [-> | Hne]; simpl; [reflexivity |].
  intros H. now rewrite IH.
Qed.

Lemma dict_set_keys_new (k : K) (v : V) (dict : list (K * V)) :
  dict_get eqb k dict = None ->
  map fst (dict_set eqb k v dict) = map fst dict ++ [k].
Proof.
  induction dict as [| [k' v'] t IH]; simpl; [reflexivity |].
  destruct (eqb_spec k' k) as [-> | Hne]; simpl; [discriminate |].
  intros H. now rewrite IH.
Qed.

Lemma dict_get_some_in (k : K) (v : V) (dict : list (K * V)) :
  dict_get eqb k dict = Some v -> In k (map fst dict).
Proof.
  induction dict as [| [k' v'] t IH]; simpl; [discriminate |].
  destruct (eqb_spec k' k) as [-> | Hne]; [now left | right; now apply IH].
Qed.

Lemma dict_set_set (k : K) (v v0 : V) (dict : list (K * V)) :
  dict_set eqb k v (dict_set eqb k v0 dict) = dict_set eqb k v dict.
Proof.
  induction dict as [| [k' v'] t IH]; simpl.
  - destruct (eqb_spec k k); [reflexivity | contradiction].
  - destruct (eqb_spec k' k) as [-> | Hne]; simpl.
    + destruct (eqb_spec k k); [reflexivity | contradiction].
    + destruct (eqb_spec k' k); [contradiction | now rewrite IH].
Qed.

Lemma dict_set_Forall (P : K * V -> Prop) (k : K) (v : V) (dict : list (K * V)) :
  Forall P dict -> P (k, v) -> Forall P (dict_set eqb k v dict).
Proof.
  intros Hall Hk. induction Hall as [| [k' v'] t Hh Ht IH]; simpl.
  - repeat constructor. exact Hk.
  - destruct (eqb k' k); constructor; assumption.
Qed.

Lemma dict_set_keys (k : K) (v : V) (dict : list (K * V)) :
  map fst (dict_set eqb k v dict) =
    match dict_get eqb k dict with
    | Some _ => map fst dict
    | None => map fst dict ++ [k]
    end.
Proof.
  destruct (dict_get eqb k dict) eqn:E.
  - eapply dict_set_keys_old, E.
  - apply dict_set_keys_new, E.
Qed.

(** A loop that files each item under its key keeps the keys distinct and
    adds exactly the keys of the items. *)
Lemma fold_keys {A : Type} (key : A -> K)
    (step : list (K * V) -> A -> list (K * V)) :
  (forall dict a,
     map fst (step dict a) =
       match dict_get eqb (key a) dict with
       | Some _ => map fst dict
       | None => map fst dict ++ [key a]
       end) ->
  forall (items : list A) (dict : list (K * V)),
    NoDup (map fst dict) ->
    NoDup (map fst (fold_left step items dict))
    /\ forall k, In k (map fst (fold_left step items dict)) <->
         In k (map fst dict) \/ In k (map key items).
Proof.
  intros Hstep. induction items as [| a t IH]; intros dict Hnd.
  - simpl. split; [assumption | tauto].
  - simpl fold_left.
    assert (Hnd' : NoDup (map fst (step dict a))).
    { rewrite Hstep. destruct (dict_get eqb (key a) dict) eqn:E; [assumption |].
      apply dict_get_none_iff in E.
      apply NoDup_app; [assumption | repeat constructor; simpl; tauto |].
      intros x Hx [<- | []]. contradiction. }
    destruct (IH _ Hnd') as (H1 & H2). split; [exact H1 |].
    intros k. rewrite H2, Hstep. simpl.
    destruct (dict_get eqb (key a) dict) eqn:E.
    + apply dict_get_some_in in E.
      split; [tauto |]. intros [H | [<- | H]]; tauto.
    + rewrite in_app_iff. simpl. tauto.
Qed.

End Dict.












Section CostTrend.

Context {sk : Sklearn}.


End CostTrend.

Lemma add_utilization_eq (dict : list (string * list R)) (m : UsageMetric) :
  add_utilization dict m =
    dict_set String.eqb (um_license_id m)
      (match dict_get String.eqb (um_license_id m) dict with
       | Some us => us ++ [utilization_percentage m]
       | None => [utilization_percentage m]
       end) dict.
Proof.
  unfold add_utilization.
  destruct (dict_get String.eqb (um_license_id m) dict) as [us |] eqn:E.
  - now rewrite E.
  - rewrite (dict_get_set String.eqb String.eqb_spec).
    apply (dict_set_set String.eqb String.eqb_spec).
Qed.

Lemma license_utilization_nonempty (metrics : list UsageMetric)
    (dict : list (string * list R)) :
  Forall (fun entry => snd entry <> []) dict ->
  Forall (fun entry => snd entry <> []) (fold_left add_utilization metrics dict).
Proof.
  revert dict. induction metrics as [| m t IH]; intros dict Hall; [exact Hall |].
  simpl. apply IH. rewrite add_utilization_eq.
  apply dict_set_Forall; [exact Hall |]. simpl.
  destruct (dict_get String.eqb (um_license_id m) dict) as [[| u us] |];
    discriminate.
Qed.

Section Averages.

Context {sk : Sklearn}.

Lemma averages_never_raise (entries : list (string * list R)) (w : World) :
  Forall (fun entry => snd entry <> []) entries ->
  exists avgs,
    for_each entries (fun entry => lift (average (snd entry))) w = Ok (avgs, w)
    /\ length avgs = length entries.
Proof.
  induction 1 as [| [k us] t Hus Ht (avgs & IH & Hlen)].
  - exists []. split; reflexivity.
  - simpl in Hus. destruct us as [| u us]; [contradiction |].
    eexists (_ :: avgs). split.
    + cbn [for_each]. unfold bind at 1. unfold lift at 1.
      unfold average at 1. cbn [snd length Nat.eqb].
      unfold bind at 1. rewrite IH. reflexivity.
    + simpl. now rewrite Hlen.
Qed.

End Averages.

Lemma incr_at_length (i : nat) (counts : list Z) :
  length (incr_at i counts) = length counts.
Proof.
  revert i. induction counts as [| c t IH]; intros [| j]; simpl;
    try reflexivity. now rewrite IH.
Qed.

Lemma incr_at_total (i : nat) (counts : list Z) :
  (i < length counts)%nat ->
  count_total (incr_at i counts) = (count_total counts + 1)%Z.
Proof.
  revert i. induction counts as [| c t IH]; intros [| j] Hi; simpl in *;
    try lia.
  unfold count_total in *. simpl. rewrite IH by lia. lia.
Qed.

Lemma incr_at_nonneg (i : nat) (counts : list Z) :
  Forall (fun c => (0 <= c)%Z) counts ->
  Forall (fun c => (0 <= c)%Z) (incr_at i counts).
Proof.
  intros Hall. revert i. induction Hall as [| c t Hc Ht IH]; intros [| j];
    simpl; constructor; try assumption; try lia. apply IH.
Qed.

Lemma bucket_lt (avg_util : R) : (bucket avg_util < 5)%nat.
Proof.
  unfold bucket.
  destruct (Rleb avg_util 20); [lia |].
  destruct (Rleb avg_util 40); [lia |].
  destruct (Rleb avg_util 60); [lia |].
  destruct (Rleb avg_util 80); lia.
Qed.

Lemma counts_tally (avgs : list R) (counts : list Z) :
  length counts = 5%nat ->
  Forall (fun c => (0 <= c)%Z) counts ->
  let result :=
    fold_left (fun counts avg_util => incr_at (bucket avg_util) counts)
              avgs counts in
  length result = 5%nat
  /\ Forall (fun c => (0 <= c)%Z) result
  /\ count_total result = (count_total counts + Z.of_nat (length avgs))%Z.
Proof.
  revert counts. induction avgs as [| a t IH]; intros counts Hlen Hall; cbv zeta.
  - simpl. repeat split; [assumption.. | lia].
  - simpl fold_left.
    destruct (IH (incr_at (bucket a) counts)) as (H1 & H2 & H3).
    + now rewrite incr_at_length.
    + now apply incr_at_nonneg.
    + repeat split; [assumption.. |].
      rewrite H3, incr_at_total by (rewrite Hlen; apply bucket_lt).
      simpl length. lia.
Qed.

Section Distribution.

Context {sk : Sklearn}.

(** X21. [get_utilization_distribution]: with no usage metric stored it
    answers two empty lists without reading the clock.  Otherwise it reads
    the clock once and never divides by zero: it answers the five range
    labels and five counters, none negative, that add up to the number of
    distinct licenses having a metric dated within the last thirty days. *)
Theorem utilization_distribution_counts_licenses (d : Disk) (w : World) :
  (get_all_usage_metrics d = [] ->
   get_utilization_distribution d w = Ok (([], []), w))
  /\ (get_all_usage_metrics d <> [] ->
      let cutoff := (clock w (ticks w) - 30)%Z in
      let recent :=
        filter (fun m => (cutoff <=? um_date m)%Z) (get_all_usage_metrics d) in
      exists counts,
        get_utilization_distribution d w
          = Ok ((distribution_ranges, counts), advance 1 w)
        /\ length counts = 5%nat
        /\ Forall (fun c => (0 <= c)%Z) counts
        /\ count_total counts = Z.of_nat (length (licenses_of recent))).
Proof.
  split.
  - intros E. unfold get_utilization_distribution. now rewrite E.
  - intros Hne cutoff recent.
    unfold get_utilization_distribution.
    destruct (get_all_usage_metrics d) as [| m0 rest] eqn:E; [contradiction |].
    set (entries := fold_left add_utilization recent []).
    assert (Hall : Forall (fun entry : string * list R => snd entry <> []) entries)
      by (apply license_utilization_nonempty; constructor).
    destruct (averages_never_raise entries (advance 1 w) Hall)
      as (avgs & Havg & Hlen).
    destruct (counts_tally avgs [0; 0; 0; 0; 0]%Z eq_refl) as (H1 & H2 & H3).
    { repeat constructor; lia. }
    eexists. split; [| split; [exact H1 | split; [exact H2 |]]].
    + unfold bind at 1. unfold now_date. cbv zeta.
      fold cutoff. fold recent. fold entries.
      replace {| clock := clock w; ticks := S (ticks w); scaler := scaler w;
                 anomaly_detector := anomaly_detector w |}
        with (advance 1 w) by (unfold advance; repeat f_equal; lia).
      unfold bind at 1. rewrite Havg. reflexivity.
    + rewrite H3, Hlen. unfold count_total at 1. simpl fold_right.
      rewrite Z.add_0_l. f_equal. unfold entries. rewrite <- (length_map fst).
      destruct (fold_keys String.eqb String.eqb_spec um_license_id add_utilization)
        with (items := recent) (dict := @nil (string * list R))
        as (Hnd & Hkeys).
      { intros dict a. rewrite add_utilization_eq.
        apply (dict_set_keys String.eqb String.eqb_spec). }
      { constructor. }
      apply Permutation_length, NoDup_Permutation;
        [exact Hnd | apply NoDup_nodup |].
      intros k. rewrite Hkeys. unfold licenses_of. rewrite nodup_In.
      simpl. tauto.
Qed.

End Distribution.

End DataManagerFacts.

(** ** The license routes *)

Module RoutesFacts.

Lemma get_license_found (d : DataManager.Disk) (license_id : string)
    (license_info : SoftwareLicense) :
  DataManager.get_license d license_id = Some license_info ->
  In license_info (DataManager.get_all_licenses d)
  /\ lic_id license_info = license_id.
Proof.
  unfold DataManager.get_license. intros H. apply find_some in H.
  destruct H as (Hin & Heq). split; [exact Hin | now apply String.eqb_eq].
Qed.

Lemma get_license_missing (d : DataManager.Disk) (license_id : string) :
  DataManager.get_license d license_id = None <->
  forall l, In l (DataManager.get_all_licenses d) -> lic_id l <> license_id.
Proof.
  unfold DataManager.get_license. split.
  - intros H l Hl Hid.
    apply (find_none _ _ H) in Hl. apply String.eqb_neq in Hl. contradiction.
  - intros H.
    destruct (find _ _) as [l |] eqn:E; [| reflexivity].
    apply find_some in E. destruct E as (Hin & Heq).
    apply String.eqb_eq in Heq. now apply H in Hin.
Qed.


Section Served.

Context {sk : Sklearn}.

(** The license route answers the first stored license carrying the
    requested id, and 404 exactly when no stored license carries it; the
    usage route answers exactly the stored metrics of the requested
    license. *)
Theorem license_routes_answer_the_requested_id (d : DataManager.Disk)
    (license_id : string) :
  (forall license_info,
     Routes.get_license d license_id = Served license_info ->
     In license_info (DataManager.get_all_licenses d)
     /\ lic_id license_info = license_id)
  /\ (Routes.get_license d license_id = HTTPException 404 "License not found"
      <-> forall l, In l (DataManager.get_all_licenses d) ->
                    lic_id l <> license_id)
  /\ (forall m, In m (Routes.get_license_usage d license_id) <->
                In m (DataManager.get_all_usage_metrics d)
                /\ um_license_id m = license_id).
Proof.
  unfold Routes.get_license, Routes.get_license_usage.
  split; [| split; [split |]].
  - intros license_info.
    destruct (DataManager.get_license d license_id) eqn:E; [| discriminate].
    intros [= <-]. apply (get_license_found _ _ _ E).
  - destruct (DataManager.get_license d license_id) eqn:E; [discriminate |].
    intros _. now apply get_license_missing.
  - intros H. apply get_license_missing in H. now rewrite H.
  - intros m. unfold DataManager.get_usage_metrics.
    rewrite filter_In, String.eqb_eq. tauto.
Qed.


(** X23. For a stored license with at least one stored metric, a horizon
    [days >= 0] and a license that is not flat-rate with a zero period,
    the forecast route serves [days] points, all carrying the requested
    id and dated from tomorrow on, and reads the clock once per point. *)
Theorem forecast_route_serves (d : DataManager.Disk) (license_id : string)
    (days : Z) (w : World) (license_info : SoftwareLicense) :
  DataManager.get_license d license_id = Some license_info ->
  DataManager.get_usage_metrics d license_id <> [] ->
  (0 <= days)%Z ->
  billing_type license_info <> FLAT_RATE
  \/ license_period_months license_info <> 0%Z ->
  exists forecasts,
    Routes.get_license_forecast d license_id days w
      = Ok (Served forecasts, advance (Z.to_nat days) w)
    /\ length forecasts = Z.to_nat days
    /\ (forall k f, nth_error forecasts k = Some f ->
          fd_license_id f = license_id
          /\ forecast_date f = (clock w (ticks w + k) + Z.of_nat k + 1)%Z).
Proof.
  intros Hl Hm Hd Hb.
  destruct (get_license_found _ _ _ Hl) as (_ & Hid).
  unfold Routes.get_license_forecast. rewrite Hl.
  destruct (DataManager.get_usage_metrics d license_id) as [| m t];
    [contradiction |].
  destruct (generate_forecast_total _ license_info days w Hm Hd Hb)
    as (uf & cf & _ & _ & Hrun).
  eexists. split; [| split].
  - unfold bind. rewrite Hrun. reflexivity.
  - now rewrite length_map, length_seq.
  - intros k f Hk. apply forecast_point_nth in Hk. destruct Hk as (_ & ->).
    simpl. split; [exact Hid | lia].
Qed.

(** X24. For a stored license with a non-zero period and at least one
    stored metric, the recommendation route serves a recommendation that
    carries the requested id and one of the four decisions, after reading
    the clock 91 times (90 forecast points and the expiry check). *)
Theorem recommendation_route_serves (d : DataManager.Disk)
    (license_id : string) (w : World) (license_info : SoftwareLicense) :
  DataManager.get_license d license_id = Some license_info ->
  DataManager.get_usage_metrics d license_id <> [] ->
  license_period_months license_info <> 0%Z ->
  exists r w',
    Routes.get_license_recommendation d license_id w = Ok (Served r, w')
    /\ rec_license_id r = license_id
    /\ In (recommendation r) decisions
    /\ clock w' = clock w
    /\ ticks w' = (ticks w + 91)%nat.
Proof.
  intros Hl Hm Hp.
  destruct (get_license_found _ _ _ Hl) as (_ & Hid).
  unfold Routes.get_license_recommendation. rewrite Hl.
  destruct (DataManager.get_usage_metrics d license_id) as [| m t];
    [contradiction |].
  destruct (generate_recommendations_total license_info (m :: t) w Hp)
    as (r & w' & Hrun).
  exists r, w'. split.
  { unfold bind. rewrite Hrun. reflexivity. }
  pose proof Hrun as Hinv. apply generate_recommendations_inv in Hinv.
  destruct Hinv as (a & w1 & fs & w2 & sv & Ha & Hf & _ & -> & ->).
  destruct (analyze_nonempty_run _ w Hm) as (p & w1' & Ha' & _ & _ & _ & _ & Hc & Ht).
  rewrite Ha in Ha'. injection Ha' as -> <-.
  apply generate_forecast_inv in Hf; [| exact Hm].
  destruct Hf as (uf & cf & _ & _ & _ & ->).
  simpl. repeat split; try assumption; try lia.
  apply evaluate_license_decision.
Qed.

Lemma filter_nil_existsb {A} (f : A -> bool) (l : list A) :
  filter f l = [] <-> existsb f l = false.
Proof.
  induction l as [| a t IH]; simpl; [tauto |].
  destruct (f a); simpl; [split; discriminate | exact IH].
Qed.

Lemma get_cost_trend_data_returns (d : DataManager.Disk) (days : Z) (w : World) :
  exists out, DataManager.get_cost_trend_data d days w = Ok (out, advance 1 w).
Proof.
  eexists. unfold DataManager.get_cost_trend_data, bind, now_date, ret, advance.
  cbv zeta. repeat f_equal. lia.
Qed.

Lemma get_utilization_distribution_returns (d : DataManager.Disk) (w : World) :
  exists out w', DataManager.get_utilization_distribution d w = Ok (out, w').
Proof.
  unfold DataManager.get_utilization_distribution.
  destruct (DataManager.get_all_usage_metrics d) as [| m0 rest];
    [eexists; eexists; reflexivity |].
  unfold bind at 1. unfold now_date. cbv zeta. unfold bind at 1.
  match goal with
  | |- context [for_each ?entries ?body ?w1] =>
      destruct (DataManagerFacts.averages_never_raise entries w1)
        as (avgs & Havg & _);
      [apply DataManagerFacts.license_utilization_nonempty; constructor |];
      rewrite Havg
  end.
  eexists; eexists; reflexivity.
Qed.

Lemma recommend_each_returns (usage_data : list UsageMetric)
    (licenses : list SoftwareLicense) (w : World) :
  (forall l, In l licenses -> in_use usage_data l = true ->
             license_period_months l <> 0%Z) ->
  exists entries w',
    Routes.recommend_each licenses usage_data w = Ok (entries, w')
    /\ map Routes.de_license_name entries
       = map lic_name (filter (in_use usage_data) licenses)
    /\ Forall (fun e => In (Routes.de_recommendation e) decisions) entries.
Proof.
  revert w. induction licenses as [| l rest IH]; intros w Hgood.
  - exists [], w. repeat split. constructor.
  - cbn [Routes.recommend_each filter].
    assert (Hrest : forall l', In l' rest -> in_use usage_data l' = true ->
                               license_period_months l' <> 0%Z)
      by (intros l' Hl'; apply Hgood; right; exact Hl').
    destruct (filter (fun metric => (um_license_id metric =? lic_id l)%string)
                usage_data) as [| m t] eqn:Ef.
    + apply filter_nil_existsb in Ef. fold (in_use usage_data l) in Ef.
      rewrite Ef. apply IH, Hrest.
    + assert (Eu : in_use usage_data l = true).
      { destruct (in_use usage_data l) eqn:E; [reflexivity |].
        unfold in_use in E. apply filter_nil_existsb in E. congruence. }
      rewrite Eu.
      assert (Hne : m :: t <> []) by discriminate.
      destruct (generate_recommendations_outcome l (m :: t) w Hne)
        as [(_ & r & w1 & Hrun) | (Hz & _)].
      2:{ exfalso. apply (Hgood l); [left; reflexivity | exact Eu | exact Hz]. }
      destruct (IH w1 Hrest) as (entries & w' & Hrec & Hnames & Hdec).
      eexists; exists w'. split; [| split].
      * unfold bind at 1. rewrite Hrun. unfold bind at 1. rewrite Hrec.
        reflexivity.
      * simpl. now rewrite Hnames.
      * constructor; [| exact Hdec]. simpl.
        apply generate_recommendations_inv in Hrun.
        destruct Hrun as (a & w2 & fs & w3 & sv & _ & _ & _ & _ & ->).
        simpl. apply evaluate_license_decision.
Qed.

Lemma recommend_each_raises (usage_data : list UsageMetric)
    (licenses : list SoftwareLicense) (w : World) :
  (exists l, In l licenses /\ in_use usage_data l = true
             /\ license_period_months l = 0%Z) ->
  Routes.recommend_each licenses usage_data w = Raise ZeroDivisionError.
Proof.
  revert w. induction licenses as [| l rest IH]; intros w (bad & Hin & Hu & Hz).
  - destruct Hin.
  - cbn [Routes.recommend_each].
    destruct (filter (fun metric => (um_license_id metric =? lic_id l)%string)
                usage_data) as [| m t] eqn:Ef.
    + apply filter_nil_existsb in Ef. fold (in_use usage_data l) in Ef.
      apply IH. exists bad. destruct Hin as [-> | Hin]; [congruence |].
      repeat split; assumption.
    + assert (Hne : m :: t <> []) by discriminate.
      destruct (generate_recommendations_outcome l (m :: t) w Hne)
        as [(Hnz & r & w1 & Hrun) | (_ & Hraise)].
      * unfold bind at 1. rewrite Hrun.
        destruct Hin as [-> | Hin]; [contradiction |].
        unfold bind at 1. rewrite (IH w1); [reflexivity |].
        exists bad. repeat split; assumption.
      * unfold bind at 1. now rewrite Hraise.
Qed.

(** X25. When every stored license that has a stored metric has a non-zero
    period, the dashboard route serves a summary: it counts all stored
    licenses and lists one recommendation for each license in use, in the
    order the licenses are stored, each with one of the four decisions;
    licenses without a metric are left out. *)
Theorem dashboard_lists_every_license_in_use (d : DataManager.Disk) (w : World) :
  let licenses := DataManager.get_all_licenses d in
  let usage_data := DataManager.get_all_usage_metrics d in
  (forall l, In l licenses -> in_use usage_data l = true ->
             license_period_months l <> 0%Z) ->
  exists summary,
    Routes.get_dashboard_summary d w = Routes.DashboardServed summary
    /\ Routes.ds_total_licenses summary = length licenses
    /\ map Routes.de_license_name (Routes.ds_recommendations summary)
       = map lic_name (filter (in_use usage_data) licenses)
    /\ Forall (fun e => In (Routes.de_recommendation e) decisions)
         (Routes.ds_recommendations summary)
    /\ (length (Routes.ds_recommendations summary)
        <= Routes.ds_total_licenses summary)%nat.
Proof.
  intros licenses usage_data Hgood.
  unfold Routes.get_dashboard_summary, Routes.dashboard_summary.
  fold licenses. fold usage_data.
  destruct (get_cost_trend_data_returns d 30 w) as (costs & Hcost).
  destruct (get_utilization_distribution_returns d (advance 1 w))
    as (dist & w2 & Hdist).
  unfold bind at 1. rewrite Hcost.
  unfold bind at 1. rewrite Hdist.
  destruct (recommend_each_returns usage_data licenses w2 Hgood)
    as (entries & w3 & Hrec & Hnames & Hdec).
  unfold bind at 1. rewrite Hrec.
  eexists. split; [reflexivity |]. cbn [Routes.ds_total_licenses
    Routes.ds_recommendations].
  repeat split; try assumption.
  rewrite <- (length_map Routes.de_license_name), Hnames, length_map.
  apply filter_length_le.
Qed.

(** X26. One stored license with a period of zero months and a stored
    metric takes the whole dashboard down: the route answers status 500
    from a [ZeroDivisionError], whatever the other licenses are. *)
Theorem dashboard_fails_on_a_zero_period (d : DataManager.Disk) (w : World)
    (l : SoftwareLicense) :
  In l (DataManager.get_all_licenses d) ->
  in_use (DataManager.get_all_usage_metrics d) l = true ->
  license_period_months l = 0%Z ->
  Routes.get_dashboard_summary d w
    = Routes.DashboardFailed 500 ZeroDivisionError.
Proof.
  intros Hin Hu Hz.
  unfold Routes.get_dashboard_summary, Routes.dashboard_summary.
  destruct (get_cost_trend_data_returns d 30 w) as (costs & Hcost).
  destruct (get_utilization_distribution_returns d (advance 1 w))
    as (dist & w2 & Hdist).
  unfold bind at 1. rewrite Hcost.
  unfold bind at 1. rewrite Hdist.
  unfold bind at 1. rewrite recommend_each_raises; [reflexivity |].
  exists l. repeat split; assumption.
Qed.

End Served.

End RoutesFacts.

(** ** The forecast report and the budget impact *)

Module ReportFacts.

Import ReportCustomizer.

Lemma py_sum_sum (l : list R) : DataManager.py_sum l = Np.sum l.
Proof.
  unfold DataManager.py_sum, Np.sum.
  apply fold_symmetric; intros; lra.
Qed.

Lemma determine_trend_known (df : DataFrame) (forecast : list R) :
  In (_determine_trend df forecast) forecast_trends.
Proof.
  unfold _determine_trend, forecast_trends.
  destruct (length df <? 7)%nat; [simpl; tauto |].
  cbv zeta.
  destruct (Rgtb _ 0.1); [simpl; tauto |].
  destruct (Rltb _ (-0.1)); simpl; tauto.
Qed.

Lemma summarize_forecast_points (df : DataFrame) (license_info : SoftwareLicense)
    (usage_forecast cost_forecast : list R) (clk : nat -> date) (n : nat) :
  let forecasts :=
    map (fun k => forecast_point df license_info usage_forecast cost_forecast
                    (clk k) (Z.of_nat k))
        (seq 0 (S n)) in
  exists s,
    _summarize_forecasts forecasts = Some s
    /\ 0.1 <= average_confidence s <= 0.95
    /\ summary_trend s = _determine_trend df usage_forecast.
Proof.
  intros forecasts.
  exists {| average_predicted_usage :=
              DataManager.py_sum (map predicted_usage forecasts)
              / INR (length forecasts);
            average_predicted_cost :=
              DataManager.py_sum (map predicted_cost forecasts)
              / INR (length forecasts);
            average_confidence :=
              DataManager.py_sum (map confidence_score forecasts)
              / INR (length forecasts);
            summary_trend := _determine_trend df usage_forecast |}.
  split; [reflexivity |]. split; [| reflexivity].
  cbn [average_confidence]. rewrite py_sum_sum.
  rewrite <- (length_map confidence_score forecasts).
  change (0.1 <= Np.mean (map confidence_score forecasts) <= 0.95).
  apply mean_between.
  - unfold forecasts. cbn [seq map]. discriminate.
  - intros x Hx. apply in_map_iff in Hx. destruct Hx as (f & <- & Hf).
    unfold forecasts in Hf. apply in_map_iff in Hf.
    destruct Hf as (k & <- & _). cbn [confidence_score forecast_point].
    apply calculate_confidence_bounds.
Qed.







Section Reports.

Context {sk : Sklearn}.

(** For a non-empty series and ninety days, the billing model and the
    period alone decide whether a forecast is returned. *)
Lemma generate_forecast_outcome (usage_data : list UsageMetric)
    (license_info : SoftwareLicense) (w : World) :
  usage_data <> [] ->
  (exists forecasts w',
     generate_forecast usage_data license_info 90 w = Ok (forecasts, w')
     /\ sound_entry {| lf_license := lic_name license_info;
                       lf_forecasts := forecasts;
                       lf_summary := _summarize_forecasts forecasts |})
  \/ (billing_type license_info = FLAT_RATE
      /\ license_period_months license_info = 0%Z
      /\ generate_forecast usage_data license_info 90 w = Raise ZeroDivisionError).
Proof.
  intros Hne.
  assert (Hcases : (billing_type license_info <> FLAT_RATE
                    \/ license_period_months license_info <> 0%Z)
                   \/ (billing_type license_info = FLAT_RATE
                       /\ license_period_months license_info = 0%Z)).
  { destruct (billing_type license_info);
      try (left; left; discriminate).
    destruct (Z.eq_dec (license_period_months license_info) 0);
      [right; split; [reflexivity | assumption] | left; right; assumption]. }
  destruct Hcases as [Hgood | (Hb & Hz)].
  - left.
    destruct (generate_forecast_total usage_data license_info 90 w Hne
                ltac:(lia) Hgood) as (uf & cf & _ & _ & Hrun).
    eexists; eexists. split; [exact Hrun |].
    change (Z.to_nat 90) with 90%nat.
    destruct (summarize_forecast_points (sort_values_date usage_data)
                license_info uf cf (fun k => clock w (ticks w + k)) 89)
      as (s & Hs & Hc & Ht).
    cbv beta zeta in Hs.
    split; [cbn [lf_forecasts]; now rewrite length_map, length_seq |].
    exists s. cbn [lf_summary lf_forecasts].
    repeat split; try assumption; try apply Hc.
    rewrite Ht. apply determine_trend_known.
  - right. split; [exact Hb |]. split; [exact Hz |].
    destruct (forecast_usage_ok (sort_values_date usage_data) 90 ltac:(lia))
      as (uf & Hu & _).
    apply (generate_forecast_raises _ _ _ _ uf); [exact Hne | exact Hu |].
    rewrite (forecast_costs_flat _ _ _ uf) by assumption.
    now rewrite Hz.
Qed.


Lemma forecast_each_raises (usage_data : list UsageMetric)
    (licenses : list SoftwareLicense) (w : World) :
  (exists l, In l licenses /\ in_use usage_data l = true
             /\ billing_type l = FLAT_RATE
             /\ license_period_months l = 0%Z) ->
  forecast_each licenses usage_data w = Raise ZeroDivisionError.
Proof.
  revert w. induction licenses as [| l rest IH];
    intros w (bad & Hin & Hu & Hb & Hz).
  - destruct Hin.
  - cbn [forecast_each].
    destruct (filter (fun m => (um_license_id m =? lic_id l)%string)
                usage_data) as [| m t] eqn:Ef.
    + apply RoutesFacts.filter_nil_existsb in Ef.
      fold (in_use usage_data l) in Ef.
      apply IH. exists bad. destruct Hin as [-> | Hin]; [congruence |].
      repeat split; assumption.
    + assert (Hne : m :: t <> []) by discriminate.
      destruct (generate_forecast_outcome (m :: t) l w Hne)
        as [(fs & w1 & Hrun & _) | (_ & _ & Hraise)].
      * unfold bind at 1. rewrite Hrun.
        destruct Hin as [-> | Hin].
        -- exfalso.
           destruct (forecast_usage_ok (sort_values_date (m :: t)) 90
                       ltac:(lia)) as (uf & Hu' & _).
           rewrite (generate_forecast_raises (m :: t) bad 90 w uf
                      ZeroDivisionError Hne Hu') in Hrun; [discriminate |].
           rewrite (forecast_costs_flat _ _ _ uf) by assumption.
           now rewrite Hz.
        -- unfold bind at 1. rewrite (IH w1); [reflexivity |].
           exists bad. repeat split; assumption.
      * unfold bind at 1. now rewrite Hraise.
Qed.



(** X29. One flat-rate license with a period of zero months and a metric
    of its own makes the forecast report raise [ZeroDivisionError],
    whatever the other licenses are. *)
Theorem forecast_report_raises_on_flat_rate_zero_period
    (licenses : list SoftwareLicense) (usage_data : list UsageMetric)
    (w : World) (l : SoftwareLicense) :
  In l licenses ->
  in_use usage_data l = true ->
  billing_type l = FLAT_RATE ->
  license_period_months l = 0%Z ->
  _generate_forecast_report licenses usage_data w = Raise ZeroDivisionError.
Proof.
  intros Hin Hu Hb Hz.
  unfold _generate_forecast_report, bind.
  rewrite forecast_each_raises; [reflexivity |].
  exists l. repeat split; assumption.
Qed.

End Reports.



End ReportFacts.

(** * The further properties on the examples *)

(** X1 (witness). The one-day recommendation. *)
Lemma recommendation_decision_witness :
  exists w',
    generate_recommendations (sk := no_outliers)
      (sample_license PER_USER 12 (day0 + 100))
      [usage_on (day0 - 1) 10 50] (world_on day0) = Ok (one_day_verdict, w')
    /\ In (recommendation one_day_verdict) decisions
    /\ (1 <= length (reasoning one_day_verdict) <= 4)%nat.
Proof.
  destruct one_day_recommendation_run as (w' & Hrun).
  exists w'. split; [exact Hrun |].
  exact (recommendation_decision_is_known _ _ _ _ _ Hrun).
Defined.

(** X2 (witness). Had the one-day recommendation been "cancel", the mean
    would be below 20. *)
Lemma cancel_cause_witness :
  exists w',
    generate_recommendations (sk := no_outliers)
      (sample_license PER_USER 12 (day0 + 100))
      [usage_on (day0 - 1) 10 50] (world_on day0) = Ok (one_day_verdict, w')
    /\ (recommendation one_day_verdict = "cancel"%string ->
        Np.mean (map utilization_percentage [usage_on (day0 - 1) 10 50]) < 20).
Proof.
  destruct one_day_recommendation_run as (w' & Hrun).
  exists w'. split; [exact Hrun |].
  assert (Hne : [usage_on (day0 - 1) 10 50] <> []) by discriminate.
  destruct (cancel_and_negotiate_have_a_cause _ _ _ _ _ Hne Hrun) as (Hc & _).
  exact Hc.
Defined.

(** X3 (witness). The one-day "renew" saves nothing. *)
Lemma savings_witness :
  exists w',
    generate_recommendations (sk := no_outliers)
      (sample_license PER_USER 12 (day0 + 100))
      [usage_on (day0 - 1) 10 50] (world_on day0) = Ok (one_day_verdict, w')
    /\ estimated_savings one_day_verdict =
         Some (annual_cost (sample_license PER_USER 12 (day0 + 100))
               * savings_share (recommendation one_day_verdict)).
Proof.
  destruct one_day_recommendation_run as (w' & Hrun).
  exists w'. split; [exact Hrun |].
  assert (Hne : [usage_on (day0 - 1) 10 50] <> []) by discriminate.
  destruct (savings_follow_the_decision _ _ _ _ _ Hne Hrun) as (_ & Hs).
  exact Hs.
Defined.

(** X4 (witness). At 50 percent only the multi-year contract is offered. *)
Lemma alternatives_witness :
  exists w',
    generate_recommendations (sk := no_outliers)
      (sample_license PER_USER 12 (day0 + 100))
      [usage_on (day0 - 1) 10 50] (world_on day0) = Ok (one_day_verdict, w')
    /\ ~ (In (pay_per_use (sample_license PER_USER 12 (day0 + 100)))
            (alternative_options one_day_verdict)
          /\ In (enterprise (sample_license PER_USER 12 (day0 + 100)))
               (alternative_options one_day_verdict)).
Proof.
  destruct one_day_recommendation_run as (w' & Hrun).
  exists w'. split; [exact Hrun |].
  assert (Hne : [usage_on (day0 - 1) 10 50] <> []) by discriminate.
  destruct (alternatives_by_utilization _ _ _ _ _ Hne Hrun) as (_ & _ & _ & Hn).
  exact Hn.
Defined.

(** X5 (witness). The one-day recommendation lists no risk factor. *)
Lemma risks_witness :
  exists w',
    generate_recommendations (sk := no_outliers)
      (sample_license PER_USER 12 (day0 + 100))
      [usage_on (day0 - 1) 10 50] (world_on day0) = Ok (one_day_verdict, w')
    /\ (length (risk_factors one_day_verdict) <= 4)%nat
    /\ NoDup (risk_factors one_day_verdict).
Proof.
  destruct one_day_recommendation_run as (w' & Hrun).
  exists w'. split; [exact Hrun |].
  assert (Hne : [usage_on (day0 - 1) 10 50] <> []) by discriminate.
  assert (Hday : clock (world_on day0) (ticks (world_on day0) + 90) = day0)
    by reflexivity.
  destruct (risks_accumulate_to_high_priority _ _ day0 _ _ _ Hne Hday Hrun)
    as (Hl & Hd & _).
  split; assumption.
Defined.

(** X6 (witness). Three days forecast from one day of history. *)
Lemma short_history_forecast_witness :
  exists forecasts w',
    generate_forecast (sk := no_outliers) [usage_on (day0 - 1) 10 50]
      (sample_license PER_USER 12 (day0 + 100)) 3 (world_on day0)
      = Ok (forecasts, w')
    /\ length forecasts = 3%nat
    /\ forall f, In f forecasts ->
         predicted_usage f
           = Np.mean (map units_used [usage_on (day0 - 1) 10 50])
         /\ confidence_score f = 0.3
         /\ trend f = "stable"%string.
Proof.
  assert (Hne : [usage_on (day0 - 1) 10 50] <> []) by discriminate.
  destruct (generate_forecast_total (sk := no_outliers)
              [usage_on (day0 - 1) 10 50]
              (sample_license PER_USER 12 (day0 + 100)) 3 (world_on day0))
    as (uf & cf & _ & _ & Hrun).
  - exact Hne.
  - lia.
  - left; discriminate.
  - eexists; eexists. split; [exact Hrun |]. split; [reflexivity |].
    assert (Hlen : (length [usage_on (day0 - 1) 10 50] < 7)%nat)
      by (simpl; lia).
    exact (short_history_forecast_is_flat (sk := no_outliers) _ _ _ _ _ _
             Hne Hlen Hrun).
Defined.


(** X8 (witness). The factors of three days forecast from one day. *)
Lemma seasonal_factors_witness :
  exists forecasts w',
    generate_forecast (sk := no_outliers) [usage_on (day0 - 1) 10 50]
      (sample_license PER_USER 12 (day0 + 100)) 3 (world_on day0)
      = Ok (forecasts, w')
    /\ length forecasts = 3%nat
    /\ forall f, In f forecasts ->
         exists monthly weekly,
           seasonal_factors f
             = [("monthly"%string, monthly); ("weekly"%string, weekly)]
           /\ 0.9 <= monthly <= 1.1
           /\ 0.95 <= weekly <= 1.05
           /\ (Calendar.weekday (forecast_date f) = 0%Z -> weekly = 1)
           /\ (Calendar.month (forecast_date f) = 1%Z -> monthly = 1).
Proof.
  assert (Hne : [usage_on (day0 - 1) 10 50] <> []) by discriminate.
  destruct (generate_forecast_total (sk := no_outliers)
              [usage_on (day0 - 1) 10 50]
              (sample_license PER_USER 12 (day0 + 100)) 3 (world_on day0))
    as (uf & cf & _ & _ & Hrun).
  - exact Hne.
  - lia.
  - left; discriminate.
  - eexists; eexists. split; [exact Hrun |]. split; [reflexivity |].
    exact (seasonal_factors_stay_near_one (sk := no_outliers) _ _ _ _ _ _
             Hne Hrun).
Defined.

(** X9 (witness). A horizon of -1 on one day of history. *)
Lemma negative_horizon_witness :
  generate_forecast (sk := no_outliers) [usage_on (day0 - 1) 10 50]
    (sample_license PER_USER 12 (day0 + 100)) (-1) (world_on day0)
    = Raise ValueError.
Proof.
  assert (Hne : [usage_on (day0 - 1) 10 50] <> []) by discriminate.
  assert (Hneg : (-1 < 0)%Z) by lia.
  destruct (negative_horizon (sk := no_outliers) [usage_on (day0 - 1) 10 50]
              (sample_license PER_USER 12 (day0 + 100)) (-1) (world_on day0)
              Hne Hneg) as (Hshort & _).
  apply Hshort. simpl. lia.
Defined.

(** X10 (witness). The one-day verdict is the utilization step's. *)
Lemma short_history_verdict_witness :
  exists w',
    generate_recommendations (sk := no_outliers)
      (sample_license PER_USER 12 (day0 + 100))
      [usage_on (day0 - 1) 10 50] (world_on day0) = Ok (one_day_verdict, w')
    /\ (recommendation one_day_verdict, confidence one_day_verdict,
        reasoning one_day_verdict) =
         evaluate_cost_trend
           (_calculate_trend
              (map cost_incurred (sort_values_date [usage_on (day0 - 1) 10 50])))
           (evaluate_utilization
              (Np.mean (map utilization_percentage [usage_on (day0 - 1) 10 50]))).
Proof.
  destruct one_day_recommendation_run as (w' & Hrun).
  exists w'. split; [exact Hrun |].
  assert (Hne : [usage_on (day0 - 1) 10 50] <> []) by discriminate.
  assert (Hlen : (length [usage_on (day0 - 1) 10 50] < 7)%nat) by (simpl; lia).
  assert (Hpos : 0 <= Np.mean (map units_used [usage_on (day0 - 1) 10 50])).
  { unfold Np.mean, Np.sum. simpl. lra. }
  exact (short_history_verdict _ _ _ _ _ Hne Hlen Hpos Hrun).
Defined.


(** X12 (witness). Two days leave the analyzer unfitted. *)
Lemma analyzer_returns_witness :
  exists a w',
    analyze_utilization_patterns (sk := no_outliers)
      [usage_on (day0 - 2) 0 0; usage_on (day0 - 1) 2 2] (world_on day0)
      = Ok (a, w')
    /\ w' = world_on day0 /\ get_anomalies a = [].
Proof.
  destruct (analyzer_always_returns (sk := no_outliers)
              [usage_on (day0 - 2) 0 0; usage_on (day0 - 1) 2 2]
              (world_on day0)) as (a & w' & Hrun & _ & _ & Hshort & _).
  exists a, w'. split; [exact Hrun |]. apply Hshort. simpl. lia.
Defined.

(** X13 (witness). The anomalies of two days. *)
Lemma anomalies_witness :
  exists p w',
    analyze_utilization_patterns (sk := no_outliers)
      [usage_on (day0 - 2) 0 0; usage_on (day0 - 1) 2 2] (world_on day0)
      = Ok (Analysis p, w')
    /\ (length (anomalies p) <= 2)%nat.
Proof.
  assert (Hne : [usage_on (day0 - 2) 0 0; usage_on (day0 - 1) 2 2] <> [])
    by discriminate.
  destruct (analyze_nonempty_run (sk := no_outliers)
              [usage_on (day0 - 2) 0 0; usage_on (day0 - 1) 2 2]
              (world_on day0) Hne) as (p & w' & Hrun & _).
  exists p, w'. split; [exact Hrun |].
  destruct (anomalies_come_from_rows _ _ _ _ Hrun) as (Hl & _).
  exact Hl.
Defined.

(** X14 (witness). Costs 5, 6, 7 are increasing. *)
Lemma trend_of_steady_change_witness :
  _calculate_trend (affine 5 1 3) = "increasing"%string.
Proof.
  destruct (trend_of_steady_change 5 1 3) as (_ & Hlong).
  assert (Hn : (2 <= 3)%nat) by lia.
  destruct (Hlong Hn) as (Hinc & _).
  apply Hinc. lra.
Defined.



(** X17 (witness). The sample license added to an empty store. *)
Lemma add_license_witness :
  DataManager.get_license
    (DataManager.add_license (sample_license PER_USER 12 (day0 + 100)) empty_disk)
    "LIC-001"
  = Some (sample_license PER_USER 12 (day0 + 100)).
Proof.
  destruct (DataManagerFacts.add_license_then_get
              (sample_license PER_USER 12 (day0 + 100)) empty_disk)
    as (Hnew & _).
  apply Hnew. reflexivity.
Defined.

(** X18 (witness). Updating an id that is not stored writes nothing. *)
Lemma update_license_witness :
  DataManager.update_license "LIC-404"
    (sample_license FLAT_RATE 12 (day0 + 100)) sample_disk
  = (false, sample_disk).
Proof.
  destruct (DataManagerFacts.update_license_replaces_in_place "LIC-404"
              (sample_license FLAT_RATE 12 (day0 + 100)) sample_disk)
    as (Hmiss & _).
  apply Hmiss. reflexivity.
Defined.

(** X19 (witness). Deleting the sample license leaves its id unknown. *)
Lemma delete_license_witness :
  DataManager.get_license (DataManager.delete_license "LIC-001" sample_disk)
    "LIC-001" = None
  /\ DataManager.get_usage_metrics
       (DataManager.delete_license "LIC-001" sample_disk) "LIC-001" = [].
Proof.
  destruct (DataManagerFacts.delete_license_cascades "LIC-001" sample_disk)
    as (Hl & Hm & _).
  split; assumption.
Defined.


(** X21 (witness). The distribution of the sample store. *)
Lemma utilization_distribution_witness :
  exists counts,
    DataManager.get_utilization_distribution (sk := no_outliers) sample_disk
      (world_on day0)
      = Ok ((distribution_ranges, counts), advance 1 (world_on day0))
    /\ length counts = 5%nat.
Proof.
  destruct (DataManagerFacts.utilization_distribution_counts_licenses
              (sk := no_outliers) sample_disk (world_on day0)) as (_ & Hsome).
  assert (Hne : DataManager.get_all_usage_metrics sample_disk <> [])
    by discriminate.
  destruct (Hsome Hne) as (counts & Hrun & Hl & _).
  exists counts. split; assumption.
Defined.


(** X23 (witness). Three days forecast for the sample license. *)
Lemma forecast_route_witness :
  exists forecasts,
    Routes.get_license_forecast (sk := no_outliers) sample_disk "LIC-001" 3
      (world_on day0)
      = Ok (Served forecasts, advance 3 (world_on day0))
    /\ length forecasts = 3%nat.
Proof.
  destruct (RoutesFacts.forecast_route_serves (sk := no_outliers) sample_disk
              "LIC-001" 3 (world_on day0)
              (sample_license PER_USER 12 (day0 + 100)))
    as (forecasts & Hrun & Hl & _).
  - reflexivity.
  - discriminate.
  - lia.
  - left; discriminate.
  - exists forecasts. split; [exact Hrun | exact Hl].
Defined.

(** X24 (witness). The recommendation for the sample license. *)
Lemma recommendation_route_witness :
  exists r w',
    Routes.get_license_recommendation (sk := no_outliers) sample_disk "LIC-001"
      (world_on day0) = Ok (Served r, w')
    /\ rec_license_id r = "LIC-001"%string
    /\ In (recommendation r) decisions.
Proof.
  destruct (RoutesFacts.recommendation_route_serves (sk := no_outliers)
              sample_disk "LIC-001" (world_on day0)
              (sample_license PER_USER 12 (day0 + 100)))
    as (r & w' & Hrun & Hid & Hd & _).
  - reflexivity.
  - discriminate.
  - discriminate.
  - exists r, w'. split; [exact Hrun |]. split; assumption.
Defined.

(** X25 (witness). The dashboard of the sample store. *)
Lemma dashboard_witness :
  exists summary,
    Routes.get_dashboard_summary (sk := no_outliers) sample_disk (world_on day0)
      = Routes.DashboardServed summary
    /\ Routes.ds_total_licenses summary = 1%nat
    /\ map Routes.de_license_name (Routes.ds_recommendations summary)
       = ["Design Suite"%string].
Proof.
  destruct (RoutesFacts.dashboard_lists_every_license_in_use (sk := no_outliers)
              sample_disk (world_on day0))
    as (summary & Hrun & Hn & Hnames & _).
  - intros l [<- | []] _. discriminate.
  - exists summary. split; [exact Hrun |]. split; [exact Hn | exact Hnames].
Defined.

(** X26 (witness). The dashboard of a store whose license has a period of
    zero months. *)
Lemma dashboard_failure_witness :
  Routes.get_dashboard_summary (sk := no_outliers) zero_period_disk
    (world_on day0)
  = Routes.DashboardFailed 500 ZeroDivisionError.
Proof.
  apply (RoutesFacts.dashboard_fails_on_a_zero_period (sk := no_outliers)
           zero_period_disk (world_on day0)
           (sample_license PER_USER 0 (day0 + 100))).
  - left. reflexivity.
  - reflexivity.
  - reflexivity.
Defined.



(** X29 (witness). The forecast report of a flat-rate license with a
    period of zero months. *)
Lemma forecast_report_failure_witness :
  ReportCustomizer._generate_forecast_report (sk := no_outliers)
    [sample_license FLAT_RATE 0 (day0 + 100)] [usage_on (day0 - 1) 10 50]
    (world_on day0)
  = Raise ZeroDivisionError.
Proof.
  apply (ReportFacts.forecast_report_raises_on_flat_rate_zero_period
           (sk := no_outliers) _ _ _ (sample_license FLAT_RATE 0 (day0 + 100))).
  - left. reflexivity.
  - reflexivity.
  - reflexivity.
  - reflexivity.
Defined.

